(** * Randolph dashboard: the aggregation endpoint and the derived views

    A shallow embedding of
    - [src/lib/odoo.js]        the XML-RPC client ([Odoo]),
    - the route handler [GET]  the "stats" and "invoice" operations ([Route]),
    - the two page variants    the client-side recomputation ([Page],
                               [PageCalendar], [PageFinancial]),
    followed by the properties of the specification that concern them.

    Numbers.  A JavaScript number is an IEEE double.  [Route] and [Page]
    model finite values by exact rationals ([Q], compared with [==]); the
    values that are not finite are kept apart in [Js.number], so that a
    division by zero or an addition to [undefined] is visible in the
    model.  Rounding is not modelled there, and the properties stated over
    these modules are those that do not depend on it.  [RouteDouble] and
    [PageDouble] embed the accumulation of the stats operation and the
    location-spend view once more over the doubles themselves (the
    binary64 numbers of the kernel): the properties that depend on the
    order and the rounding of the additions are stated there.

    Strings.  [Route] and [Page] compare strings and take ASCII literals
    apart; [PageDouble] models an address name as the sequence of its
    UTF-16 code units, which is what the string methods of the label
    computation work on. *)

From Stdlib Require Import List String Ascii ZArith QArith Qabs Bool Lia Lqa.
From Stdlib Require Import DecimalString DecimalPos DecimalZ Finite.
From Stdlib Require Import Permutation Sorted.
From Stdlib Require PrimFloat FloatOps SpecFloat Uint63.
Import ListNotations.
Local Open Scope string_scope.

(* ================================================================== *)
(** * The JavaScript values the program relies on *)
(* ================================================================== *)

Module Js.

(** ** Truthiness of a string that may be [undefined] or [null]:
    [!s] holds for [undefined], [null] and the empty string. *)
Definition truthy (s : option string) : option string :=
  match s with
  | Some EmptyString => None
  | _ => s
  end.

(** ** [x || 0] on a number field that may be missing: [undefined],
    [null], [false] and [NaN] are falsy, and so is [0] itself. *)
Definition or0 (x : option Q) : Q :=
  match x with
  | Some q => q
  | None => 0%Q
  end.

(** ** [x > y] on finite numbers. *)
Definition gtb (x y : Q) : bool := negb (Qle_bool x y).

(** ** Numbers that may fail to be finite. *)
Inductive number : Type :=
| Num (q : Q)
| Infinity (negative : bool)
| NaN.

(** [a / b] on finite operands (the sign of a zero is not tracked). *)
Definition div (a b : Q) : number :=
  if Qeq_bool b 0 then
    if Qeq_bool a 0 then NaN else Infinity (Qle_bool a 0)
  else Num (a / b).

(** [x + y]. *)
Definition add (x y : number) : number :=
  match x, y with
  | Num a, Num b => Num (a + b)
  | NaN, _ | _, NaN => NaN
  | Infinity s, Infinity t => if Bool.eqb s t then Infinity s else NaN
  | Infinity s, Num _ | Num _, Infinity s => Infinity s
  end.

(** ** Plain objects used as string-keyed maps.

    The own properties are kept in insertion order, which is the order
    [Object.entries] enumerates them in.  Keys that look like array
    indices are enumerated first, in ascending order: the day numbers
    of the chart are created in this order, and address names are
    taken not to be numerals. *)
Definition obj (V : Type) : Type := list (string * V).

Fixpoint get {V} (o : obj V) (k : string) : option V :=
  match o with
  | [] => None
  | (k', v) :: o' => if String.eqb k k' then Some v else get o' k
  end.

(** [o[k] = v]: overwrite in place, or append a new own property. *)
Fixpoint set {V} (o : obj V) (k : string) (v : V) : obj V :=
  match o with
  | [] => [(k, v)]
  | (k', v') :: o' =>
      if String.eqb k k' then (k', v) :: o' else (k', v') :: set o' k v
  end.

Definition keys {V} (o : obj V) : list string := map fst o.
Definition values {V} (o : obj V) : list V := map snd o.

(** The properties every object literal inherits from
    [Object.prototype]: reading one of them from [{}] yields a
    function (or the prototype itself), never [undefined]. *)
Definition inherited : list string :=
  [ "constructor"; "__proto__"; "hasOwnProperty"; "isPrototypeOf";
    "propertyIsEnumerable"; "toLocaleString"; "toString"; "valueOf";
    "__defineGetter__"; "__defineSetter__";
    "__lookupGetter__"; "__lookupSetter__" ].

Definition is_inherited (k : string) : bool :=
  existsb (String.eqb k) inherited.

(** ** Exceptions and rejected promises. *)
Record Error : Type := mkError {
  message : string;
  faultString : option string
}.

Definition error (msg : string) : Error :=
  {| message := msg; faultString := None |}.

Inductive result (A : Type) : Type :=
| Ok (a : A)
| Throw (e : Error).
Arguments Ok {A} a.
Arguments Throw {A} e.

Definition bind {A B} (r : result A) (k : A -> result B) : result B :=
  match r with
  | Ok a => k a
  | Throw e => Throw e
  end.

(** [arr.forEach] with a body that may throw, threading the variables
    the body assigns. *)
Fixpoint forEach {S A} (body : S -> A -> result S) (arr : list A) (s : S)
  : result S :=
  match arr with
  | [] => Ok s
  | a :: arr' => bind (body s a) (forEach body arr')
  end.

End Js.

Notation "x <- c1 ;; c2" := (Js.bind c1 (fun x => c2))
(at level 61, c1 at next level, right associativity).

(* ================================================================== *)
(** * [src/lib/odoo.js]: the remote API client *)
(* ================================================================== *)

Module Odoo.
Import Js.

(** [process.env] *)
Record Env : Type := {
  ODOO_URL : option string;
  ODOO_DB : option string;
  ODOO_USERNAME : option string;
  ODOO_PASSWORD : option string;
  ODOO_CUSTOMER_REF : option string
}.

Record Config : Type := {
  url : string;
  db : string;
  username : string;
  password : string
}.

Definition getOdooConfig (env : Env) : result Config :=
  match truthy (ODOO_URL env), truthy (ODOO_DB env),
        truthy (ODOO_USERNAME env), truthy (ODOO_PASSWORD env) with
  | Some u, Some d, Some n, Some p =>
      Ok {| url := u; db := d; username := n; password := p |}
  | _, _, _, _ => Throw (error "Missing Odoo environment variables")
  end.

(** ** The records the handler reads.  A field the ERP may leave
    empty ([false]) is an [option]. *)

Record Partner : Type := {
  partner_id : Z;
  partner_name : string
}.

Module Inv.
Record t : Type := mk {
    id : Z;
    name : string;
    invoice_date : option string;
    amount_total : option Q;
    amount_untaxed : option Q;
    amount_tax : option Q;
    partner_shipping_id : option (Z * string);
    move_type : string;
    state : string
  }.
End Inv.

Record MoveRow : Type := {
  invoice_line_ids : option (list Z)
}.

Module Line.
Record t : Type := mk {
    id : Z;
    name : option string;
    product_id : option (Z * string);
    quantity : option Q;
    price_unit : option Q;
    price_subtotal : option Q;
    discount : option Q;
    display_type : option string;
    account_id : option (Z * string)
  }.
End Line.

(** ** The [search_read] calls of the handler, indexed by the type of
    their result.  [invoiceId] is the raw query parameter: the handler
    sends [parseInt(invoiceId)], a function of it. *)
Inductive Query : Type -> Type :=
| PartnerByRef (customerRef : string) : Query (list Partner)
    (* res.partner, [ref = customerRef], limit 10 *)
| PostedMoves (partnerId : Z) : Query (list Inv.t)
    (* account.move, child_of partnerId, out_invoice/out_refund,
       posted, invoice_date >= 2026-01-01, limit 1000 *)
| MoveById (invoiceId : string) : Query (list MoveRow)
    (* account.move, [id = invoiceIdInt], fields invoice_line_ids *)
| LinesByIds (lineIds : list Z) : Query (list Line.t)
    (* account.move.line, [id in lineIds] *)
| LinesFiltered (invoiceId : string) : Query (list Line.t)
    (* account.move.line, move_id, display_type not in .., subtotal > 0 *)
| LinesRaw (invoiceId : string) : Query (list Line.t).
    (* account.move.line, [move_id = invoiceIdInt] *)

(** ** The ERP, as seen through the two XML-RPC endpoints.  Every call
    authenticates again, so the outcome of [authenticate] is given per
    call; a uid of [None] is [false]. *)
Record Remote : Type := {
  authenticate : forall A, Config -> Query A -> result (option Z);
  execute_kw : forall A, Config -> Z -> Query A -> result A
}.

Definition odooLogin {A} (env : Env) (remote : Remote) (q : Query A)
  : result Z :=
  cfg <- getOdooConfig env ;;
  match authenticate remote A cfg q with
  | Throw e => Throw e
  | Ok (Some uid) =>
      if (uid =? 0)%Z
      then Throw (error
             "Authentication failed: No UID returned (check credentials)")
      else Ok uid
  | Ok None =>
      Throw (error
        "Authentication failed: No UID returned (check credentials)")
  end.

Definition odooSearchRead {A} (env : Env) (remote : Remote) (q : Query A)
  : result A :=
  cfg <- getOdooConfig env ;;
  uid <- odooLogin env remote q ;;
  execute_kw remote A cfg uid q.

End Odoo.


(* ================================================================== *)
(** * The route handler: [GET] with [type=stats] and [type=invoice] *)
(* ================================================================== *)

Module Route.
Import Js Odoo.

(** ** The response bodies *)

Module Order.
Record t : Type := mk {
  id : Z;
  name : string;
  date : option string;
  amount : Q
}.
End Order.

Module Bucket.
Record t : Type := mk {
  count : nat;
  total : Q;
  orders : list Order.t
}.
End Bucket.

Module Kpi.
Record t : Type := mk {
  revenue : Q;
  orders : nat;
  items : Q;
  avgOrderValue : number
}.
End Kpi.

Module Item.
Record t : Type := mk {
  id : Z;
  name : string;
  quantity : Q;
  price_unit : Q;      (* rendered by [toFixed(2)] *)
  price_subtotal : Q;  (* rendered by [toFixed(2)] *)
  raw_subtotal : Q;
  account_id : option Z;
  display_type : option string
}.
End Item.

Record StatsBody : Type := {
  customer : string;
  kpi : Kpi.t;
  salesByAddress : obj Bucket.t;
  recentInvoices : list Inv.t
}.

Inductive Body : Type :=
| Stats (s : StatsBody)
| Items (items : list Item.t)
| Failure (error : string)
| Empty.

Record Response : Type := {
  body : Body;
  status : Z
}.

(** [NextResponse.json(body)] and [NextResponse.json(body, { status })] *)
Definition json (b : Body) : Response := {| body := b; status := 200 |}.
Definition json_status (b : Body) (s : Z) : Response :=
  {| body := b; status := s |}.

(** ** The "stats" operation *)

(** The sign-adjusted total of one document: the absolute value for an
    invoice, its negation for a credit note. *)
Definition amountTotal (inv : Inv.t) : Q :=
  let amountTotal := or0 (Inv.amount_total inv) in
  if String.eqb (Inv.move_type inv) "out_refund"
  then (- Qabs amountTotal)%Q
  else Qabs amountTotal.

Definition addressName (inv : Inv.t) : string :=
  match Inv.partner_shipping_id inv with
  | Some (_, display_name) => display_name
  | None => "Unknown"
  end.

(** The variables the loop over the documents assigns. *)
Record Totals : Type := {
  totalRevenue : Q;
  byAddress : obj Bucket.t
}.

(** One round of [invoices.forEach].  When the address name is an
    inherited property, [salesByAddress[addressName]] is truthy without
    being a bucket, no bucket is created and [.orders.push] throws. *)
Definition accumulate (acc : Totals) (inv : Inv.t) : result Totals :=
  let amountTotal := amountTotal inv in
  let totalRevenue := (totalRevenue acc + amountTotal)%Q in
  let addressName := addressName inv in
  if is_inherited addressName then
    Throw (error "Cannot read properties of undefined (reading 'push')")
  else
    let bucket :=
      match get (byAddress acc) addressName with
      | Some b => b
      | None => Bucket.mk 0 0 []
      end in
    Ok {| totalRevenue := totalRevenue;
          byAddress :=
            set (byAddress acc) addressName
              (Bucket.mk
                 (Bucket.count bucket + 1)
                 (Bucket.total bucket + amountTotal)%Q
                 (Bucket.orders bucket ++
                    [Order.mk (Inv.id inv) (Inv.name inv)
                       (Inv.invoice_date inv) amountTotal])) |}.

Definition avgOrderValue (totalRevenue : Q) (totalOrders : nat) : number :=
  if (0 <? totalOrders)%nat
  then div totalRevenue (inject_Z (Z.of_nat totalOrders))
  else Num 0.

Definition with_amount_total (inv : Inv.t) (a : Q) : Inv.t :=
  Inv.mk (Inv.id inv) (Inv.name inv) (Inv.invoice_date inv) (Some a)
    (Inv.amount_untaxed inv) (Inv.amount_tax inv)
    (Inv.partner_shipping_id inv) (Inv.move_type inv) (Inv.state inv).

(** Steps 3 and 4: the body built from the fetched documents. *)
Definition process (mainPartner : Partner) (invoices : list Inv.t)
  : result StatsBody :=
  let totalOrders := List.length invoices in
  acc <- forEach accumulate invoices
           {| totalRevenue := 0; byAddress := [] |} ;;
  Ok {| customer := partner_name mainPartner;
        kpi := Kpi.mk (totalRevenue acc) totalOrders 0
                 (avgOrderValue (totalRevenue acc) totalOrders);
        salesByAddress := byAddress acc;
        recentInvoices :=
          map (fun inv => with_amount_total inv (amountTotal inv))
            invoices |}.

Definition stats (env : Env) (remote : Remote) : Response :=
  match truthy (ODOO_CUSTOMER_REF env) with
  | None =>
      json_status
        (Failure "Missing ODOO_CUSTOMER_REF environment variable") 500
  | Some customerRef =>
      let attempt : result Response :=
        partners <- odooSearchRead env remote (PartnerByRef customerRef) ;;
        match partners with
        | [] =>
            Ok (json_status
                  (Failure ("Customer with Ref " ++ customerRef
                            ++ " not found")) 404)
        | mainPartner :: _ =>
            let partnerId := partner_id mainPartner in
            invoices <- odooSearchRead env remote (PostedMoves partnerId) ;;
            s <- process mainPartner invoices ;;
            Ok (json (Stats s))
        end in
      match attempt with
      | Ok response => response
      | Throw e =>
          json_status
            (Failure ("Failed to fetch Odoo data: " ++ message e)) 500
      end
  end.

(** ** The "invoice" operation *)

Definition section_or_note (display_type : option string) : bool :=
  match truthy display_type with
  | Some t => existsb (String.eqb t) ["line_section"; "line_note"]
  | None => false
  end.

(** The client-side filter of the third tier. *)
Definition keep_line (l : Line.t) : bool :=
  let subtotal := or0 (Line.price_subtotal l) in
  match Line.product_id l with
  | None => false
  | Some _ =>
      if section_or_note (Line.display_type l) then false
      else gtb subtotal 0
  end.

(** The three tiers, inside the inner [try]. *)
Definition fetch_lines (env : Env) (remote : Remote) (invoiceId : string)
  : result (list Line.t) :=
  moveRows <- odooSearchRead env remote (MoveById invoiceId) ;;
  match moveRows with
  | {| invoice_line_ids := Some (lineId :: lineIds) |} :: _ =>
      odooSearchRead env remote (LinesByIds (lineId :: lineIds))
  | _ =>
      match odooSearchRead env remote (LinesFiltered invoiceId) with
      | Ok srvLines => Ok srvLines
      | Throw srvErr =>
          rawLines <- odooSearchRead env remote (LinesRaw invoiceId) ;;
          Ok (filter keep_line rawLines)
      end
  end.

Definition normalize (line : Line.t) : Item.t :=
  let qty := or0 (Line.quantity line) in
  let unit := or0 (Line.price_unit line) in
  let disc := (or0 (Line.discount line) / 100)%Q in
  let subtotal :=
    match Line.price_subtotal line with
    | Some s => s
    | None => (unit * qty * (1 - disc))%Q
    end in
  let product_name :=
    match Line.product_id line with
    | Some (_, n) => truthy (Some n)
    | None => None
    end in
  let name :=
    match product_name, truthy (Line.name line) with
    | Some n, _ => n
    | None, Some n => n
    | None, None => "Item"
    end in
  let account_id :=
    match Line.account_id line with
    | Some (i, _) => if (i =? 0)%Z then None else Some i
    | None => None
    end in
  Item.mk (Line.id line) name qty unit subtotal subtotal account_id
    (truthy (Line.display_type line)).

(** The lines are typed records here, so their normalisation does not
    throw and the outer [catch], which answers 500, is not reached. *)
Definition invoice (env : Env) (remote : Remote) (invoiceId : string)
  : Response :=
  match fetch_lines env remote invoiceId with
  | Throw err => json (Items [])
  | Ok lines => json (Items (map normalize lines))
  end.

(** ** The handler.  [searchParams] is the query string as a lookup. *)
Definition GET (env : Env) (remote : Remote)
  (searchParams : string -> option string) : Response :=
  match searchParams "type" with
  | Some type =>
      if String.eqb type "stats" then stats env remote
      else if String.eqb type "invoice" then
        match truthy (searchParams "id") with
        | None => json_status (Failure "Missing invoice id") 400
        | Some invoiceId => invoice env remote invoiceId
        end
      else json_status (Failure "Invalid type parameter") 400
  | None => json_status (Failure "Invalid type parameter") 400
  end.

End Route.


(* ================================================================== *)
(** * The dashboard page: what both variants share *)
(* ================================================================== *)

Module Page.
Import Js.

(** [viewBy]: the string ['year'] or the index of a month. *)
Inductive ViewBy : Type :=
| year
| month (index : Z).

(** A [Date] through its local getters; [getMonth] counts from 0. *)
Record JsDate : Type := {
  getFullYear : Z;
  getMonth : Z;
  getDate : Z
}.

Module Order.
Record t : Type := mk {
  date : option JsDate;   (* [new Date(o.date)]; [None] is Invalid Date *)
  amount : option Q
}.
End Order.

Module Group.
Record t : Type := mk {
  count : nat;
  total : Q;
  orders : list Order.t
}.
End Group.

Record OdooData : Type := {
  customer : option string;
  salesByAddress : obj Group.t
}.

(** [Object.values(data.salesByAddress).flatMap(g => g.orders)] *)
Definition allOrders (data : OdooData) : list Order.t :=
  flat_map Group.orders (values (salesByAddress data)).

(** [orders.reduce((sum, o) => sum + (o.amount || 0), 0)] *)
Definition sumAmounts (orders : list Order.t) : Q :=
  fold_left (fun sum o => (sum + or0 (Order.amount o))%Q) orders 0%Q.

(** An order filter applied to the [Date] of the order; the getters of
    an Invalid Date are [NaN], which no comparison accepts. *)
Definition on_date (p : JsDate -> bool) (o : Order.t) : bool :=
  match Order.date o with
  | Some d => p d
  | None => false
  end.

(** ** The filtered KPIs *)

Module Filtered.
Record t : Type := mk {
  revenue : Q;
  orders : nat;
  avg : number
}.
End Filtered.

Definition filteredStatsBy (keep : Order.t -> bool) (data : option OdooData)
  : Filtered.t :=
  match data with
  | None => Filtered.mk 0 0 (Num 0)
  | Some data =>
      let filteredOrders := filter keep (allOrders data) in
      let revenue := sumAmounts filteredOrders in
      let count := List.length filteredOrders in
      Filtered.mk revenue count
        (if (0 <? count)%nat
         then div revenue (inject_Z (Z.of_nat count))
         else Num 0)
  end.

(** ** Calendar arithmetic of [Date] *)

Definition isLeapYear (y : Z) : bool :=
  ((y mod 4 =? 0) && (negb (y mod 100 =? 0) || (y mod 400 =? 0)))%Z.

(** The number of days of month [m] (from 0) of year [y]. *)
Definition monthLength (y m : Z) : Z :=
  (if m =? 1 then (if isLeapYear y then 29 else 28)
   else if (m =? 3) || (m =? 5) || (m =? 8) || (m =? 10) then 30
   else 31)%Z.

(** [new Date(year, monthIndex, 0).getDate()]: day 0 is the last day of
    the month before [monthIndex]; a month index outside 0..11 carries
    into the year, and a year from 0 to 99 stands for 1900 + year. *)
Definition lastDayBefore (year monthIndex : Z) : Z :=
  let year := (if (0 <=? year) && (year <=? 99) then 1900 + year
               else year)%Z in
  let m := (monthIndex - 1)%Z in
  monthLength (year + m / 12) (m mod 12).

(** [n.toString()] for an integer. *)
Definition toString (n : Z) : string :=
  DecimalString.NilZero.string_of_int (Z.to_int n).

(** ** The chart series *)

Module Point.
Record t : Type := mk {
  name : string;
  value : option number   (* [None] is [undefined] *)
}.
End Point.

(** [grouped[key] += amount]; the sum with [undefined] is [NaN]. *)
Definition bump (grouped : obj number) (key : string) (amount : Q)
  : obj number :=
  set grouped key
    (match get grouped key with
     | Some v => add v (Num amount)
     | None => NaN
     end).

(** [for (let i = 1; i <= daysInMonth; i++)] *)
Definition daysOf (daysInMonth : Z) : list Z :=
  map Z.of_nat (seq 1 (Z.to_nat daysInMonth)).

(** [allOrders.forEach(order => { const d = new Date(order.date);
    if (matches(d)) grouped[bucket(d)] += (order.amount || 0) })] *)
Definition addOrders (matches : JsDate -> bool) (bucket : JsDate -> string)
  (allOrders : list Order.t) (grouped : obj number) : obj number :=
  fold_left
    (fun grouped order =>
       match Order.date order with
       | Some d =>
           if matches d
           then bump grouped (bucket d) (or0 (Order.amount order))
           else grouped
       | None => grouped
       end)
    allOrders grouped.

(** The month view: one bucket per day of month [actualMonth] of
    [actualYear], then the orders of that month added to their day. *)
Definition chartDays (actualYear actualMonth : Z) (allOrders : list Order.t)
  : list Point.t :=
  let daysInMonth := lastDayBefore actualYear (actualMonth + 1) in
  let grouped :=
    fold_left (fun grouped i => set grouped (toString i) (Num 0))
      (daysOf daysInMonth) [] in
  let grouped :=
    addOrders
      (fun d => (getFullYear d =? actualYear)%Z
                && (getMonth d =? actualMonth)%Z)
      (fun d => toString (getDate d))
      allOrders grouped in
  map (fun entry => Point.mk (fst entry) (Some (snd entry))) grouped.

(** The year view: one bucket per entry of [MONTHS], then the orders of
    the year added under the short month name the locale gives them. *)
Definition chartMonths (toLocaleMonthShort : JsDate -> string)
  (MONTHS : list string) (inYear : JsDate -> bool)
  (allOrders : list Order.t) : list Point.t :=
  let shortMonths := map (substring 0 3) MONTHS in
  let grouped :=
    fold_left (fun grouped m => set grouped m (Num 0)) shortMonths [] in
  let grouped := addOrders inYear toLocaleMonthShort allOrders grouped in
  map (fun m => Point.mk m (get grouped m)) shortMonths.

(** ** Address labels *)

(** White space of [\s] and [trim], within the ASCII range. *)
Definition isSpace (c : ascii) : bool :=
  let n := nat_of_ascii c in
  ((9 <=? n) && (n <=? 13) || (n =? 32))%nat.

Fixpoint trimStart (s : string) : string :=
  match s with
  | String c s' => if isSpace c then trimStart s' else s
  | EmptyString => EmptyString
  end.

Fixpoint reverse (s acc : string) : string :=
  match s with
  | String c s' => reverse s' (String c acc)
  | EmptyString => acc
  end.

Definition trimEnd (s : string) : string :=
  reverse (trimStart (reverse s "")) "".

Definition trim (s : string) : string := trimEnd (trimStart s).

Fixpoint drop (n : nat) (s : string) : string :=
  match n, s with
  | S n', String _ s' => drop n' s'
  | _, _ => s
  end.

(** [s.replace(pattern, '')] with a string pattern: the first
    occurrence is removed. *)
Fixpoint removeFirst (pattern s : string) : string :=
  if prefix pattern s then drop (String.length pattern) s
  else match s with
       | String c s' => String c (removeFirst pattern s')
       | EmptyString => EmptyString
       end.

(** [s.replace(/^,\s*/, '')] *)
Definition stripComma (s : string) : string :=
  match s with
  | String "," s' => trimStart s'
  | _ => s
  end.

(** The address name without the leading customer name. *)
Definition stripCustomer (customerName name : string) : string :=
  if negb (String.eqb customerName "") && prefix customerName name
  then trim (stripComma (removeFirst customerName name))
  else name.

Definition cleanName (customerName name : string) : string :=
  let cleanName := stripCustomer customerName name in
  if (String.length cleanName <? 2)%nat then "Main Office" else cleanName.

(** [addr.split(',')[0]] *)
Fixpoint beforeComma (s : string) : string :=
  match s with
  | String "," _ => EmptyString
  | String c s' => String c (beforeComma s')
  | EmptyString => EmptyString
  end.

Definition transformAddressName (addr : string) : string :=
  let firstPart := beforeComma addr in
  if (35 <? String.length firstPart)%nat
  then substring 0 33 firstPart ++ "..."
  else firstPart.

(** ** The location-spend bars *)

Module Bar.
Record t : Type := mk {
  name : string;
  fullName : string;
  value : Q;
  orders : option (list Order.t)   (* only the financial-year page *)
}.
End Bar.

(** [Array.prototype.sort] is stable; [compare a b > 0] puts [a] after
    [b]. *)
Fixpoint insertSorted {A} (compare : A -> A -> Q) (a : A) (sorted : list A)
  : list A :=
  match sorted with
  | [] => [a]
  | b :: rest =>
      if gtb (compare a b) 0 then b :: insertSorted compare a rest
      else a :: sorted
  end.

Definition sort {A} (compare : A -> A -> Q) (l : list A) : list A :=
  fold_right (insertSorted compare) [] l.

(** One round of [Object.entries(data.salesByAddress).forEach]: the
    total of the orders of the period is kept when it is positive. *)
Definition aggregateEntry (keep : Order.t -> bool)
  (aggregated : obj (Q * list Order.t)) (entry : string * Group.t)
  : obj (Q * list Order.t) :=
  let validOrders := filter keep (Group.orders (snd entry)) in
  let total := sumAmounts validOrders in
  if gtb total 0 then set aggregated (fst entry) (total, validOrders)
  else aggregated.

Definition aggregate (keep : Order.t -> bool) (sales : obj Group.t)
  : obj (Q * list Order.t) :=
  fold_left (aggregateEntry keep) sales [].

(** [data.customer || ''] *)
Definition customerNameOf (data : OdooData) : string :=
  match truthy (customer data) with Some c => c | None => "" end.

(** The callback of [Object.entries(aggregated).map]. *)
Definition barOf (withOrders : bool) (customerName : string)
  (entry : string * (Q * list Order.t)) : Bar.t :=
  let name := fst entry in
  Bar.mk (transformAddressName (cleanName customerName name))
    name (fst (snd entry))
    (if withOrders then Some (snd (snd entry)) else None).

Definition deliveryBarDataBy (withOrders : bool) (keep : Order.t -> bool)
  (data : option OdooData) : list Bar.t :=
  match data with
  | None => []
  | Some data =>
      let customerName := customerNameOf data in
      sort (fun a b => (Bar.value b - Bar.value a)%Q)
        (map (barOf withOrders customerName)
           (aggregate keep (salesByAddress data)))
  end.

(** ** The year selector *)

(** [years.add(y)]: a [Set] keeps its elements in insertion order. *)
Definition setAdd (y : Z) (years : list Z) : list Z :=
  if existsb (Z.eqb y) years then years else (years ++ [y])%list.

(** [new Set(ys)] *)
Definition newSet (ys : list Z) : list Z :=
  fold_left (fun years y => setAdd y years) ys [].

(** [allOrders.map(o => yearOf(new Date(o.date)))].  With an Invalid
    Date the set would hold [NaN], and the order in which [sort] leaves
    the years is then not determined by the comparator: this case is
    outside the model ([None]). *)
Fixpoint orderYears (yearOf : JsDate -> Z) (orders : list Order.t)
  : option (list Z) :=
  match orders with
  | [] => Some []
  | o :: orders' =>
      match Order.date o, orderYears yearOf orders' with
      | Some d, Some ys => Some (yearOf d :: ys)
      | _, _ => None
      end
  end.

(** [availableYears]: the years of the orders and the years that are
    always offered, from the latest to the earliest. *)
Definition availableYearsBy (yearOf : JsDate -> Z) (always : list Z)
  (data : option OdooData) : option (list Z) :=
  match data with
  | None => Some always
  | Some data =>
      match orderYears yearOf (allOrders data) with
      | Some ys =>
          let years :=
            fold_left (fun years y => setAdd y years) always (newSet ys) in
          Some (sort (fun a b => inject_Z (b - a)) years)
      | None => None
      end
  end.

(** ** Report names *)

(** [s.replace(/ /g, '_')] *)
Fixpoint replaceSpaces (s : string) : string :=
  match s with
  | String " " s' => String "_" (replaceSpaces s')
  | String c s' => String c (replaceSpaces s')
  | EmptyString => EmptyString
  end.

End Page.

(* ================================================================== *)
(** * The page that buckets by calendar year *)
(* ================================================================== *)

Module PageCalendar.
Import Js Page.

Definition MONTHS : list string :=
  [ "January"; "February"; "March"; "April"; "May"; "June";
    "July"; "August"; "September"; "October"; "November"; "December" ].

(** The filter of [filteredStats] and of [deliveryBarData]. *)
Definition inPeriod (targetYear : Z) (viewBy : ViewBy) (d : JsDate) : bool :=
  if negb (getFullYear d =? targetYear)%Z then false
  else match viewBy with
       | year => true
       | month index => (getMonth d =? index)%Z
       end.

Definition filteredStats (data : option OdooData) (viewBy : ViewBy)
  (selectedYear : Z) : Filtered.t :=
  filteredStatsBy (on_date (inPeriod selectedYear viewBy)) data.

Definition chartData (toLocaleMonthShort : JsDate -> string)
  (data : option OdooData) (viewBy : ViewBy) (selectedYear : Z)
  : list Point.t :=
  match data with
  | None => []
  | Some data =>
      let targetYear := selectedYear in
      match viewBy with
      | month index => chartDays targetYear index (allOrders data)
      | year =>
          chartMonths toLocaleMonthShort MONTHS
            (fun d => (getFullYear d =? targetYear)%Z) (allOrders data)
      end
  end.

Definition deliveryBarData (data : option OdooData) (viewBy : ViewBy)
  (selectedYear : Z) : list Bar.t :=
  deliveryBarDataBy false (on_date (inPeriod selectedYear viewBy)) data.


Definition availableYears (data : option OdooData) : option (list Z) :=
  availableYearsBy getFullYear [2026%Z] data.

(** The filter of the list "Invoices for Period", on the date of the
    invoice. *)
Definition listed (selectedYear : Z) (viewBy : ViewBy) (d : JsDate) : bool :=
  if negb (getFullYear d =? selectedYear)%Z then false
  else if match viewBy with
          | year => false
          | month index => negb (getMonth d =? index)%Z
          end
       then false
       else true.

End PageCalendar.

(* ================================================================== *)
(** * The page that buckets by financial year (April to March) *)
(* ================================================================== *)

Module PageFinancial.
Import Js Page.

Definition MONTHS : list string :=
  [ "April"; "May"; "June"; "July"; "August"; "September";
    "October"; "November"; "December"; "January"; "February"; "March" ].

Definition financialYear (d : JsDate) : Z :=
  (if 3 <=? getMonth d then getFullYear d else getFullYear d - 1)%Z.

(** The filter of [filteredStats] and of [deliveryBarData]; [%] is the
    remainder that takes the sign of the dividend. *)
Definition inPeriod (targetYear : Z) (viewBy : ViewBy) (d : JsDate) : bool :=
  if negb (financialYear d =? targetYear)%Z then false
  else match viewBy with
       | year => true
       | month index =>
           let monthIndexInYear := Z.rem (getMonth d + 9) 12 in
           (monthIndexInYear =? index)%Z
       end.

Definition filteredStats (data : option OdooData) (viewBy : ViewBy)
  (selectedYear : Z) : Filtered.t :=
  filteredStatsBy (on_date (inPeriod selectedYear viewBy)) data.

Definition chartData (toLocaleMonthShort : JsDate -> string)
  (data : option OdooData) (viewBy : ViewBy) (selectedYear : Z)
  : list Point.t :=
  match data with
  | None => []
  | Some data =>
      let targetYear := selectedYear in
      match viewBy with
      | month index =>
          let actualMonth := Z.rem (index + 3) 12 in
          let actualYear :=
            (if 9 <=? index then targetYear + 1 else targetYear)%Z in
          chartDays actualYear actualMonth (allOrders data)
      | year =>
          chartMonths toLocaleMonthShort MONTHS
            (fun d => (financialYear d =? targetYear)%Z) (allOrders data)
      end
  end.

Definition deliveryBarData (data : option OdooData) (viewBy : ViewBy)
  (selectedYear : Z) : list Bar.t :=
  deliveryBarDataBy true (on_date (inPeriod selectedYear viewBy)) data.


(** The initial [selectedYear], from today's date. *)
Definition initialYear (today : JsDate) : Z :=
  (if getMonth today <? 3 then getFullYear today - 1
   else getFullYear today)%Z.

Definition availableYears (data : option OdooData) : option (list Z) :=
  availableYearsBy financialYear [2025%Z; 2026%Z] data.

(** The filter of the list "Invoices for Period", on the date of the
    invoice. *)
Definition listed (selectedYear : Z) (viewBy : ViewBy) (d : JsDate) : bool :=
  let orderYear := getFullYear d in
  let orderMonth := getMonth d in
  let financialYear :=
    (if 3 <=? orderMonth then orderYear else orderYear - 1)%Z in
  if negb (financialYear =? selectedYear)%Z then false
  else match viewBy with
       | year => true
       | month index =>
           let monthIndexInYear := Z.rem (orderMonth + 9) 12 in
           if negb (monthIndexInYear =? index)%Z then false else true
       end.

(** [MONTHS[viewBy]] inside a template string. *)
Definition monthName (index : Z) : string :=
  if ((0 <=? index) && (index <? 12))%Z
  then nth (Z.to_nat index) MONTHS "undefined"
  else "undefined".

(** [periodText] of the report buttons. *)
Definition periodText (viewBy : ViewBy) (selectedYear : Z) : string :=
  match viewBy with
  | year =>
      "Financial Year " ++ toString selectedYear ++ "/"
      ++ toString (selectedYear - 2000 + 1)
  | month index =>
      monthName index ++ " "
      ++ toString (if 9 <=? index then selectedYear + 1
                   else selectedYear)%Z
  end.

(** The file name of the location spend report. *)
Definition spendReportFileName (viewBy : ViewBy) (selectedYear : Z)
  : string :=
  "Randolph_Spend_Report_"
  ++ replaceSpaces (periodText viewBy selectedYear) ++ ".pdf".

(** The file name of the report of one branch; [name] is the label of
    its bar. *)
Definition branchReportFileName (name : string) (viewBy : ViewBy)
  (selectedYear : Z) : string :=
  "Randolph_" ++ replaceSpaces name ++ "_Report_"
  ++ replaceSpaces (periodText viewBy selectedYear) ++ ".pdf".

End PageFinancial.

(* ================================================================== *)
(** * Amounts as the program adds them: IEEE doubles *)
(* ================================================================== *)

Module Double.
Import PrimFloat.

(** [x || 0] on a number field that may be missing: [undefined],
    [null], [false], [NaN] and the two zeros are falsy. *)
Definition or0 (x : option float) : float :=
  match x with
  | Some x => if (is_nan x || is_zero x)%bool then 0%float else x
  | None => 0%float
  end.

(** [x > 0] *)
Definition gt0 (x : float) : bool := (0 <? x)%float.

(** The length of an array as a number; lengths are below 2^32. *)
Definition ofLength (n : nat) : float :=
  of_uint63 (Uint63.of_Z (Z.of_nat n)).

(** The rational number a finite double stands for. *)
Definition exact (x : float) : option Q :=
  match FloatOps.Prim2SF x with
  | SpecFloat.S754_zero _ => Some 0%Q
  | SpecFloat.S754_finite negative m e =>
      Some ((if negative then - inject_Z (Z.pos m) else inject_Z (Z.pos m))
            * Qpower 2 e)%Q
  | _ => None
  end.

End Double.

(* ================================================================== *)
(** * The "stats" operation over doubles *)
(* ================================================================== *)

(** The handler of [Route] once more, with the amounts of the documents
    as the doubles the program receives and adds.  Every definition has
    the name and the shape of its counterpart in [Route]; only the
    arithmetic differs, which here rounds at every [+=].  [stats] is
    the branch of [GET] for [type=stats]; the two reads it performs go
    through [odooSearchRead] as in [Odoo], restated for documents with
    these amounts. *)
Module RouteDouble.
Import Js Odoo PrimFloat.

Module Inv.
Record t : Type := mk {
    id : Z;
    name : string;
    invoice_date : option string;
    amount_total : option float;
    amount_untaxed : option float;
    amount_tax : option float;
    partner_shipping_id : option (Z * string);
    move_type : string;
    state : string
  }.
End Inv.

(** The two [search_read] calls of the operation. *)
Inductive Query : Type -> Type :=
| PartnerByRef (customerRef : string) : Query (list Partner)
| PostedMoves (partnerId : Z) : Query (list Inv.t).

Record Remote : Type := {
  authenticate : forall A, Config -> Query A -> result (option Z);
  execute_kw : forall A, Config -> Z -> Query A -> result A
}.

Definition odooLogin {A} (env : Env) (remote : Remote) (q : Query A)
  : result Z :=
  cfg <- getOdooConfig env ;;
  match authenticate remote A cfg q with
  | Throw e => Throw e
  | Ok (Some uid) =>
      if (uid =? 0)%Z
      then Throw (error
             "Authentication failed: No UID returned (check credentials)")
      else Ok uid
  | Ok None =>
      Throw (error
        "Authentication failed: No UID returned (check credentials)")
  end.

Definition odooSearchRead {A} (env : Env) (remote : Remote) (q : Query A)
  : result A :=
  cfg <- getOdooConfig env ;;
  uid <- odooLogin env remote q ;;
  execute_kw remote A cfg uid q.

Module Order.
Record t : Type := mk {
  id : Z;
  name : string;
  date : option string;
  amount : float
}.
End Order.

Module Bucket.
Record t : Type := mk {
  count : nat;
  total : float;
  orders : list Order.t
}.
End Bucket.

Module Kpi.
Record t : Type := mk {
  revenue : float;
  orders : nat;
  items : float;
  avgOrderValue : float
}.
End Kpi.

Record StatsBody : Type := {
  customer : string;
  kpi : Kpi.t;
  salesByAddress : obj Bucket.t;
  recentInvoices : list Inv.t
}.

Inductive Body : Type :=
| Stats (s : StatsBody)
| Failure (error : string).

Record Response : Type := {
  body : Body;
  status : Z
}.

Definition json (b : Body) : Response := {| body := b; status := 200 |}.
Definition json_status (b : Body) (s : Z) : Response :=
  {| body := b; status := s |}.

Definition amountTotal (inv : Inv.t) : float :=
  let amountTotal := Double.or0 (Inv.amount_total inv) in
  if String.eqb (Inv.move_type inv) "out_refund"
  then (- abs amountTotal)%float
  else abs amountTotal.

Definition addressName (inv : Inv.t) : string :=
  match Inv.partner_shipping_id inv with
  | Some (_, display_name) => display_name
  | None => "Unknown"
  end.

Record Totals : Type := {
  totalRevenue : float;
  byAddress : obj Bucket.t
}.

(** One round of [invoices.forEach]. *)
Definition accumulate (acc : Totals) (inv : Inv.t) : result Totals :=
  let amountTotal := amountTotal inv in
  let totalRevenue := (totalRevenue acc + amountTotal)%float in
  let addressName := addressName inv in
  if is_inherited addressName then
    Throw (error "Cannot read properties of undefined (reading 'push')")
  else
    let bucket :=
      match get (byAddress acc) addressName with
      | Some b => b
      | None => Bucket.mk 0 0%float []
      end in
    Ok {| totalRevenue := totalRevenue;
          byAddress :=
            set (byAddress acc) addressName
              (Bucket.mk
                 (Bucket.count bucket + 1)
                 (Bucket.total bucket + amountTotal)%float
                 (Bucket.orders bucket ++
                    [Order.mk (Inv.id inv) (Inv.name inv)
                       (Inv.invoice_date inv) amountTotal])) |}.

Definition avgOrderValue (totalRevenue : float) (totalOrders : nat) : float :=
  if (0 <? totalOrders)%nat
  then (totalRevenue / Double.ofLength totalOrders)%float
  else 0%float.

Definition with_amount_total (inv : Inv.t) (a : float) : Inv.t :=
  Inv.mk (Inv.id inv) (Inv.name inv) (Inv.invoice_date inv) (Some a)
    (Inv.amount_untaxed inv) (Inv.amount_tax inv)
    (Inv.partner_shipping_id inv) (Inv.move_type inv) (Inv.state inv).

(** Steps 3 and 4: the body built from the fetched documents. *)
Definition process (mainPartner : Partner) (invoices : list Inv.t)
  : result StatsBody :=
  let totalOrders := List.length invoices in
  acc <- forEach accumulate invoices
           {| totalRevenue := 0%float; byAddress := [] |} ;;
  Ok {| customer := partner_name mainPartner;
        kpi := Kpi.mk (totalRevenue acc) totalOrders 0%float
                 (avgOrderValue (totalRevenue acc) totalOrders);
        salesByAddress := byAddress acc;
        recentInvoices :=
          map (fun inv => with_amount_total inv (amountTotal inv))
            invoices |}.

Definition stats (env : Env) (remote : Remote) : Response :=
  match truthy (ODOO_CUSTOMER_REF env) with
  | None =>
      json_status
        (Failure "Missing ODOO_CUSTOMER_REF environment variable") 500
  | Some customerRef =>
      let attempt : result Response :=
        partners <- odooSearchRead env remote (PartnerByRef customerRef) ;;
        match partners with
        | [] =>
            Ok (json_status
                  (Failure ("Customer with Ref " ++ customerRef
                            ++ " not found")) 404)
        | mainPartner :: _ =>
            let partnerId := partner_id mainPartner in
            invoices <- odooSearchRead env remote (PostedMoves partnerId) ;;
            s <- process mainPartner invoices ;;
            Ok (json (Stats s))
        end in
      match attempt with
      | Ok response => response
      | Throw e =>
          json_status
            (Failure ("Failed to fetch Odoo data: " ++ message e)) 500
      end
  end.

End RouteDouble.

(* ================================================================== *)
(** * The location-spend view over doubles and UTF-16 code units *)
(* ================================================================== *)

(** [deliveryBarData] of the two pages once more, with the values the
    browser works on: the amounts are doubles, and a string is the
    sequence of its UTF-16 code units, which is what [length],
    [startsWith], [substring], [\s] and [trim] see. *)
Module PageDouble.
Import Js Page PrimFloat.

(** A string as its code units. *)
Definition text : Type := list N.

(** A string literal of the program; all of them are ASCII. *)
Definition lit (s : string) : text := map N_of_ascii (list_ascii_of_string s).

(** [a === b] on strings. *)
Fixpoint textEqb (a b : text) : bool :=
  match a, b with
  | [], [] => true
  | u :: a', v :: b' => (u =? v)%N && textEqb a' b'
  | _, _ => false
  end.

Module Order.
Record t : Type := mk {
  date : option JsDate;   (* [new Date(o.date)]; [None] is Invalid Date *)
  amount : option float
}.
End Order.

Module Group.
Record t : Type := mk {
  count : nat;
  total : float;
  orders : list Order.t
}.
End Group.

(** [data]; the entries of [salesByAddress] in the order
    [Object.entries] lists them. *)
Record OdooData : Type := {
  customer : option text;
  salesByAddress : list (text * Group.t)
}.

(** [orders.reduce((sum, o) => sum + (o.amount || 0), 0)] *)
Definition sumAmounts (orders : list Order.t) : float :=
  fold_left (fun sum o => (sum + Double.or0 (Order.amount o))%float)
    orders 0%float.

Definition on_date (p : JsDate -> bool) (o : Order.t) : bool :=
  match Order.date o with
  | Some d => p d
  | None => false
  end.

(** ** Address labels *)

(** The code units [\s] matches and [trim] removes: the white space
    and the line terminators of ECMAScript. *)
Definition isSpace (u : N) : bool :=
  ((9 <=? u) && (u <=? 13)            (* TAB, LF, VT, FF, CR *)
   || (u =? 32)                        (* SPACE *)
   || (u =? 160)                       (* U+00A0 NO-BREAK SPACE *)
   || (u =? 5760)                      (* U+1680 OGHAM SPACE MARK *)
   || (8192 <=? u) && (u <=? 8202)     (* U+2000 .. U+200A *)
   || (u =? 8232) || (u =? 8233)       (* U+2028, U+2029 *)
   || (u =? 8239)                      (* U+202F *)
   || (u =? 8287)                      (* U+205F *)
   || (u =? 12288)                     (* U+3000 *)
   || (u =? 65279))%N.                 (* U+FEFF *)

Fixpoint trimStart (s : text) : text :=
  match s with
  | u :: s' => if isSpace u then trimStart s' else s
  | [] => []
  end.

Definition trimEnd (s : text) : text := rev (trimStart (rev s)).

Definition trim (s : text) : text := trimEnd (trimStart s).

(** [s.startsWith(pattern)] *)
Fixpoint startsWith (pattern s : text) : bool :=
  match pattern, s with
  | [], _ => true
  | p :: pattern', u :: s' => (p =? u)%N && startsWith pattern' s'
  | _ :: _, [] => false
  end.

(** [s.replace(pattern, '')] with a string pattern: the first
    occurrence is removed. *)
Fixpoint removeFirst (pattern s : text) : text :=
  if startsWith pattern s then skipn (List.length pattern) s
  else match s with
       | u :: s' => u :: removeFirst pattern s'
       | [] => []
       end.

(** [s.replace(/^,\s*/, '')]; 44 is the comma. *)
Definition stripComma (s : text) : text :=
  match s with
  | 44%N :: s' => trimStart s'
  | _ => s
  end.

(** A string is truthy unless it is empty. *)
Definition truthyText (s : text) : bool :=
  match s with
  | [] => false
  | _ :: _ => true
  end.

(** [if (customerName && cleanName.startsWith(customerName))
       cleanName = cleanName.replace(customerName, '')
                            .replace(/^,\s*/, '').trim()] *)
Definition stripCustomer (customerName name : text) : text :=
  if truthyText customerName && startsWith customerName name
  then trim (stripComma (removeFirst customerName name))
  else name.

Definition cleanName (customerName name : text) : text :=
  let cleanName := stripCustomer customerName name in
  if (List.length cleanName <? 2)%nat then lit "Main Office" else cleanName.

(** [addr.split(',')[0]] *)
Fixpoint beforeComma (s : text) : text :=
  match s with
  | 44%N :: _ => []
  | u :: s' => u :: beforeComma s'
  | [] => []
  end.

(** [s.substring(from, to)] for [from <= to]. *)
Definition substring (from to : nat) (s : text) : text :=
  firstn (to - from) (skipn from s).

Definition transformAddressName (addr : text) : text :=
  let firstPart := beforeComma addr in
  if (35 <? List.length firstPart)%nat
  then (substring 0 33 firstPart ++ lit "...")%list
  else firstPart.

(** ** The bars *)

Module Bar.
Record t : Type := mk {
  name : text;
  fullName : text;
  value : float;
  orders : option (list Order.t)   (* only the financial-year page *)
}.
End Bar.

(** [Array.prototype.sort] is stable; [compare a b > 0] puts [a] after
    [b]. *)
Fixpoint insertSorted {A} (compare : A -> A -> float) (a : A)
  (sorted : list A) : list A :=
  match sorted with
  | [] => [a]
  | b :: rest =>
      if Double.gt0 (compare a b) then b :: insertSorted compare a rest
      else a :: sorted
  end.

Definition sort {A} (compare : A -> A -> float) (l : list A) : list A :=
  fold_right (insertSorted compare) [] l.

(** [aggregated[name] = v] on an object literal: the value of an own
    property is overwritten, a new own property comes last (names that
    are array indices are enumerated before the others; no property
    below depends on the order of the entries); ["__proto__"] names the
    accessor of [Object.prototype], so that assigning to it creates no
    own property. *)
Fixpoint assign {V} (o : list (text * V)) (k : text) (v : V)
  : list (text * V) :=
  match o with
  | [] => [(k, v)]
  | (k', v') :: o' =>
      if textEqb k k' then (k', v) :: o' else (k', v') :: assign o' k v
  end.

Definition isProto (k : text) : bool := textEqb k (lit "__proto__").

(** One round of [Object.entries(data.salesByAddress).forEach]. *)
Definition aggregateEntry (keep : Order.t -> bool)
  (aggregated : list (text * (float * list Order.t)))
  (entry : text * Group.t) : list (text * (float * list Order.t)) :=
  let name := fst entry in
  let validOrders := filter keep (Group.orders (snd entry)) in
  let total := sumAmounts validOrders in
  if Double.gt0 total then
    if isProto name then aggregated
    else assign aggregated name (total, validOrders)
  else aggregated.

Definition aggregate (keep : Order.t -> bool) (sales : list (text * Group.t))
  : list (text * (float * list Order.t)) :=
  fold_left (aggregateEntry keep) sales [].

(** [data.customer || ''] *)
Definition customerNameOf (data : OdooData) : text :=
  match customer data with Some c => c | None => [] end.

(** The callback of [Object.entries(aggregated).map]. *)
Definition barOf (withOrders : bool) (customerName : text)
  (entry : text * (float * list Order.t)) : Bar.t :=
  let name := fst entry in
  Bar.mk (transformAddressName (cleanName customerName name))
    name (fst (snd entry))
    (if withOrders then Some (snd (snd entry)) else None).

Definition deliveryBarDataBy (withOrders : bool) (keep : Order.t -> bool)
  (data : option OdooData) : list Bar.t :=
  match data with
  | None => []
  | Some data =>
      let customerName := customerNameOf data in
      sort (fun a b => (Bar.value b - Bar.value a)%float)
        (map (barOf withOrders customerName)
           (aggregate keep (salesByAddress data)))
  end.

(** [deliveryBarData] of the page that buckets by calendar year. *)
Module Calendar.
Definition deliveryBarData (data : option OdooData) (viewBy : ViewBy)
  (selectedYear : Z) : list Bar.t :=
  deliveryBarDataBy false
    (on_date (PageCalendar.inPeriod selectedYear viewBy)) data.
End Calendar.

(** [deliveryBarData] of the page that buckets by financial year. *)
Module Financial.
Definition deliveryBarData (data : option OdooData) (viewBy : ViewBy)
  (selectedYear : Z) : list Bar.t :=
  deliveryBarDataBy true
    (on_date (PageFinancial.inPeriod selectedYear viewBy)) data.
End Financial.

End PageDouble.


(* ================================================================== *)
(** * Notions used to state the properties *)
(* ================================================================== *)

Module Spec.
Import Js Odoo Route.
Import PrimFloat.

Definition sumQ (l : list Q) : Q := fold_right Qplus 0%Q l.
Definition sumNat (l : list nat) : nat := fold_right Nat.add 0%nat l.

(** A bucket agrees with the orders it lists. *)
Definition bucketConsistent (b : Bucket.t) : Prop :=
  Bucket.count b = List.length (Bucket.orders b) /\
  (Bucket.total b == sumQ (map Order.amount (Bucket.orders b)))%Q.

(** The outcome of a line query carries no line. *)
Definition noLines (r : result (list Line.t)) : Prop :=
  match r with
  | Ok lines => lines = []
  | Throw _ => True
  end.

(** The line ids the move row lists, when it lists any: the condition
    under which the first tier reads the lines by id. *)
Definition listedLineIds (moveRows : list MoveRow) : option (list Z) :=
  match moveRows with
  | row :: _ =>
      match invoice_line_ids row with
      | Some (lineId :: lineIds) => Some (lineId :: lineIds)
      | _ => None
      end
  | [] => None
  end.

(** The calendar month a month view of the financial-year page shows:
    indices 0..8 are April..December of the selected year, 9..11 are
    January..March of the next. *)
Definition financialMonth (selectedYear index : Z) : Z * Z :=
  (if index <? 9 then (selectedYear, index + 3)
   else (selectedYear + 1, index - 9))%Z.

(** The order is dated on day [day] of month [m] of year [y]. *)
Definition datedOn (y m day : Z) (o : Page.Order.t) : Prop :=
  exists d, Page.Order.date o = Some d /\
            Page.getFullYear d = y /\ Page.getMonth d = m /\
            Page.getDate d = day.

(** ** The calendar *)

(** The leap years of the Gregorian calendar. *)
Definition leapYear (y : Z) : bool :=
  (((y mod 4 =? 0) && negb (y mod 100 =? 0)) || (y mod 400 =? 0))%Z.

(** The number of days of month [m] (January is 0) of year [y]. *)
Definition daysInMonth (y m : Z) : nat :=
  match m with
  | 0%Z => 31
  | 1%Z => if leapYear y then 29 else 28
  | 2%Z => 31
  | 3%Z => 30
  | 4%Z => 31
  | 5%Z => 30
  | 6%Z => 31
  | 7%Z => 31
  | 8%Z => 30
  | 9%Z => 31
  | 10%Z => 30
  | 11%Z => 31
  | _ => 0
  end.

(** The dates a [Date] can denote. *)
Definition calendarDate (d : Page.JsDate) : Prop :=
  (0 <= Page.getMonth d <= 11)%Z /\
  (1 <= Page.getDate d
   <= Z.of_nat (daysInMonth (Page.getFullYear d) (Page.getMonth d)))%Z.

Definition validOrder (o : Page.Order.t) : Prop :=
  forall d, Page.Order.date o = Some d -> calendarDate d.

(** The date lies in calendar year [y]. *)
Definition inCalendarYear (y : Z) (d : Page.JsDate) : Prop :=
  Page.getFullYear d = y.

(** The date lies in the financial year that starts in April of year
    [y] and ends in March of year [y + 1]. *)
Definition inFinancialYear (y : Z) (d : Page.JsDate) : Prop :=
  (Page.getFullYear d = y /\ 3 <= Page.getMonth d)%Z \/
  (Page.getFullYear d = y + 1 /\ Page.getMonth d < 3)%Z.

(** The labels of the days of a month, as the chart prints them. *)
Definition dayLabels : list string :=
  [ "1"; "2"; "3"; "4"; "5"; "6"; "7"; "8"; "9"; "10";
    "11"; "12"; "13"; "14"; "15"; "16"; "17"; "18"; "19"; "20";
    "21"; "22"; "23"; "24"; "25"; "26"; "27"; "28"; "29"; "30"; "31" ].

(** [o] is an order of an address of the data. *)
Definition orderIn (data : Page.OdooData) (o : Page.Order.t) : Prop :=
  exists name group,
    In (name, group) (Page.salesByAddress data) /\
    In o (Page.Group.orders group).

(** A chart series has exactly the buckets [labels], in this order,
    every bucket has a value, and a bucket that no order matches has
    the value 0. *)
Definition completeAxis (labels : list string)
  (matching : string -> Page.Order.t -> Prop)
  (isOrder : Page.Order.t -> Prop) (series : list Page.Point.t) : Prop :=
  map Page.Point.name series = labels /\
  forall p, In p series ->
    exists v, Page.Point.value p = Some v /\
      ((forall o, isOrder o -> ~ matching (Page.Point.name p) o) ->
       v = Num 0).

(** The order is dated in the year [inYear] and the locale names its
    month [label]. *)
Definition namedIn (toLocaleMonthShort : Page.JsDate -> string)
  (inYear : Page.JsDate -> Prop) (label : string) (o : Page.Order.t)
  : Prop :=
  exists d, Page.Order.date o = Some d /\ inYear d /\
            toLocaleMonthShort d = label.

(** The order is dated on the day of month [m] of year [y] that the
    chart labels [label]: day [n + 1] has the label at position [n]. *)
Definition onDay (y m : Z) (label : string) (o : Page.Order.t) : Prop :=
  exists n, nth_error dayLabels n = Some label /\
            datedOn y m (Z.of_nat (S n)) o.

(** The average belongs to this revenue and this count. *)
Definition averageOf (revenue : Q) (count : nat) (avg : number) : Prop :=
  match count with
  | O => avg = Num 0
  | S _ => exists q, avg = Num q /\
                     (q == revenue / inject_Z (Z.of_nat count))%Q
  end.


(** The order a stats response lists for a document. *)
Definition orderOf (inv : Inv.t) : Order.t :=
  Order.mk (Inv.id inv) (Inv.name inv) (Inv.invoice_date inv)
    (amountTotal inv).

(** The order that stands for an entry of the invoice list of a
    response. *)
Definition listedOrder (inv : Inv.t) : Order.t :=
  Order.mk (Inv.id inv) (Inv.name inv) (Inv.invoice_date inv)
    (or0 (Inv.amount_total inv)).

(** The twelve month indices of a month view. *)
Definition monthIndices : list Z := map Z.of_nat (seq 0 12).

(** No character of the string is a space. *)
Fixpoint spaceFree (s : string) : Prop :=
  match s with
  | String c s' => c <> " "%char /\ spaceFree s'
  | EmptyString => True
  end.

(** ** Sums of doubles *)

(** The numbers added one after the other, from 0 on: every addition
    rounds to the nearest double. *)
Definition addedUp (amounts : list float) : float :=
  fold_left PrimFloat.add amounts 0%float.

(** The sum of the rational numbers the doubles stand for, when all of
    them are finite. *)
Fixpoint exactSum (amounts : list float) : option Q :=
  match amounts with
  | [] => Some 0%Q
  | a :: amounts' =>
      match Double.exact a, exactSum amounts' with
      | Some q, Some t => Some (q + t)%Q
      | _, _ => None
      end
  end.

(** A bucket of a stats response agrees with the orders it lists. *)
Definition bucketAddsUp (b : RouteDouble.Bucket.t) : Prop :=
  RouteDouble.Bucket.count b = List.length (RouteDouble.Bucket.orders b) /\
  RouteDouble.Bucket.total b
  = addedUp (map RouteDouble.Order.amount (RouteDouble.Bucket.orders b)).

(** The amount an entry of the invoice list of a response shows. *)
Definition listedAmount (inv : RouteDouble.Inv.t) : float :=
  match RouteDouble.Inv.amount_total inv with
  | Some a => a
  | None => 0%float
  end.

(** ** Periods *)

(** The dates of the period a view of the calendar page selects. *)
Definition inCalendarPeriod (y : Z) (v : Page.ViewBy) (d : Page.JsDate)
  : Prop :=
  match v with
  | Page.year => inCalendarYear y d
  | Page.month i => Page.getFullYear d = y /\ Page.getMonth d = i
  end.

(** The dates of the period a view of the financial-year page selects. *)
Definition inFinancialPeriod (y : Z) (v : Page.ViewBy) (d : Page.JsDate)
  : Prop :=
  match v with
  | Page.year => inFinancialYear y d
  | Page.month i =>
      (Page.getFullYear d, Page.getMonth d) = financialMonth y i
  end.

(** The order has a date, and the date lies in the period; [dateOf]
    reads the date of an order. *)
Definition dated {O : Type} (dateOf : O -> option Page.JsDate)
  (period : Page.JsDate -> Prop) (o : O) : Prop :=
  exists d, dateOf o = Some d /\ period d.

(** The month of every order date is a month of the calendar. *)
Definition monthsAreValid (data : PageDouble.OdooData) : Prop :=
  forall name stats o d,
    In (name, stats) (PageDouble.salesByAddress data) ->
    In o (PageDouble.Group.orders stats) ->
    PageDouble.Order.date o = Some d ->
    (0 <= Page.getMonth d <= 11)%Z.

(** [selected] lists the elements of [l] that satisfy [P], in the
    order of [l]. *)
Inductive selects {A : Type} (P : A -> Prop) : list A -> list A -> Prop :=
| selects_nil : selects P [] []
| selects_keep a l selected :
    P a -> selects P l selected -> selects P (a :: l) (a :: selected)
| selects_skip a l selected :
    ~ P a -> selects P l selected -> selects P (a :: l) selected.

(** The amount of an order of the page; an amount that is missing, not
    a number or zero counts as 0. *)
Definition amountOf (o : PageDouble.Order.t) : float :=
  match PageDouble.Order.amount o with
  | Some a => if (a =? a)%float then (if (a =? 0)%float then 0 else a)
              else 0
  | None => 0
  end%float.

(** The bars are the addresses whose orders of the period add up to a
    positive total: every bar stands for such an address and shows this
    total, and (address names being distinct) an address is left out
    when the total is not positive and shown when it is; the name
    ["__proto__"] cannot be a key of the aggregate. *)
Definition showsPeriodTotals (period : Page.JsDate -> Prop)
  (data : PageDouble.OdooData) (bars : list PageDouble.Bar.t) : Prop :=
  (forall bar, In bar bars ->
     exists stats selected,
       In (PageDouble.Bar.fullName bar, stats)
         (PageDouble.salesByAddress data) /\
       selects (dated PageDouble.Order.date period)
         (PageDouble.Group.orders stats) selected /\
       PageDouble.Bar.value bar = addedUp (map amountOf selected) /\
       (0 <? PageDouble.Bar.value bar)%float = true) /\
  (NoDup (map fst (PageDouble.salesByAddress data)) ->
   forall name stats selected,
     In (name, stats) (PageDouble.salesByAddress data) ->
     selects (dated PageDouble.Order.date period)
         (PageDouble.Group.orders stats) selected ->
     ((0 <? addedUp (map amountOf selected))%float = false ->
      forall bar, In bar bars -> PageDouble.Bar.fullName bar <> name) /\
     ((0 <? addedUp (map amountOf selected))%float = true ->
      name <> [95; 95; 112; 114; 111; 116; 111; 95; 95]%N ->
      exists bar,
        In bar bars /\ PageDouble.Bar.fullName bar = name /\
        PageDouble.Bar.value bar = addedUp (map amountOf selected))).

(** ** Address names, as sequences of UTF-16 code units *)





Definition ellipsis : list N := [46; 46; 46]%N.

(** [first] is the part of [addr] before its first comma, or all of
    [addr] when it has no comma. *)
Definition firstPart (addr first : list N) : Prop :=
  ~ In 44%N first /\
  (addr = first \/ exists rest, addr = (first ++ 44%N :: rest)%list).

(** [label] is what the chart prints for the name [base]: its first
    part when that has at most 35 code units, and else the first 33
    code units of its first part followed by "...". *)
Definition labelled (base label : list N) : Prop :=
  forall first,
    firstPart base first ->
    ((List.length first <= 35)%nat -> label = first) /\
    ((35 < List.length first)%nat ->
     label = (firstn 33 first ++ ellipsis)%list).

(** ** Invoice lines *)

(** The line is in the answer to one of the three line queries of the
    invoice operation. *)
Definition fetchedLine (env : Env) (remote : Remote) (invoiceId : string)
  (line : Line.t) : Prop :=
  (exists lineIds lines,
     odooSearchRead env remote (LinesByIds lineIds) = Ok lines /\
     In line lines) \/
  (exists lines,
     odooSearchRead env remote (LinesFiltered invoiceId) = Ok lines /\
     In line lines) \/
  (exists lines,
     odooSearchRead env remote (LinesRaw invoiceId) = Ok lines /\
     In line lines).

(** The name an item shows for a line: the name of its product, else
    its description, else "Item"; an empty name counts as missing. *)
Definition displayName (line : Line.t) (name : string) : Prop :=
  let unnamedProduct :=
    forall i n, Line.product_id line = Some (i, n) -> n = "" in
  (exists i, Line.product_id line = Some (i, name) /\ name <> "") \/
  (unnamedProduct /\ Line.name line = Some name /\ name <> "") \/
  (unnamedProduct /\ (Line.name line = None \/ Line.name line = Some "") /\
   name = "Item").

End Spec.

(* ================================================================== *)
(** * Sample data *)
(* ================================================================== *)

Module Sample.
Import Js Odoo Route.

Definition env : Env :=
  {| ODOO_URL := Some "https://erp.example";
     ODOO_DB := Some "prod";
     ODOO_USERNAME := Some "dashboard";
     ODOO_PASSWORD := Some "key";
     ODOO_CUSTOMER_REF := Some "ACME-01" |}.

Definition envWithoutRef : Env :=
  {| ODOO_URL := Some "https://erp.example";
     ODOO_DB := Some "prod";
     ODOO_USERNAME := Some "dashboard";
     ODOO_PASSWORD := Some "key";
     ODOO_CUSTOMER_REF := None |}.

Definition envWithoutUrl : Env :=
  {| ODOO_URL := None;
     ODOO_DB := Some "prod";
     ODOO_USERNAME := Some "dashboard";
     ODOO_PASSWORD := Some "key";
     ODOO_CUSTOMER_REF := Some "ACME-01" |}.

Definition document (id : Z) (name date : string) (total : Q)
  (move_type address : string) : Inv.t :=
  Inv.mk id name (Some date) (Some total) None None
    (Some (7%Z, address)) move_type "posted".

Definition invoice100 : Inv.t :=
  document 1 "INV/2026/0001" "2026-04-10" 100 "out_invoice" "ACME, Leith".
Definition invoice50 : Inv.t :=
  document 2 "INV/2026/0002" "2026-05-02" 50 "out_invoice" "ACME, Fife".
Definition creditNote30 : Inv.t :=
  document 3 "RINV/2026/0001" "2026-05-20" (-30) "out_refund" "ACME, Leith".

Definition acme : Partner := {| partner_id := 42; partner_name := "ACME" |}.

Definition productLine : Line.t :=
  Line.mk 11 (Some "Widget") (Some (5%Z, "Widget")) (Some 2) (Some 10)
    (Some 20) None None (Some (400%Z, "Sales")).

(** An ERP that knows the customer and its three documents, lists no
    line ids on the move, refuses the filtered line query and answers
    the unfiltered one. *)
Definition remote : Remote :=
  {| authenticate := fun A _ _ => Ok (Some 2%Z);
     execute_kw := fun A _ _ q =>
       match q in Query T return result T with
       | PartnerByRef _ => Ok [acme]
       | PostedMoves _ => Ok [invoice100; invoice50; creditNote30]
       | MoveById _ => Ok [ {| invoice_line_ids := Some [] |} ]
       | LinesByIds _ => Ok []
       | LinesFiltered _ => Throw (error "Invalid field display_type")
       | LinesRaw _ => Ok [productLine]
       end |}.

(** An ERP in which the invoice has no line at all. *)
Definition remoteNoLines : Remote :=
  {| authenticate := fun A _ _ => Ok (Some 2%Z);
     execute_kw := fun A _ _ q =>
       match q in Query T return result T with
       | PartnerByRef _ => Ok [acme]
       | PostedMoves _ => Ok []
       | MoveById _ => Ok [ {| invoice_line_ids := Some [] |} ]
       | LinesByIds _ => Ok []
       | LinesFiltered _ => Ok []
       | LinesRaw _ => Ok []
       end |}.

(** An ERP that does not know the customer reference. *)
Definition remoteUnknownCustomer : Remote :=
  {| authenticate := fun A _ _ => Ok (Some 2%Z);
     execute_kw := fun A _ _ q =>
       match q in Query T return result T with
       | PartnerByRef _ => Ok []
       | PostedMoves _ => Ok []
       | MoveById _ => Ok []
       | LinesByIds _ => Ok []
       | LinesFiltered _ => Ok []
       | LinesRaw _ => Ok []
       end |}.

Definition statsParams (k : string) : option string :=
  if String.eqb k "type" then Some "stats" else None.

Definition invoiceParams (k : string) : option string :=
  if String.eqb k "type" then Some "invoice"
  else if String.eqb k "id" then Some "1" else None.

(** What the page receives for the three documents. *)
Definition pageOrder (y m d : Z) (amount : Q) : Page.Order.t :=
  Page.Order.mk
    (Some {| Page.getFullYear := y; Page.getMonth := m;
             Page.getDate := d |})
    (Some amount).

Definition pageData : Page.OdooData :=
  {| Page.customer := Some "ACME";
     Page.salesByAddress :=
       [ ("ACME, Leith",
          Page.Group.mk 2 70
            [pageOrder 2026 3 10 100; pageOrder 2026 4 20 (-30)]);
         ("ACME, Fife", Page.Group.mk 1 50 [pageOrder 2026 4 2 50]);
         ("ACME, X",
          Page.Group.mk 2 0
            [pageOrder 2026 4 3 40; pageOrder 2026 4 9 (-40)]);
         ("ACME", Page.Group.mk 1 10 [pageOrder 2026 5 1 10]) ] |}.

(** Short month names as an English locale gives them. *)
Definition english (d : Page.JsDate) : string :=
  nth (Z.to_nat (Page.getMonth d))
    (map (substring 0 3) PageCalendar.MONTHS) "".

(** ** Further documents and lines *)

(** An invoice that has no shipping address. *)
Definition unaddressed : Inv.t :=
  Inv.mk 4 "INV/2026/0003" (Some "2026-06-01") (Some 20) None None
    None "out_invoice" "posted".

(** The ERP of [remote] with this fourth document. *)
Definition remoteUnaddressed : Remote :=
  {| authenticate := fun A _ _ => Ok (Some 2%Z);
     execute_kw := fun A _ _ q =>
       match q in Query T return result T with
       | PartnerByRef _ => Ok [acme]
       | PostedMoves _ =>
           Ok [invoice100; invoice50; creditNote30; unaddressed]
       | MoveById _ => Ok [ {| invoice_line_ids := Some [] |} ]
       | LinesByIds _ => Ok []
       | LinesFiltered _ => Throw (error "Invalid field display_type")
       | LinesRaw _ => Ok [productLine]
       end |}.

(** A section and a note that carry a product and a positive subtotal. *)
Definition sectionLine : Line.t :=
  Line.mk 12 (Some "Delivery") (Some (5%Z, "Widget")) (Some 1) (Some 5)
    (Some 5) None (Some "line_section") None.

Definition noteLine : Line.t :=
  Line.mk 13 (Some "Thank you") (Some (5%Z, "Widget")) (Some 1) (Some 5)
    (Some 5) None (Some "line_note") None.

(** The ERP of [remote] with these two lines in the unfiltered read. *)
Definition remoteWithNotes : Remote :=
  {| authenticate := fun A _ _ => Ok (Some 2%Z);
     execute_kw := fun A _ _ q =>
       match q in Query T return result T with
       | PartnerByRef _ => Ok [acme]
       | PostedMoves _ => Ok [invoice100; invoice50; creditNote30]
       | MoveById _ => Ok [ {| invoice_line_ids := Some [] |} ]
       | LinesByIds _ => Ok []
       | LinesFiltered _ => Throw (error "Invalid field display_type")
       | LinesRaw _ => Ok [productLine; sectionLine; noteLine]
       end |}.

(** ** Amounts as doubles.  A decimal literal stands for the double
    nearest to it. *)

Import PrimFloat.
#[local] Set Warnings "-inexact-float".

Definition documentD (id : Z) (name date : string) (total : float)
  (move_type address : string) : RouteDouble.Inv.t :=
  RouteDouble.Inv.mk id name (Some date) (Some total) None None
    (Some (7%Z, address)) move_type "posted".

(** Three invoices of 0.30, 0.20 and 0.10, the first and the last for
    the same address. *)
Definition remoteDouble : RouteDouble.Remote :=
  {| RouteDouble.authenticate := fun A _ _ => Ok (Some 2%Z);
     RouteDouble.execute_kw := fun A _ _ q =>
       match q in RouteDouble.Query T return result T with
       | RouteDouble.PartnerByRef _ => Ok [acme]
       | RouteDouble.PostedMoves _ =>
           Ok [ documentD 1 "INV/2026/0001" "2026-04-10" 0.3
                  "out_invoice" "ACME, Leith";
                documentD 2 "INV/2026/0002" "2026-05-02" 0.2
                  "out_invoice" "ACME, Fife";
                documentD 3 "INV/2026/0003" "2026-05-20" 0.1
                  "out_invoice" "ACME, Leith" ]
       end |}.

Definition pageOrderD (y m d : Z) (amount : float) : PageDouble.Order.t :=
  PageDouble.Order.mk
    (Some {| Page.getFullYear := y; Page.getMonth := m;
             Page.getDate := d |})
    (Some amount).

(** The invoices and credit notes of "ACME, Returns": 3.42 + 2.81 is
    what 2.89 + 3.34 is. *)
Definition returns : list PageDouble.Order.t :=
  [ pageOrderD 2026 4 4 3.42; pageOrderD 2026 4 5 2.81;
    pageOrderD 2026 4 11 (-2.89); pageOrderD 2026 4 12 (-3.34) ].

(** What the page works on: the address " A" starts with a space, and
    the name after "ACME," starts with a no-break space (160). *)
Definition pageDataD : PageDouble.OdooData :=
  {| PageDouble.customer := Some (PageDouble.lit "ACME");
     PageDouble.salesByAddress :=
       [ (PageDouble.lit "ACME, Leith",
          PageDouble.Group.mk 2 70
            [pageOrderD 2026 3 10 100; pageOrderD 2026 4 20 (-30)]);
         (PageDouble.lit "ACME, Fife",
          PageDouble.Group.mk 1 50 [pageOrderD 2026 4 2 50]);
         (PageDouble.lit "ACME, Closed",
          PageDouble.Group.mk 2 0
            [pageOrderD 2026 4 3 40; pageOrderD 2026 4 9 (-40)]);
         (PageDouble.lit "ACME, Returns",
          PageDouble.Group.mk 4 0 returns);
         ((PageDouble.lit "ACME," ++ [160; 88; 32]%N)%list,
          PageDouble.Group.mk 1 12.5 [pageOrderD 2026 5 1 12.5]);
         ([32; 65]%N,
          PageDouble.Group.mk 1 5 [pageOrderD 2026 5 2 5]) ] |}.

End Sample.

(* ================================================================== *)
(** * Tactics *)
(* ================================================================== *)




(* ================================================================== *)
(** * Facts about objects used as maps *)
(* ================================================================== *)

Module ObjFacts.
Import Js Spec.

Section Lookup.
Context {V : Type}.
Implicit Types (o : obj V) (k : string) (v : V).

Lemma get_set_same o k v : get (set o k v) k = Some v.
Proof.
  induction o as [|[k' v'] o IH]; simpl.
  - now rewrite String.eqb_refl.
  - destruct (String.eqb k k') eqn:E; simpl; rewrite E; auto.
Qed.

Lemma get_set_other o k k' v : k <> k' -> get (set o k v) k' = get o k'.
Proof.
  intros Hne. induction o as [|[k0 v0] o IH]; simpl.
  - destruct (String.eqb k' k) eqn:E; auto.
    apply String.eqb_eq in E. congruence.
  - destruct (String.eqb k k0) eqn:E; simpl.
    + apply String.eqb_eq in E. subst k0.
      destruct (String.eqb k' k) eqn:E'; auto.
      apply String.eqb_eq in E'. congruence.
    + now rewrite IH.
Qed.

Lemma get_In o k v : get o k = Some v -> In (k, v) o.
Proof.
  induction o as [|[k' v'] o IH]; simpl; [discriminate|].
  destruct (String.eqb k k') eqn:E.
  - apply String.eqb_eq in E. intros [= ->]. subst. now left.
  - intros H. right. auto.
Qed.

Lemma get_None_keys o k : get o k = None <-> ~ In k (keys o).
Proof.
  induction o as [|[k' v'] o IH]; simpl.
  - tauto.
  - destruct (String.eqb k k') eqn:E.
    + apply String.eqb_eq in E. subst. split; [discriminate | tauto].
    + apply String.eqb_neq in E. rewrite IH. split.
      * intros H [H'|H']; [congruence | tauto].
      * tauto.
Qed.

(** An entry of [o[k] = v] is the new one or was there before. *)
Lemma In_set o k v e :
  In e (set o k v) -> e = (k, v) \/ In e o.
Proof.
  induction o as [|[k' v'] o IH]; simpl.
  - intros [H|[]]. now left.
  - destruct (String.eqb k k') eqn:E; simpl.
    + apply String.eqb_eq in E. subst k'. intros [H|H]; auto.
    + intros [H|H]; auto. apply IH in H. tauto.
Qed.

(** Assigning to a key that is present keeps the keys as they are. *)
Lemma keys_set_present o k v :
  In k (keys o) -> keys (set o k v) = keys o.
Proof.
  induction o as [|[k' v'] o IH]; simpl; [tauto|].
  destruct (String.eqb k k') eqn:E; simpl; auto.
  apply String.eqb_neq in E. intros [H|H]; [congruence|].
  now rewrite IH.
Qed.

(** Assigning to a key that is absent appends it. *)
Lemma keys_set_absent o k v :
  ~ In k (keys o) -> keys (set o k v) = (keys o ++ [k])%list.
Proof.
  induction o as [|[k' v'] o IH]; simpl; auto.
  destruct (String.eqb k k') eqn:E; simpl.
  - apply String.eqb_eq in E. subst. intros H. exfalso. apply H. now left.
  - intros H. rewrite IH; tauto.
Qed.

Lemma set_absent o k v : get o k = None -> set o k v = (o ++ [(k, v)])%list.
Proof.
  induction o as [|[k' v'] o IH]; simpl; auto.
  destruct (String.eqb k k') eqn:E; [discriminate|].
  intros H. now rewrite IH.
Qed.

Lemma NoDup_keys_set o k v : NoDup (keys o) -> NoDup (keys (set o k v)).
Proof.
  intros Hnd. destruct (get o k) eqn:G.
  - rewrite keys_set_present; auto.
    apply get_In in G. unfold keys. now apply (in_map fst) in G.
  - apply get_None_keys in G. rewrite keys_set_absent by auto.
    apply NoDup_rev in Hnd. rewrite <- (rev_involutive (keys o ++ [k])%list).
    apply NoDup_rev. rewrite rev_app_distr. simpl.
    constructor; auto. now rewrite <- in_rev.
Qed.

(** With distinct keys, an entry is found by its key. *)
Lemma In_get o k v : NoDup (keys o) -> In (k, v) o -> get o k = Some v.
Proof.
  induction o as [|[k' v'] o IH]; simpl; [tauto|].
  intros Hnd [H|H].
  - injection H as -> ->. now rewrite String.eqb_refl.
  - inversion Hnd; subst. destruct (String.eqb k k') eqn:E.
    + apply String.eqb_eq in E. subst.
      exfalso. apply H2. unfold keys. now apply (in_map fst) in H.
    + auto.
Qed.

(** A sum over the values after an assignment. *)
Lemma sumQ_set (f : V -> Q) o k v :
  (sumQ (map f (values (set o k v)))
   == sumQ (map f (values o))
      - match get o k with Some b => f b | None => 0 end + f v)%Q.
Proof.
  unfold values. induction o as [|[k' v'] o IH]; simpl.
  - lra.
  - destruct (String.eqb k k') eqn:E; simpl.
    + lra.
    + rewrite IH. lra.
Qed.

Lemma sumNat_set (g : V -> nat) o k v :
  (sumNat (map g (values (set o k v)))
   + match get o k with Some b => g b | None => 0 end
   = sumNat (map g (values o)) + g v)%nat.
Proof.
  unfold values. induction o as [|[k' v'] o IH]; simpl.
  - lia.
  - destruct (String.eqb k k') eqn:E; simpl.
    + lia.
    + lia.
Qed.

End Lookup.

Lemma sumQ_app l1 l2 : (sumQ (l1 ++ l2)%list == sumQ l1 + sumQ l2)%Q.
Proof.
  induction l1 as [|a l1 IH]; simpl; [lra|]. rewrite IH. lra.
Qed.

End ObjFacts.


(* ================================================================== *)
(** * The stats operation: the loop over the documents *)
(* ================================================================== *)

Module RouteFacts.
Import Js Odoo Route Spec ObjFacts.

Lemma amountTotal_refund inv :
  Inv.move_type inv = "out_refund" ->
  (amountTotal inv == - Qabs (or0 (Inv.amount_total inv)))%Q.
Proof.
  intros H. unfold amountTotal. rewrite H. simpl. reflexivity.
Qed.

Lemma amountTotal_invoice inv :
  Inv.move_type inv <> "out_refund" ->
  (amountTotal inv == Qabs (or0 (Inv.amount_total inv)))%Q.
Proof.
  intros H. unfold amountTotal.
  destruct (String.eqb (Inv.move_type inv) "out_refund") eqn:E.
  - apply String.eqb_eq in E. contradiction.
  - reflexivity.
Qed.

Lemma accumulate_defined acc inv :
  is_inherited (addressName inv) = false ->
  exists acc', accumulate acc inv = Ok acc'.
Proof.
  intros H. unfold accumulate. rewrite H. eauto.
Qed.

(** What one round does to the running total and to the buckets. *)
Lemma accumulate_effect acc inv acc' :
  accumulate acc inv = Ok acc' ->
  (totalRevenue acc' == totalRevenue acc + amountTotal inv)%Q /\
  (sumQ (map Bucket.total (values (byAddress acc')))
   == sumQ (map Bucket.total (values (byAddress acc))) + amountTotal inv)%Q /\
  sumNat (map Bucket.count (values (byAddress acc')))
  = S (sumNat (map Bucket.count (values (byAddress acc)))) /\
  ((forall e, In e (byAddress acc) -> bucketConsistent (snd e)) ->
   forall e, In e (byAddress acc') -> bucketConsistent (snd e)).
Proof.
  unfold accumulate.
  destruct (is_inherited (addressName inv)); [discriminate|].
  intros [= <-]. simpl.
  set (k := addressName inv). set (a := amountTotal inv).
  split; [reflexivity|]. split; [|split].
  - rewrite sumQ_set. simpl. destruct (get (byAddress acc) k); simpl; lra.
  - match goal with
    | |- context [set _ _ ?nb] =>
        pose proof (sumNat_set Bucket.count (byAddress acc) k nb) as Hs
    end.
    destruct (get (byAddress acc) k); cbn [Bucket.count] in *; lia.
  - intros Hall e He. apply In_set in He. destruct He as [-> | He]; auto.
    simpl. assert (Hb : bucketConsistent
                    match get (byAddress acc) k with
                    | Some b => b
                    | None => Bucket.mk 0 0 []
                    end).
    { destruct (get (byAddress acc) k) eqn:G.
      - apply get_In in G. apply (Hall _ G).
      - split; simpl; [reflexivity | lra]. }
    destruct Hb as [Hc Ht]. split; simpl.
    + rewrite length_app. simpl. lia.
    + rewrite map_app, sumQ_app, Ht. simpl. lra.
Qed.

Lemma forEach_accumulate_defined invoices acc :
  Forall (fun inv => is_inherited (addressName inv) = false) invoices ->
  exists acc', forEach accumulate invoices acc = Ok acc'.
Proof.
  intros H. revert acc. induction H as [|inv invoices Hi _ IH]; intros acc.
  - simpl. eauto.
  - simpl. destruct (accumulate_defined acc inv Hi) as [acc1 ->]. simpl.
    apply IH.
Qed.

(** The loop invariant, from any starting point. *)
Lemma forEach_accumulate_effect invoices : forall acc acc',
  forEach accumulate invoices acc = Ok acc' ->
  (totalRevenue acc' == totalRevenue acc + sumQ (map amountTotal invoices))%Q /\
  (sumQ (map Bucket.total (values (byAddress acc')))
   == sumQ (map Bucket.total (values (byAddress acc)))
      + sumQ (map amountTotal invoices))%Q /\
  sumNat (map Bucket.count (values (byAddress acc')))
  = (sumNat (map Bucket.count (values (byAddress acc)))
     + List.length invoices)%nat /\
  ((forall e, In e (byAddress acc) -> bucketConsistent (snd e)) ->
   forall e, In e (byAddress acc') -> bucketConsistent (snd e)).
Proof.
  induction invoices as [|inv invoices IH]; intros acc acc'; simpl.
  - intros [= <-]. simpl. split; [lra|]. split; [lra|]. split; [lia|auto].
  - destruct (accumulate acc inv) as [acc1|] eqn:E; simpl; [|discriminate].
    intros H. apply IH in H. apply accumulate_effect in E.
    destruct H as (H1 & H2 & H3 & H4), E as (E1 & E2 & E3 & E4).
    split; [|split; [|split]].
    + rewrite H1, E1. lra.
    + rewrite H2, E2. lra.
    + lia.
    + auto.
Qed.

(** A response that carries statistics was built by [process]. *)
Lemma GET_stats_inversion env remote searchParams s :
  body (GET env remote searchParams) = Stats s ->
  exists mainPartner invoices, process mainPartner invoices = Ok s.
Proof.
  unfold GET. destruct (searchParams "type") as [type|]; [|discriminate].
  destruct (String.eqb type "stats").
  - unfold stats. destruct (truthy (ODOO_CUSTOMER_REF env)); [|discriminate].
    destruct (odooSearchRead env remote (PartnerByRef s0)) as [[|p ps]|];
      simpl; try discriminate.
    destruct (odooSearchRead env remote (PostedMoves (partner_id p)))
      as [invoices|]; simpl; try discriminate.
    destruct (process p invoices) as [s1|] eqn:E; simpl; try discriminate.
    intros [= <-]. eauto.
  - destruct (String.eqb type "invoice"); [|discriminate].
    destruct (truthy (searchParams "id")); [|discriminate].
    unfold invoice. destruct (fetch_lines env remote s0); discriminate.
Qed.

Lemma process_inversion mainPartner invoices s :
  process mainPartner invoices = Ok s ->
  exists acc,
    forEach accumulate invoices {| totalRevenue := 0; byAddress := [] |}
    = Ok acc /\
    s = {| customer := partner_name mainPartner;
           kpi := Kpi.mk (totalRevenue acc) (List.length invoices) 0
                    (avgOrderValue (totalRevenue acc) (List.length invoices));
           salesByAddress := byAddress acc;
           recentInvoices :=
             map (fun inv => with_amount_total inv (amountTotal inv))
               invoices |}.
Proof.
  unfold process.
  destruct (forEach accumulate invoices _) as [acc|]; simpl; [|discriminate].
  intros [= <-]. eauto.
Qed.

(** The address names of a response are distinct. *)
Lemma forEach_accumulate_keys invoices : forall acc acc',
  forEach accumulate invoices acc = Ok acc' ->
  NoDup (keys (byAddress acc)) -> NoDup (keys (byAddress acc')).
Proof.
  induction invoices as [|inv invoices IH]; intros acc acc'; simpl.
  - now intros [= <-].
  - destruct (accumulate acc inv) as [acc1|] eqn:E; simpl; [|discriminate].
    intros H Hnd. apply (IH _ _ H). unfold accumulate in E.
    destruct (is_inherited (addressName inv)); [discriminate|].
    injection E as <-. simpl. now apply NoDup_keys_set.
Qed.

Lemma stats_address_names_distinct env remote searchParams s :
  body (GET env remote searchParams) = Stats s ->
  NoDup (keys (salesByAddress s)).
Proof.
  intros H. apply GET_stats_inversion in H.
  destruct H as (mainPartner & invoices & H).
  apply process_inversion in H. destruct H as (acc & Hacc & ->). simpl.
  apply (forEach_accumulate_keys _ _ _ Hacc). constructor.
Qed.

Lemma avgOrderValue_spec totalRevenue totalOrders :
  (totalOrders = 0%nat /\ avgOrderValue totalRevenue totalOrders = Num 0) \/
  ((0 < totalOrders)%nat /\
   avgOrderValue totalRevenue totalOrders
   = Num (totalRevenue / inject_Z (Z.of_nat totalOrders))).
Proof.
  unfold avgOrderValue. destruct totalOrders as [|n].
  - left. auto.
  - right. split; [lia|]. simpl Nat.ltb. cbv iota. unfold div.
    destruct (Qeq_bool (inject_Z (Z.of_nat (S n))) 0) eqn:E; auto.
    apply Qeq_bool_iff in E. unfold Qeq in E. simpl in E. lia.
Qed.

End RouteFacts.


(* ================================================================== *)
(** * Properties of the stats operation *)
(* ================================================================== *)

Import Js Odoo Route Spec.

(** C1, at the sample data: the customer reference resolves to partner
    42 and the ERP returns invoices of 100.00 and 50.00 and a credit
    note of -30.00.  The handler answers revenue 120, three documents
    and an average of 40; it does not answer 180 and 60. *)
Lemma stats_sample_kpi_is_120_not_180 :
  exists s,
    GET Sample.env Sample.remote Sample.statsParams = json (Stats s) /\
    (Kpi.revenue (kpi s) == 120)%Q /\
    ~ (Kpi.revenue (kpi s) == 180)%Q /\
    Kpi.orders (kpi s) = 3%nat /\
    exists avg, Kpi.avgOrderValue (kpi s) = Num avg /\
                (avg == 40)%Q /\ ~ (avg == 60)%Q.
Proof.
  eexists. split; [vm_compute; reflexivity|]. simpl.
  split; [reflexivity|]. split; [intros H; discriminate H|].
  split; [reflexivity|].
  eexists. split; [vm_compute; reflexivity|].
  split; [reflexivity | intros H; discriminate H].
Qed.

(** C1, amended: when the customer reference resolves to a partner and
    the ERP returns two invoices of 100.00 and 50.00 and a credit note
    of -30.00, the KPI object has revenue 120.00 (the credit note is
    subtracted), invoice count 3 and average invoice value 40.00. *)
Theorem stats_three_documents_kpi :
  forall env remote customerRef partner partners i1 i2 i3 a1 a2 a3,
    truthy (ODOO_CUSTOMER_REF env) = Some customerRef ->
    odooSearchRead env remote (PartnerByRef customerRef)
    = Ok (partner :: partners) ->
    odooSearchRead env remote (PostedMoves (partner_id partner))
    = Ok [i1; i2; i3] ->
    Inv.move_type i1 = "out_invoice" ->
    Inv.amount_total i1 = Some a1 -> (a1 == 100)%Q ->
    Inv.move_type i2 = "out_invoice" ->
    Inv.amount_total i2 = Some a2 -> (a2 == 50)%Q ->
    Inv.move_type i3 = "out_refund" ->
    Inv.amount_total i3 = Some a3 -> (a3 == -30)%Q ->
    Forall (fun inv => is_inherited (addressName inv) = false) [i1; i2; i3] ->
    exists s,
      stats env remote = json (Stats s) /\
      (Kpi.revenue (kpi s) == 120)%Q /\
      Kpi.orders (kpi s) = 3%nat /\
      exists avg, Kpi.avgOrderValue (kpi s) = Num avg /\ (avg == 40)%Q.
Proof.
  intros env remote customerRef partner partners i1 i2 i3 a1 a2 a3
    Href Hpartner Hmoves T1 A1 Q1 T2 A2 Q2 T3 A3 Q3 Hnames.
  destruct (RouteFacts.forEach_accumulate_defined [i1; i2; i3]
              {| totalRevenue := 0; byAddress := [] |} Hnames)
    as [acc Hacc].
  pose proof (RouteFacts.forEach_accumulate_effect _ _ _ Hacc)
    as (Hrev & _).
  assert (Hsum : (totalRevenue acc == 120)%Q).
  { rewrite Hrev. simpl.
    rewrite (RouteFacts.amountTotal_invoice i1) by (rewrite T1; discriminate).
    rewrite (RouteFacts.amountTotal_invoice i2) by (rewrite T2; discriminate).
    rewrite (RouteFacts.amountTotal_refund i3 T3).
    rewrite A1, A2, A3. simpl. rewrite Q1, Q2, Q3. reflexivity. }
  unfold stats. rewrite Href, Hpartner. simpl. rewrite Hmoves. simpl.
  unfold process. rewrite Hacc. simpl.
  eexists. split; [reflexivity|]. simpl.
  split; [exact Hsum|]. split; [reflexivity|].
  destruct (RouteFacts.avgOrderValue_spec (totalRevenue acc) 3)
    as [[H _]|[_ H]]; [discriminate|].
  eexists. split; [exact H|]. rewrite Hsum. reflexivity.
Qed.

Lemma stats_three_documents_kpi_witness :
  exists s,
    stats Sample.env Sample.remote = json (Stats s) /\
    (Kpi.revenue (kpi s) == 120)%Q /\
    Kpi.orders (kpi s) = 3%nat /\
    exists avg, Kpi.avgOrderValue (kpi s) = Num avg /\ (avg == 40)%Q.
Proof.
  apply (stats_three_documents_kpi Sample.env Sample.remote "ACME-01"
           Sample.acme [] Sample.invoice100 Sample.invoice50
           Sample.creditNote30 100 50 (-30));
    try reflexivity.
  repeat constructor.
Defined.

(** C2, at the sample data: the credit note of the sample enters the
    running total with -30, which is neither the absolute value of its
    total nor non-negative. *)
Lemma credit_note_contribution_is_negative :
  exists acc,
    accumulate {| totalRevenue := 0; byAddress := [] |} Sample.creditNote30
    = Ok acc /\
    (totalRevenue acc == -30)%Q /\
    ~ (totalRevenue acc
       == Qabs (or0 (Inv.amount_total Sample.creditNote30)))%Q /\
    ~ (0 <= totalRevenue acc)%Q /\
    exists b, get (byAddress acc) "ACME, Leith" = Some b /\
              (Bucket.total b == -30)%Q.
Proof.
  eexists. split; [vm_compute; reflexivity|]. simpl.
  split; [reflexivity|]. split; [intros H; discriminate H|].
  split; [intros H; apply H; reflexivity|].
  eexists. split; reflexivity.
Qed.

(** C2, amended: for every fetched document, the amount added to the
    total revenue, added to the bucket of its shipping address, listed
    in that bucket and shown in the invoice list is the absolute value
    of the document's total for an invoice and the negated absolute
    value for a credit note; an invoice never lowers the revenue and a
    credit note never raises it. *)
Theorem document_contribution_is_signed :
  forall acc inv acc',
    accumulate acc inv = Ok acc' ->
    let a := Qabs (or0 (Inv.amount_total inv)) in
    let c := if String.eqb (Inv.move_type inv) "out_refund"
             then (- a)%Q else a in
    (totalRevenue acc' == totalRevenue acc + c)%Q /\
    (exists b' earlier,
       get (byAddress acc') (addressName inv) = Some b' /\
       (Bucket.total b'
        == match get (byAddress acc) (addressName inv) with
           | Some b => Bucket.total b
           | None => 0
           end + c)%Q /\
       Bucket.orders b'
       = (earlier ++ [Order.mk (Inv.id inv) (Inv.name inv)
                        (Inv.invoice_date inv) c])%list) /\
    Inv.amount_total (with_amount_total inv (amountTotal inv)) = Some c /\
    (Inv.move_type inv = "out_refund" -> (c <= 0)%Q) /\
    (Inv.move_type inv <> "out_refund" -> (0 <= c)%Q).
Proof.
  intros acc inv acc' H a c.
  assert (Hc : amountTotal inv = c) by reflexivity.
  unfold accumulate in H. rewrite Hc in H.
  destruct (is_inherited (addressName inv)); [discriminate|].
  injection H as <-. simpl.
  split; [reflexivity|]. split.
  - rewrite ObjFacts.get_set_same. do 2 eexists.
    split; [reflexivity|]. simpl. split; [|reflexivity].
    destruct (get (byAddress acc) (addressName inv)); reflexivity.
  - split; [now rewrite Hc|].
    pose proof (Qabs_nonneg (or0 (Inv.amount_total inv))) as Hpos.
    fold a in Hpos. subst c. split.
    + intros ->. simpl. lra.
    + intros Hne. destruct (String.eqb (Inv.move_type inv) "out_refund") eqn:E.
      * apply String.eqb_eq in E. contradiction.
      * exact Hpos.
Qed.

Lemma document_contribution_is_signed_witness :
  exists acc',
    accumulate {| totalRevenue := 0; byAddress := [] |} Sample.creditNote30
    = Ok acc' /\
    (totalRevenue acc' == 0 + - Qabs (-30))%Q.
Proof.
  eexists. split; [reflexivity|].
  apply (document_contribution_is_signed
           {| totalRevenue := 0; byAddress := [] |} Sample.creditNote30 _
           eq_refl).
Defined.



(* ================================================================== *)
(** * Error responses *)
(* ================================================================== *)

(** C4, at the sample data: without the customer reference setting the
    stats operation answers with status 500, which is not a 4xx status. *)
Lemma stats_missing_ref_is_not_4xx :
  GET Sample.envWithoutRef Sample.remote Sample.statsParams
  = json_status
      (Failure "Missing ODOO_CUSTOMER_REF environment variable") 500 /\
  ~ (400 <= status (GET Sample.envWithoutRef Sample.remote
                      Sample.statsParams) <= 499)%Z.
Proof.
  split; [reflexivity|]. simpl. lia.
Qed.

(** C4, amended: when a required configuration value is missing, the
    stats operation answers with a 500-style error and a descriptive
    message: "Missing ODOO_CUSTOMER_REF environment variable" for the
    customer reference, and "Failed to fetch Odoo data: Missing Odoo
    environment variables" for the URL, database, user name or
    credential. *)
Theorem stats_missing_configuration_is_500 :
  forall env remote searchParams,
    searchParams "type" = Some "stats" ->
    (truthy (ODOO_CUSTOMER_REF env) = None ->
     GET env remote searchParams
     = json_status
         (Failure "Missing ODOO_CUSTOMER_REF environment variable") 500) /\
    (truthy (ODOO_CUSTOMER_REF env) <> None ->
     truthy (ODOO_URL env) = None \/ truthy (ODOO_DB env) = None \/
     truthy (ODOO_USERNAME env) = None \/ truthy (ODOO_PASSWORD env) = None ->
     GET env remote searchParams
     = json_status
         (Failure
            "Failed to fetch Odoo data: Missing Odoo environment variables")
         500).
Proof.
  intros env remote searchParams Htype. unfold GET. rewrite Htype. simpl.
  unfold stats. split.
  - intros ->. reflexivity.
  - intros Href Hmissing.
    destruct (truthy (ODOO_CUSTOMER_REF env)) as [customerRef|];
      [|contradiction].
    assert (Hcfg : getOdooConfig env
                   = Throw (error "Missing Odoo environment variables")).
    { unfold getOdooConfig.
      destruct (truthy (ODOO_URL env)), (truthy (ODOO_DB env)),
        (truthy (ODOO_USERNAME env)), (truthy (ODOO_PASSWORD env));
        try reflexivity.
      destruct Hmissing as [H|[H|[H|H]]]; discriminate H. }
    unfold odooSearchRead at 1. rewrite Hcfg. reflexivity.
Qed.

Lemma stats_missing_configuration_is_500_witness :
  status (GET Sample.envWithoutRef Sample.remote Sample.statsParams) = 500%Z /\
  status (GET Sample.envWithoutUrl Sample.remote Sample.statsParams) = 500%Z.
Proof.
  split.
  - rewrite (proj1 (stats_missing_configuration_is_500 Sample.envWithoutRef
                      Sample.remote Sample.statsParams eq_refl) eq_refl).
    reflexivity.
  - rewrite (proj2 (stats_missing_configuration_is_500 Sample.envWithoutUrl
                      Sample.remote Sample.statsParams eq_refl)
               ltac:(discriminate) (or_introl eq_refl)).
    reflexivity.
Defined.

(** C5, at the sample data: the filtered line query of the second tier
    fails, the third tier answers, and the operation returns the line it
    found rather than an empty list. *)
Lemma invoice_second_tier_failure_returns_lines :
  (exists e,
     odooSearchRead Sample.env Sample.remote (LinesFiltered "1") = Throw e) /\
  GET Sample.env Sample.remote Sample.invoiceParams
  = json (Items [normalize Sample.productLine]) /\
  GET Sample.env Sample.remote Sample.invoiceParams <> json (Items []).
Proof.
  split; [eexists; reflexivity|]. split; [reflexivity|].
  intros H. discriminate H.
Qed.

(** C5, amended: with a non-empty id, the invoice operation always
    answers with a list and status 200, never with an error.  The list
    is empty when the lookup of the move fails, when the read of the
    listed line ids fails, when the filtered query and the unfiltered
    read both fail, and when no line query returns a line.  When only
    the filtered query fails, the answer is what the unfiltered read
    yields after filtering. *)
Theorem invoice_lines_never_an_error :
  forall env remote searchParams invoiceId,
    searchParams "type" = Some "invoice" ->
    truthy (searchParams "id") = Some invoiceId ->
    let response := GET env remote searchParams in
    (exists items, response = json (Items items)) /\
    (forall e,
       odooSearchRead env remote (MoveById invoiceId) = Throw e ->
       response = json (Items [])) /\
    (forall moveRows lineIds e,
       odooSearchRead env remote (MoveById invoiceId) = Ok moveRows ->
       listedLineIds moveRows = Some lineIds ->
       odooSearchRead env remote (LinesByIds lineIds) = Throw e ->
       response = json (Items [])) /\
    (forall moveRows e e',
       odooSearchRead env remote (MoveById invoiceId) = Ok moveRows ->
       listedLineIds moveRows = None ->
       odooSearchRead env remote (LinesFiltered invoiceId) = Throw e ->
       odooSearchRead env remote (LinesRaw invoiceId) = Throw e' ->
       response = json (Items [])) /\
    (forall moveRows e rawLines,
       odooSearchRead env remote (MoveById invoiceId) = Ok moveRows ->
       listedLineIds moveRows = None ->
       odooSearchRead env remote (LinesFiltered invoiceId) = Throw e ->
       odooSearchRead env remote (LinesRaw invoiceId) = Ok rawLines ->
       response = json (Items (map normalize (filter keep_line rawLines)))) /\
    ((forall lineIds, noLines (odooSearchRead env remote (LinesByIds lineIds))) ->
     noLines (odooSearchRead env remote (LinesFiltered invoiceId)) ->
     noLines (odooSearchRead env remote (LinesRaw invoiceId)) ->
     response = json (Items [])).
Proof.
  intros env remote searchParams invoiceId Htype Hid response.
  assert (Hresp : response = invoice env remote invoiceId).
  { unfold response, GET. rewrite Htype. simpl. now rewrite Hid. }
  rewrite Hresp. clear Hresp response. unfold invoice, fetch_lines.
  split; [|split; [|split; [|split; [|split]]]].
  - destruct (_ <- odooSearchRead env remote (MoveById invoiceId) ;; _);
      eauto.
  - intros e ->. reflexivity.
  - intros moveRows lineIds e -> Hids He. simpl.
    destruct moveRows as [|[[[|i ids]|]] rows]; try discriminate Hids.
    simpl in Hids. injection Hids as <-. rewrite He. reflexivity.
  - intros moveRows e e' -> Hids He He'. simpl.
    destruct moveRows as [|[[[|i ids]|]] rows]; try discriminate Hids;
      rewrite He, He'; reflexivity.
  - intros moveRows e rawLines -> Hids He Hraw. simpl.
    destruct moveRows as [|[[[|i ids]|]] rows]; try discriminate Hids;
      rewrite He, Hraw; reflexivity.
  - intros Hby Hsrv Hraw.
    destruct (odooSearchRead env remote (MoveById invoiceId))
      as [moveRows|]; simpl; [|reflexivity].
    assert (Hlow :
      match odooSearchRead env remote (LinesFiltered invoiceId) with
      | Ok srvLines => Ok srvLines
      | Throw _ =>
          rawLines <- odooSearchRead env remote (LinesRaw invoiceId) ;;
          Ok (filter keep_line rawLines)
      end = Ok [] \/
      exists e,
      match odooSearchRead env remote (LinesFiltered invoiceId) with
      | Ok srvLines => Ok srvLines
      | Throw _ =>
          rawLines <- odooSearchRead env remote (LinesRaw invoiceId) ;;
          Ok (filter keep_line rawLines)
      end = Throw e).
    { destruct (odooSearchRead env remote (LinesFiltered invoiceId)).
      - simpl in Hsrv. subst. now left.
      - destruct (odooSearchRead env remote (LinesRaw invoiceId)); simpl.
        + simpl in Hraw. subst. now left.
        + right. eauto. }
    destruct moveRows as [|[[[|i ids]|]] rows].
    1, 2, 4: destruct Hlow as [-> | [e ->]]; reflexivity.
    specialize (Hby (i :: ids)).
    destruct (odooSearchRead env remote (LinesByIds (i :: ids))).
    + simpl in Hby. subst. reflexivity.
    + reflexivity.
Qed.

Lemma invoice_lines_never_an_error_witness :
  (exists items,
     GET Sample.env Sample.remoteNoLines Sample.invoiceParams
     = json (Items items)) /\
  GET Sample.env Sample.remoteNoLines Sample.invoiceParams = json (Items []).
Proof.
  pose proof (invoice_lines_never_an_error Sample.env Sample.remoteNoLines
                Sample.invoiceParams "1" eq_refl eq_refl)
    as (H1 & _ & _ & _ & _ & H6).
  split; [exact H1|].
  apply H6; [intros lineIds; reflexivity | reflexivity | reflexivity].
Defined.


(* ================================================================== *)
(** * The page: sorting, aggregation and labels *)
(* ================================================================== *)

Module PageFacts.
Import Js Page Spec ObjFacts.

Lemma gtb_lt x y : gtb x y = true <-> (y < x)%Q.
Proof.
  unfold gtb. rewrite negb_true_iff, <- not_true_iff_false, Qle_bool_iff.
  split; [apply Qnot_le_lt | apply Qlt_not_le].
Qed.

(** ** Sorting keeps the elements *)

Section Sorting.
Context {A : Type} (compare : A -> A -> Q).

Lemma In_insertSorted a l x :
  In x (insertSorted compare a l) <-> x = a \/ In x l.
Proof.
  induction l as [|b l IH]; simpl.
  - intuition.
  - destruct (gtb (compare a b) 0); simpl; rewrite ?IH; intuition.
Qed.

Lemma In_sort l x : In x (sort compare l) <-> In x l.
Proof.
  unfold sort. induction l as [|a l IH]; simpl; [tauto|].
  rewrite In_insertSorted, IH. intuition.
Qed.

End Sorting.

(** ** The filtered KPIs *)

Lemma filteredStatsBy_average keep data :
  let f := filteredStatsBy keep data in
  averageOf (Filtered.revenue f) (Filtered.orders f) (Filtered.avg f).
Proof.
  destruct data as [data|]; simpl; [|reflexivity].
  destruct (List.length (filter keep (allOrders data))) as [|n] eqn:E.
  - reflexivity.
  - unfold averageOf. change (0 <? S n)%nat with true. cbv iota.
    unfold div.
    destruct (Qeq_bool (inject_Z (Z.of_nat (S n))) 0) eqn:Z0.
    + apply Qeq_bool_iff in Z0. unfold Qeq in Z0. simpl in Z0. lia.
    + eexists. split; reflexivity.
Qed.

End PageFacts.


(* ================================================================== *)
(** * The page: chart buckets *)
(* ================================================================== *)

Module ChartFacts.
Import Js Page Spec ObjFacts.

(** ** Day numbers and their labels *)

Lemma toString_inj a b : toString a = toString b -> a = b.
Proof.
  unfold toString. intros H.
  assert (Hnn : forall n, Z.to_int n <> Decimal.Pos Decimal.Nil /\
                          Z.to_int n <> Decimal.Neg Decimal.Nil).
  { intros [|p|p]; simpl; split; try discriminate;
      intros [= E]; now apply DecimalPos.Unsigned.to_uint_nonnil in E. }
  apply DecimalZ.to_int_inj.
  assert (E : Some (Z.to_int a) = Some (Z.to_int b)).
  { rewrite <- (NilZero.isi (Z.to_int a)), <- (NilZero.isi (Z.to_int b));
      try apply Hnn.
    now rewrite H. }
  now injection E.
Qed.

Lemma In_daysOf n x : In x (daysOf n) <-> (1 <= x <= n)%Z.
Proof.
  unfold daysOf. rewrite in_map_iff. split.
  - intros (i & <- & Hi). apply in_seq in Hi. lia.
  - intros H. exists (Z.to_nat x). split; [lia|]. apply in_seq. lia.
Qed.

Lemma NoDup_day_labels n : NoDup (map toString (daysOf n)).
Proof.
  unfold daysOf. rewrite map_map.
  apply Finite.Injective_map_NoDup; [|apply seq_NoDup].
  intros i j H. apply toString_inj in H. lia.
Qed.

(** ** Calendar *)

Lemma isLeapYear_two_digits y :
  (1 <= y <= 99)%Z -> isLeapYear (1900 + y) = isLeapYear y.
Proof.
  intros Hy. unfold isLeapYear.
  assert (H4 : ((1900 + y) mod 4 = y mod 4)%Z).
  { replace (1900 + y)%Z with (y + 475 * 4)%Z by lia. apply Z_mod_plus_full. }
  assert (H100 : ((1900 + y) mod 100 = y)%Z).
  { replace (1900 + y)%Z with (y + 19 * 100)%Z by lia.
    rewrite Z_mod_plus_full. apply Z.mod_small. lia. }
  assert (H100' : (y mod 100 = y)%Z) by (apply Z.mod_small; lia).
  rewrite H4, H100, H100'.
  destruct (y =? 0)%Z eqn:E; [apply Z.eqb_eq in E; lia|].
  simpl. now rewrite !andb_true_r.
Qed.

Lemma lastDayBefore_next y m :
  (0 <= m <= 11)%Z -> (0 < y)%Z ->
  lastDayBefore y (m + 1) = monthLength y m.
Proof.
  intros Hm Hy. unfold lastDayBefore.
  replace (m + 1 - 1)%Z with m by lia.
  rewrite Z.div_small, Z.mod_small, Z.add_0_r by lia.
  destruct ((0 <=? y) && (y <=? 99))%Z eqn:E; [|reflexivity].
  unfold monthLength. rewrite isLeapYear_two_digits; [reflexivity|lia].
Qed.

(** The calendar of [Date] is the Gregorian calendar. *)
Lemma isLeapYear_leapYear y : isLeapYear y = leapYear y.
Proof.
  unfold isLeapYear, leapYear.
  pose proof (Z.div_mod y 4). pose proof (Z.mod_pos_bound y 4).
  pose proof (Z.div_mod y 100). pose proof (Z.mod_pos_bound y 100).
  pose proof (Z.div_mod y 400). pose proof (Z.mod_pos_bound y 400).
  destruct (Z.eqb_spec (y mod 4) 0), (Z.eqb_spec (y mod 100) 0),
    (Z.eqb_spec (y mod 400) 0); simpl; try reflexivity; exfalso; lia.
Qed.

Lemma monthLength_daysInMonth y m :
  (0 <= m <= 11)%Z -> monthLength y m = Z.of_nat (daysInMonth y m).
Proof.
  intros Hm. unfold monthLength. rewrite isLeapYear_leapYear.
  assert (H : (m = 0 \/ m = 1 \/ m = 2 \/ m = 3 \/ m = 4 \/ m = 5 \/ m = 6
               \/ m = 7 \/ m = 8 \/ m = 9 \/ m = 10 \/ m = 11)%Z) by lia.
  destruct H as [H|[H|[H|[H|[H|[H|[H|[H|[H|[H|[H|H]]]]]]]]]]]; subst m;
    simpl; try reflexivity; now destruct (leapYear y).
Qed.

Lemma daysInMonth_bound y m : (daysInMonth y m <= 31)%nat.
Proof.
  unfold daysInMonth.
  destruct m as [|p|p]; try lia.
  do 4 (try destruct p as [p|p|]; try lia); destruct (leapYear y); lia.
Qed.

(** The day numbers print as the labels of the days. *)
Lemma day_labels n :
  (n <= 31)%nat -> map toString (daysOf (Z.of_nat n)) = firstn n dayLabels.
Proof.
  intros Hn.
  do 32 (destruct n as [|n]; [reflexivity|]). lia.
Qed.

Lemma nth_error_dayLabels day :
  (1 <= day <= 31)%Z ->
  nth_error dayLabels (Z.to_nat day - 1) = Some (toString day).
Proof.
  intros Hd.
  replace day with (Z.of_nat (S (Z.to_nat day - 1))) at 2 by lia.
  assert (Hn : (Z.to_nat day - 1 < 31)%nat) by lia.
  revert Hn. generalize (Z.to_nat day - 1)%nat. intros n Hn.
  do 31 (destruct n as [|n]; [reflexivity|]). lia.
Qed.

(** ** Initialising the buckets *)

Lemma init_buckets {A} (f : A -> string) (v0 : number) l : forall acc,
  NoDup (keys acc ++ map f l) ->
  fold_left (fun grouped i => set grouped (f i) v0) l acc
  = (acc ++ map (fun i => (f i, v0)) l)%list.
Proof.
  induction l as [|i l IH]; intros acc Hnd; simpl.
  - now rewrite app_nil_r.
  - simpl in Hnd. rewrite set_absent.
    + rewrite IH.
      * now rewrite <- app_assoc.
      * unfold keys in *. rewrite map_app. simpl.
        rewrite <- app_assoc. exact Hnd.
    + apply get_None_keys. apply NoDup_remove_2 in Hnd.
      intros Hin. apply Hnd. apply in_or_app. now left.
Qed.

Lemma get_init {A} (f : A -> string) (v0 : number) l k :
  In k (map f l) -> get (map (fun i => (f i, v0)) l) k = Some v0.
Proof.
  induction l as [|i l IH]; simpl; [tauto|].
  destruct (String.eqb k (f i)) eqn:E; auto.
  apply String.eqb_neq in E. intros [H|H]; [congruence | auto].
Qed.

(** ** Adding the orders *)

Lemma keys_bump grouped key amount :
  In key (keys grouped) -> keys (bump grouped key amount) = keys grouped.
Proof. apply keys_set_present. Qed.

Lemma get_bump_other grouped key amount k :
  key <> k -> get (bump grouped key amount) k = get grouped k.
Proof. apply get_set_other. Qed.

Lemma get_bump_present grouped key amount k v :
  get grouped k = Some v -> exists v', get (bump grouped key amount) k = Some v'.
Proof.
  intros H. unfold bump. destruct (String.eqb key k) eqn:E.
  - apply String.eqb_eq in E. subst. rewrite get_set_same. eauto.
  - apply String.eqb_neq in E. rewrite get_set_other by exact E. eauto.
Qed.

Section AddOrders.
Variables (matches : JsDate -> bool) (bucket : JsDate -> string).

(** When every matching order falls into an existing bucket, no bucket
    is added. *)
Lemma keys_addOrders orders : forall grouped,
  (forall o d, In o orders -> Order.date o = Some d -> matches d = true ->
               In (bucket d) (keys grouped)) ->
  keys (addOrders matches bucket orders grouped) = keys grouped.
Proof.
  unfold addOrders.
  induction orders as [|o orders IH]; intros grouped H; simpl; auto.
  destruct (Order.date o) as [d|] eqn:D.
  - destruct (matches d) eqn:M.
    + rewrite IH.
      * apply keys_bump. apply (H o d); simpl; auto.
      * intros o' d' Hin D' M'. rewrite keys_bump.
        -- apply (H o' d'); simpl; auto.
        -- apply (H o d); simpl; auto.
    + apply IH. intros o' d' Hin. apply H. now right.
  - apply IH. intros o' d' Hin. apply H. now right.
Qed.

(** A bucket no matching order falls into keeps its value. *)
Lemma get_addOrders_other orders k : forall grouped,
  (forall o d, In o orders -> Order.date o = Some d -> matches d = true ->
               bucket d <> k) ->
  get (addOrders matches bucket orders grouped) k = get grouped k.
Proof.
  unfold addOrders.
  induction orders as [|o orders IH]; intros grouped H; simpl; auto.
  destruct (Order.date o) as [d|] eqn:D.
  - destruct (matches d) eqn:M.
    + rewrite IH by (intros o' d' Hin; apply H; now right).
      apply get_bump_other. apply (H o d); simpl; auto.
    + apply IH. intros o' d' Hin. apply H. now right.
  - apply IH. intros o' d' Hin. apply H. now right.
Qed.

(** A bucket stays a bucket. *)
Lemma get_addOrders_present orders k : forall grouped v,
  get grouped k = Some v ->
  exists v', get (addOrders matches bucket orders grouped) k = Some v'.
Proof.
  unfold addOrders.
  induction orders as [|o orders IH]; intros grouped v H; simpl; eauto.
  destruct (Order.date o) as [d|]; eauto.
  destruct (matches d); eauto.
  destruct (get_bump_present grouped (bucket d) (or0 (Order.amount o)) k v H)
    as [v' Hv'].
  eauto.
Qed.

End AddOrders.

(** ** The two views *)

Lemma chartMonths_complete toLocaleMonthShort MONTHS matches
  (inYear : JsDate -> Prop) orders :
  NoDup (map (substring 0 3) MONTHS) ->
  (forall d, matches d = true -> inYear d) ->
  completeAxis (map (substring 0 3) MONTHS)
    (namedIn toLocaleMonthShort inYear) (fun o => In o orders)
    (chartMonths toLocaleMonthShort MONTHS matches orders).
Proof.
  intros Hnd Hyear. unfold chartMonths.
  set (shortMonths := map (substring 0 3) MONTHS) in *.
  rewrite (init_buckets (fun m => m) (Num 0) shortMonths [])
    by (simpl; now rewrite map_id).
  simpl app. split.
  - rewrite map_map. simpl. apply map_id.
  - intros p Hp. apply in_map_iff in Hp. destruct Hp as (m & <- & Hm).
    simpl.
    assert (H0 : get (map (fun i => (i, Num 0)) shortMonths) m
                 = Some (Num 0)).
    { apply (get_init (fun m => m)). now rewrite map_id. }
    destruct (get_addOrders_present matches
                toLocaleMonthShort orders m _ _ H0) as [v Hv].
    exists v. split; [exact Hv|]. intros Hnone.
    rewrite get_addOrders_other in Hv.
    + rewrite H0 in Hv. now injection Hv.
    + intros o d Hin D M E. apply (Hnone o Hin).
      exists d. auto.
Qed.

Lemma chartDays_complete y m orders :
  (0 <= m <= 11)%Z -> (0 < y)%Z -> Forall validOrder orders ->
  completeAxis (firstn (daysInMonth y m) dayLabels)
    (onDay y m) (fun o => In o orders) (chartDays y m orders).
Proof.
  intros Hm Hy Hvalid. unfold chartDays.
  rewrite lastDayBefore_next by assumption.
  rewrite <- day_labels by apply daysInMonth_bound.
  rewrite <- monthLength_daysInMonth by exact Hm.
  set (n := monthLength y m).
  rewrite (init_buckets toString (Num 0) (daysOf n) [])
    by (simpl; apply NoDup_day_labels).
  simpl app.
  set (g0 := map (fun i => (toString i, Num 0)) (daysOf n)).
  set (matches := fun d => ((getFullYear d =? y)%Z && (getMonth d =? m)%Z)%bool).
  set (bucket := fun d => toString (getDate d)).
  assert (Hk0 : keys g0 = map toString (daysOf n)).
  { unfold g0, keys. rewrite map_map. reflexivity. }
  assert (Hkeys : keys (addOrders matches bucket orders g0) = keys g0).
  { apply keys_addOrders. intros o d Hin D M.
    rewrite Hk0. unfold bucket. apply (in_map toString). apply In_daysOf.
    rewrite Forall_forall in Hvalid. destruct (Hvalid o Hin d D) as [_ Hd].
    unfold matches in M. apply andb_true_iff in M. destruct M as [My Mm].
    apply Z.eqb_eq in My, Mm. rewrite My, Mm in Hd.
    unfold n. rewrite monthLength_daysInMonth by exact Hm. exact Hd. }
  split.
  - rewrite map_map. simpl. rewrite <- Hk0, <- Hkeys. reflexivity.
  - intros p Hp. apply in_map_iff in Hp. destruct Hp as ([k v] & <- & Hkv).
    simpl. exists v. split; [reflexivity|]. intros Hnone.
    assert (Hget : get (addOrders matches bucket orders g0) k = Some v).
    { apply In_get; [|exact Hkv]. rewrite Hkeys, Hk0.
      apply NoDup_day_labels. }
    rewrite get_addOrders_other in Hget.
    + assert (Hk : In k (map toString (daysOf n))).
      { rewrite <- Hk0, <- Hkeys. unfold keys.
        now apply (in_map fst) in Hkv. }
      unfold g0 in Hget. rewrite (get_init toString) in Hget by exact Hk.
      now injection Hget.
    + intros o d Hin D M E. apply (Hnone o Hin).
      unfold matches in M. apply andb_true_iff in M. destruct M as [My Mm].
      apply Z.eqb_eq in My, Mm.
      rewrite Forall_forall in Hvalid. destruct (Hvalid o Hin d D) as [_ Hd].
      pose proof (daysInMonth_bound (getFullYear d) (getMonth d)) as Hb.
      exists (Z.to_nat (getDate d) - 1)%nat. split.
      * rewrite nth_error_dayLabels by lia. now rewrite <- E.
      * exists d. repeat split; auto. lia.
Qed.

(** The orders the charts are computed from are orders of the data. *)
Lemma allOrders_orderIn data o : In o (allOrders data) -> orderIn data o.
Proof.
  unfold allOrders, values. intros H. apply in_flat_map in H.
  destruct H as (group & Hg & Ho). apply in_map_iff in Hg.
  destruct Hg as ([name group'] & <- & Hin). exists name, group'. auto.
Qed.

Lemma completeAxis_orders labels matching (P Q : Order.t -> Prop) series :
  (forall o, P o -> Q o) ->
  completeAxis labels matching P series ->
  completeAxis labels matching Q series.
Proof.
  intros HPQ [Hlabels Hvalues]. split; [exact Hlabels|].
  intros p Hp. destruct (Hvalues p Hp) as (v & Hv & H0).
  exists v. split; [exact Hv|]. intros Hnone. apply H0.
  intros o Ho. apply Hnone. auto.
Qed.

End ChartFacts.


(* ================================================================== *)
(** * Properties of the derived views *)
(* ================================================================== *)

Import Page.

(** C6: the average invoice value is the total revenue divided by the
    invoice count when the count is positive and exactly 0 when the
    count is 0, in the KPI object of the stats operation and in the
    filtered KPIs of both pages; it is always a finite number, so no
    division by zero takes place. *)
Theorem average_is_revenue_over_count :
  (forall env remote searchParams s,
     body (GET env remote searchParams) = Stats s ->
     averageOf (Kpi.revenue (kpi s)) (Kpi.orders (kpi s))
       (Kpi.avgOrderValue (kpi s))) /\
  (forall data viewBy selectedYear,
     let f := PageCalendar.filteredStats data viewBy selectedYear in
     averageOf (Filtered.revenue f) (Filtered.orders f) (Filtered.avg f)) /\
  (forall data viewBy selectedYear,
     let f := PageFinancial.filteredStats data viewBy selectedYear in
     averageOf (Filtered.revenue f) (Filtered.orders f) (Filtered.avg f)).
Proof.
  split; [|split].
  - intros env remote searchParams s H.
    apply RouteFacts.GET_stats_inversion in H.
    destruct H as (mainPartner & invoices & H).
    apply RouteFacts.process_inversion in H. destruct H as (acc & _ & ->).
    simpl.
    destruct (RouteFacts.avgOrderValue_spec (totalRevenue acc)
                (List.length invoices)) as [[H0 H]|[Hpos H]]; rewrite H.
    + rewrite H0. reflexivity.
    + destruct (List.length invoices); [lia|].
      eexists. split; reflexivity.
  - intros. apply PageFacts.filteredStatsBy_average.
  - intros. apply PageFacts.filteredStatsBy_average.
Qed.

Lemma average_is_revenue_over_count_witness :
  exists s,
    body (GET Sample.env Sample.remote Sample.statsParams) = Stats s /\
    averageOf (Kpi.revenue (kpi s)) 3 (Kpi.avgOrderValue (kpi s)).
Proof.
  eexists. split; [reflexivity|].
  apply (proj1 average_is_revenue_over_count Sample.env Sample.remote
           Sample.statsParams _ eq_refl).
Defined.

(** C7: with the data loaded, the chart series has exactly one bucket
    per calendar unit of the period: the twelve months in the year
    view, labelled Jan to Dec (Apr to Mar on the financial-year page),
    and the days of the selected month in a month view, labelled 1 to
    N where N is the number of days of that month in the Gregorian
    calendar; every bucket has a value, and a bucket no order of the
    period falls into has the value 0.  The month views are taken for
    a month index from 0 to 11, a year of the common era and orders
    whose dates are calendar dates. *)
Theorem chart_axis_is_complete :
  forall toLocaleMonthShort data selectedYear,
    completeAxis
      ["Jan"; "Feb"; "Mar"; "Apr"; "May"; "Jun";
       "Jul"; "Aug"; "Sep"; "Oct"; "Nov"; "Dec"]
      (namedIn toLocaleMonthShort (inCalendarYear selectedYear))
      (orderIn data)
      (PageCalendar.chartData toLocaleMonthShort (Some data) year
         selectedYear) /\
    completeAxis
      ["Apr"; "May"; "Jun"; "Jul"; "Aug"; "Sep";
       "Oct"; "Nov"; "Dec"; "Jan"; "Feb"; "Mar"]
      (namedIn toLocaleMonthShort (inFinancialYear selectedYear))
      (orderIn data)
      (PageFinancial.chartData toLocaleMonthShort (Some data) year
         selectedYear) /\
    forall index,
      (0 <= index <= 11)%Z -> (0 < selectedYear)%Z ->
      (forall o, orderIn data o -> validOrder o) ->
      completeAxis
        (firstn (daysInMonth selectedYear index) dayLabels)
        (onDay selectedYear index) (orderIn data)
        (PageCalendar.chartData toLocaleMonthShort (Some data) (month index)
           selectedYear) /\
      completeAxis
        (firstn (daysInMonth (fst (financialMonth selectedYear index))
                   (snd (financialMonth selectedYear index)))
           dayLabels)
        (onDay (fst (financialMonth selectedYear index))
           (snd (financialMonth selectedYear index)))
        (orderIn data)
        (PageFinancial.chartData toLocaleMonthShort (Some data) (month index)
           selectedYear).
Proof.
  intros toLocaleMonthShort data selectedYear.
  pose proof (ChartFacts.allOrders_orderIn data) as Horders.
  split; [|split].
  - apply (ChartFacts.completeAxis_orders _ _ _ _ _ Horders).
    apply (ChartFacts.chartMonths_complete toLocaleMonthShort
             PageCalendar.MONTHS).
    + simpl. repeat (constructor; [simpl; intuition discriminate|]).
      constructor.
    + intros d H. now apply Z.eqb_eq in H.
  - apply (ChartFacts.completeAxis_orders _ _ _ _ _ Horders).
    apply (ChartFacts.chartMonths_complete toLocaleMonthShort
             PageFinancial.MONTHS).
    + simpl. repeat (constructor; [simpl; intuition discriminate|]).
      constructor.
    + intros d H. apply Z.eqb_eq in H. revert H.
      unfold PageFinancial.financialYear, inFinancialYear.
      destruct (Z.leb_spec 3 (getMonth d)); lia.
  - intros index Hindex Hyear Hvalid.
    assert (Hall : Forall validOrder (allOrders data))
      by (apply Forall_forall; auto).
    split; apply (ChartFacts.completeAxis_orders _ _ _ _ _ Horders).
    + now apply ChartFacts.chartDays_complete.
    + unfold PageFinancial.chartData, financialMonth.
      rewrite Z.rem_mod_nonneg by lia.
      destruct (Z.ltb_spec index 9) as [Hlt|Hge].
      * replace (9 <=? index)%Z with false by (symmetry; apply Z.leb_gt; lia).
        rewrite Z.mod_small by lia. simpl fst. simpl snd.
        apply ChartFacts.chartDays_complete; auto. lia.
      * replace (9 <=? index)%Z with true by (symmetry; apply Z.leb_le; lia).
        replace ((index + 3) mod 12)%Z with (index - 9)%Z.
        -- simpl fst. simpl snd.
           apply ChartFacts.chartDays_complete; auto; lia.
        -- replace (index + 3)%Z with (index - 9 + 1 * 12)%Z by lia.
           rewrite Z_mod_plus_full. symmetry. apply Z.mod_small. lia.
Qed.

(** February 2026 has 28 buckets. *)
Lemma chart_axis_is_complete_witness :
  completeAxis
    [ "1"; "2"; "3"; "4"; "5"; "6"; "7"; "8"; "9"; "10";
      "11"; "12"; "13"; "14"; "15"; "16"; "17"; "18"; "19"; "20";
      "21"; "22"; "23"; "24"; "25"; "26"; "27"; "28" ]
    (onDay 2026 1)
    (orderIn Sample.pageData)
    (PageCalendar.chartData Sample.english (Some Sample.pageData) (month 1)
       2026).
Proof.
  apply (proj2 (proj2 (chart_axis_is_complete Sample.english Sample.pageData
                         2026)) 1%Z).
  - lia.
  - lia.
  - intros o (name & group & Hin & Ho) d D. simpl in Hin.
    repeat (destruct Hin as [[= <- <-]|Hin];
            [simpl in Ho;
             repeat (destruct Ho as [<-|Ho];
                     [injection D as <-; vm_compute; intuition discriminate|]);
             contradiction|]).
    contradiction.
Defined.

(* ================================================================== *)
(** * Further properties of the route handler *)
(* ================================================================== *)

Module RouteMore.
Import Js Odoo Route Spec ObjFacts.

Lemma flat_orders_set (o : obj Bucket.t) k b' x :
  Bucket.orders b'
  = (match get o k with Some b => Bucket.orders b | None => [] end ++ [x])%list ->
  Permutation (flat_map Bucket.orders (values (set o k b')))
    (x :: flat_map Bucket.orders (values o)).
Proof.
  unfold values. induction o as [|[k' v'] o IH]; simpl; intros H.
  - rewrite H. simpl. reflexivity.
  - destruct (String.eqb k k') eqn:E; simpl.
    + rewrite H. rewrite <- app_assoc. simpl.
      symmetry. apply Permutation_middle.
    + rewrite (IH H). symmetry. apply Permutation_middle.
Qed.

(** Each round files one order, the one of the document. *)
Lemma accumulate_orders acc inv acc' :
  accumulate acc inv = Ok acc' ->
  Permutation (flat_map Bucket.orders (values (byAddress acc')))
    (orderOf inv :: flat_map Bucket.orders (values (byAddress acc))) /\
  (forall name, In name (keys (byAddress acc')) <->
                name = addressName inv \/ In name (keys (byAddress acc))) /\
  (forall name b o,
     In (name, b) (byAddress acc') -> In o (Bucket.orders b) ->
     (name = addressName inv /\ o = orderOf inv) \/
     exists b0, In (name, b0) (byAddress acc) /\ In o (Bucket.orders b0)).
Proof.
  unfold accumulate.
  destruct (is_inherited (addressName inv)); [discriminate|].
  intros [= <-]. simpl. split; [|split].
  - apply flat_orders_set. simpl.
    destruct (get (byAddress acc) (addressName inv)); reflexivity.
  - intros name. destruct (get (byAddress acc) (addressName inv)) eqn:G.
    + apply get_In in G. apply (in_map fst) in G. simpl in G.
      rewrite keys_set_present by exact G.
      split; [auto | intros [->|H]; auto].
    + apply get_None_keys in G. rewrite keys_set_absent by exact G.
      rewrite in_app_iff. simpl. intuition.
  - intros name b o Hb Ho. apply In_set in Hb. destruct Hb as [Hb|Hb].
    + injection Hb as -> ->. simpl in Ho. apply in_app_iff in Ho.
      destruct Ho as [Ho|[Ho|[]]].
      * right. destruct (get (byAddress acc) (addressName inv)) eqn:G.
        -- apply get_In in G. eauto.
        -- destruct Ho.
      * left. auto.
    + right. eauto.
Qed.

Lemma forEach_accumulate_orders invoices : forall acc acc',
  forEach accumulate invoices acc = Ok acc' ->
  Permutation (flat_map Bucket.orders (values (byAddress acc')))
    (flat_map Bucket.orders (values (byAddress acc))
     ++ map orderOf invoices) /\
  (forall name, In name (keys (byAddress acc')) <->
                In name (keys (byAddress acc)) \/
                exists inv, In inv invoices /\ addressName inv = name) /\
  (forall name b o,
     In (name, b) (byAddress acc') -> In o (Bucket.orders b) ->
     (exists inv, In inv invoices /\ addressName inv = name /\
                  o = orderOf inv) \/
     exists b0, In (name, b0) (byAddress acc) /\ In o (Bucket.orders b0)).
Proof.
  induction invoices as [|inv invoices IH]; intros acc acc'; simpl.
  - intros [= <-]. split; [|split].
    + now rewrite app_nil_r.
    + intros name. split; [auto | intros [H|(inv & [] & _)]; auto].
    + intros name b o Hb Ho. right. eauto.
  - destruct (accumulate acc inv) as [acc1|] eqn:E; simpl; [|discriminate].
    intros H. apply IH in H. apply accumulate_orders in E.
    destruct H as (H1 & H2 & H3), E as (E1 & E2 & E3).
    split; [|split].
    + rewrite H1, E1. simpl. apply Permutation_middle.
    + intros name. rewrite H2, E2. split.
      * intros [[->|H]|(i & Hi & Ha)]; eauto.
      * intros [H|(i & [->|Hi] & Ha)]; eauto.
    + intros name b o Hb Ho. destruct (H3 name b o Hb Ho) as [H|H].
      * left. destruct H as (i & Hi & Ha & Hoi). eauto 6.
      * destruct H as (b1 & Hb1 & Ho1).
        destruct (E3 name b1 o Hb1 Ho1) as [[-> ->]|H]; [left|right]; eauto 6.
Qed.

Lemma listedOrder_normalised inv :
  listedOrder (with_amount_total inv (amountTotal inv)) = orderOf inv.
Proof. reflexivity. Qed.

Lemma addressName_normalised inv a :
  addressName (with_amount_total inv a) = addressName inv.
Proof. reflexivity. Qed.

Lemma amountTotal_abs inv :
  (Qabs (amountTotal inv) == Qabs (or0 (Inv.amount_total inv)))%Q.
Proof.
  unfold amountTotal.
  destruct (String.eqb (Inv.move_type inv) "out_refund").
  - rewrite Qabs_opp. apply Qabs_pos. apply Qabs_nonneg.
  - apply Qabs_pos. apply Qabs_nonneg.
Qed.

(** The name of an item follows the product, then the description. *)
Lemma normalize_displayName line :
  displayName line (Item.name (normalize line)).
Proof.
  unfold displayName, normalize. simpl.
  destruct (Line.product_id line) as [[i [|c n]]|] eqn:P; simpl.
  - right.
    assert (U : forall i0 n0, Some (i, "") = Some (i0, n0) -> n0 = "")
      by (intros i0 n0 [= _ <-]; reflexivity).
    destruct (Line.name line) as [[|c' n']|]; simpl.
    + right. split; [exact U|]. split; [now right | reflexivity].
    + left. split; [exact U|]. split; [reflexivity | discriminate].
    + right. split; [exact U|]. split; [now left | reflexivity].
  - left. exists i. split; [reflexivity | discriminate].
  - right.
    assert (U : forall i0 n0,
              @None (Z * string) = Some (i0, n0) -> n0 = "")
      by discriminate.
    destruct (Line.name line) as [[|c' n']|]; simpl.
    + right. split; [exact U|]. split; [now right | reflexivity].
    + left. split; [exact U|]. split; [reflexivity | discriminate].
    + right. split; [exact U|]. split; [now left | reflexivity].
Qed.

(** Every line the three tiers deliver was in the answer to one of the
    line queries. *)
Lemma fetch_lines_fetched env remote invoiceId lines line :
  fetch_lines env remote invoiceId = Ok lines ->
  In line lines -> fetchedLine env remote invoiceId line.
Proof.
  unfold fetch_lines, fetchedLine.
  destruct (odooSearchRead env remote (MoveById invoiceId))
    as [moveRows|]; simpl; [|discriminate].
  assert (Hrest :
    match odooSearchRead env remote (LinesFiltered invoiceId) with
    | Ok srvLines => Ok srvLines
    | Throw _ =>
        rawLines <- odooSearchRead env remote (LinesRaw invoiceId) ;;
        Ok (filter keep_line rawLines)
    end = Ok lines ->
    In line lines ->
    (exists lineIds lines0,
       odooSearchRead env remote (LinesByIds lineIds) = Ok lines0 /\
       In line lines0) \/
    (exists lines0,
       odooSearchRead env remote (LinesFiltered invoiceId) = Ok lines0 /\
       In line lines0) \/
    (exists lines0,
       odooSearchRead env remote (LinesRaw invoiceId) = Ok lines0 /\
       In line lines0)).
  { destruct (odooSearchRead env remote (LinesFiltered invoiceId))
      as [srvLines|].
    - intros [= <-] Hin. right. left. eauto.
    - destruct (odooSearchRead env remote (LinesRaw invoiceId))
        as [rawLines|]; simpl; [|discriminate].
      intros [= <-] Hin. apply filter_In in Hin. right. right.
      exists rawLines. tauto. }
  destruct moveRows as [|[[[|i ids]|]] rows]; try exact Hrest.
  intros H Hin. left. eauto.
Qed.

(** The name of the bucket of a document. *)
Lemma addressName_cases inv name :
  addressName inv = name <->
  (exists id, Inv.partner_shipping_id inv = Some (id, name)) \/
  (Inv.partner_shipping_id inv = None /\ name = "Unknown").
Proof.
  unfold addressName.
  destruct (Inv.partner_shipping_id inv) as [[id n]|]; split.
  - intros <-. left. eauto.
  - intros [[id' [= _ <-]]|[H _]]; [reflexivity | discriminate].
  - intros <-. right. auto.
  - intros [[id' H]|[_ ->]]; [discriminate | reflexivity].
Qed.

(** What the filter of the third tier calls a section or a note. *)
Lemma section_or_note_false display_type :
  section_or_note display_type = false ->
  display_type <> Some "line_section" /\ display_type <> Some "line_note".
Proof.
  intros H. split; intros ->; discriminate H.
Qed.

Lemma GET_items_inversion env remote searchParams items :
  body (GET env remote searchParams) = Items items ->
  exists invoiceId,
    truthy (searchParams "id") = Some invoiceId /\
    match fetch_lines env remote invoiceId with
    | Ok lines => items = map normalize lines
    | Throw _ => items = []
    end.
Proof.
  unfold GET. destruct (searchParams "type") as [type|]; [|discriminate].
  destruct (String.eqb type "stats").
  - unfold stats. destruct (truthy (ODOO_CUSTOMER_REF env)); [|discriminate].
    destruct (odooSearchRead env remote (PartnerByRef s)) as [[|p ps]|];
      simpl; try discriminate.
    destruct (odooSearchRead env remote (PostedMoves (partner_id p)));
      simpl; try discriminate.
    destruct (process p a); simpl; discriminate.
  - destruct (String.eqb type "invoice"); [|discriminate].
    destruct (truthy (searchParams "id")) as [invoiceId|]; [|discriminate].
    unfold invoice. intros H. exists invoiceId. split; [reflexivity|].
    destruct (fetch_lines env remote invoiceId); simpl in H;
      now injection H as <-.
Qed.

End RouteMore.

Section StatsOutcome.
Import RouteFacts RouteMore.

Lemma forEach_accumulate_Ok_names invoices : forall acc acc',
  forEach accumulate invoices acc = Ok acc' ->
  Forall (fun inv => is_inherited (addressName inv) = false) invoices.
Proof.
  induction invoices as [|inv invoices IH]; intros acc acc'; simpl.
  - constructor.
  - destruct (accumulate acc inv) as [acc1|] eqn:E; simpl; [|discriminate].
    intros H. constructor; [|eapply IH; eauto].
    unfold accumulate in E.
    destruct (is_inherited (addressName inv)); [discriminate | reflexivity].
Qed.

(** X1: the stats operation answers 404 exactly when the customer
    reference is set and its lookup succeeds without finding a partner;
    the message then names the reference. *)
Theorem stats_is_404_iff_customer_unknown :
  forall env remote,
    (status (stats env remote) = 404%Z <->
     exists customerRef,
       truthy (ODOO_CUSTOMER_REF env) = Some customerRef /\
       odooSearchRead env remote (PartnerByRef customerRef) = Ok []) /\
    (forall customerRef,
       truthy (ODOO_CUSTOMER_REF env) = Some customerRef ->
       odooSearchRead env remote (PartnerByRef customerRef) = Ok [] ->
       body (stats env remote)
       = Failure ("Customer with Ref " ++ customerRef ++ " not found")).
Proof.
  intros env remote. unfold stats. split.
  - destruct (truthy (ODOO_CUSTOMER_REF env)) as [customerRef|].
    + destruct (odooSearchRead env remote (PartnerByRef customerRef))
        as [[|p ps]|e] eqn:L; simpl.
      * split; [eauto | reflexivity].
      * assert (Hno : ~ exists r, Some customerRef = Some r /\
                        odooSearchRead env remote (PartnerByRef r) = Ok [])
          by (intros (r & [= <-] & H); rewrite L in H; discriminate).
        destruct (odooSearchRead env remote (PostedMoves (partner_id p)))
          as [invoices|e]; simpl.
        -- destruct (process p invoices); simpl;
             (split; [discriminate | intros H; now apply Hno in H]).
        -- split; [discriminate | intros H; now apply Hno in H].
      * split; [discriminate|].
        intros (r & [= <-] & H). rewrite L in H. discriminate.
    + simpl. split; [discriminate | intros (r & H & _); discriminate].
  - intros customerRef -> ->. reflexivity.
Qed.

Lemma stats_is_404_iff_customer_unknown_witness :
  status (stats Sample.env Sample.remoteUnknownCustomer) = 404%Z.
Proof.
  apply (proj1 (stats_is_404_iff_customer_unknown Sample.env
                  Sample.remoteUnknownCustomer)).
  exists "ACME-01". split; reflexivity.
Defined.

(** X2: the stats operation answers 200 exactly when the customer
    reference is set, its lookup finds a partner, the fetch of the
    documents of the first partner found succeeds and no document has a
    shipping address named like an inherited object property; the
    response then carries the name of that partner and one list entry
    per document. *)
Theorem stats_is_200_iff :
  forall env remote,
    (status (stats env remote) = 200%Z <->
     exists customerRef partner partners invoices,
       truthy (ODOO_CUSTOMER_REF env) = Some customerRef /\
       odooSearchRead env remote (PartnerByRef customerRef)
       = Ok (partner :: partners) /\
       odooSearchRead env remote (PostedMoves (partner_id partner))
       = Ok invoices /\
       Forall (fun inv => is_inherited (addressName inv) = false) invoices) /\
    (forall customerRef partner partners invoices,
       truthy (ODOO_CUSTOMER_REF env) = Some customerRef ->
       odooSearchRead env remote (PartnerByRef customerRef)
       = Ok (partner :: partners) ->
       odooSearchRead env remote (PostedMoves (partner_id partner))
       = Ok invoices ->
       Forall (fun inv => is_inherited (addressName inv) = false) invoices ->
       exists s,
         stats env remote = json (Stats s) /\
         Route.customer s = partner_name partner /\
         map Inv.id (recentInvoices s) = map Inv.id invoices).
Proof.
  intros env remote.
  assert (Hok : forall customerRef partner partners invoices,
       truthy (ODOO_CUSTOMER_REF env) = Some customerRef ->
       odooSearchRead env remote (PartnerByRef customerRef)
       = Ok (partner :: partners) ->
       odooSearchRead env remote (PostedMoves (partner_id partner))
       = Ok invoices ->
       Forall (fun inv => is_inherited (addressName inv) = false) invoices ->
       exists s,
         stats env remote = json (Stats s) /\
         Route.customer s = partner_name partner /\
         map Inv.id (recentInvoices s) = map Inv.id invoices).
  { intros customerRef partner partners invoices Href Hl Hm Hnames.
    destruct (forEach_accumulate_defined invoices
                {| totalRevenue := 0; byAddress := [] |} Hnames)
      as [acc Hacc].
    unfold stats. rewrite Href, Hl. simpl. rewrite Hm. simpl.
    unfold process. rewrite Hacc. simpl.
    eexists. split; [reflexivity|]. simpl. split; [reflexivity|].
    rewrite map_map. reflexivity. }
  split; [|exact Hok]. split.
  - unfold stats.
    destruct (truthy (ODOO_CUSTOMER_REF env)) as [customerRef|];
      [|discriminate].
    destruct (odooSearchRead env remote (PartnerByRef customerRef))
      as [[|p ps]|e] eqn:L; simpl; try discriminate.
    destruct (odooSearchRead env remote (PostedMoves (partner_id p)))
      as [invoices|e] eqn:M; simpl; try discriminate.
    destruct (process p invoices) as [s|e] eqn:P; simpl; try discriminate.
    intros _. exists customerRef, p, ps, invoices.
    repeat split; auto.
    apply process_inversion in P. destruct P as (acc & Hacc & _).
    eapply forEach_accumulate_Ok_names; eauto.
  - intros (customerRef & p & ps & invoices & Href & Hl & Hm & Hnames).
    destruct (Hok _ _ _ _ Href Hl Hm Hnames) as (s & -> & _). reflexivity.
Qed.

Lemma stats_is_200_iff_witness :
  exists s,
    stats Sample.env Sample.remote = json (Stats s) /\
    Route.customer s = "ACME" /\
    map Inv.id (recentInvoices s) = [1%Z; 2%Z; 3%Z].
Proof.
  apply (proj2 (stats_is_200_iff Sample.env Sample.remote) "ACME-01"
           Sample.acme [] [Sample.invoice100; Sample.invoice50;
                          Sample.creditNote30]);
    try reflexivity.
  repeat constructor.
Defined.

(** X3: when the lookup of the customer or the fetch of its documents
    is rejected (the remote call fails, the authentication fails or
    returns no uid, a connection setting is missing), the stats
    operation answers 500 and its message is "Failed to fetch Odoo
    data: " followed by the message of the rejection. *)
Theorem stats_rejection_is_500_with_message :
  forall env remote customerRef e,
    truthy (ODOO_CUSTOMER_REF env) = Some customerRef ->
    odooSearchRead env remote (PartnerByRef customerRef) = Throw e \/
    (exists partner partners,
       odooSearchRead env remote (PartnerByRef customerRef)
       = Ok (partner :: partners) /\
       odooSearchRead env remote (PostedMoves (partner_id partner))
       = Throw e) ->
    stats env remote
    = json_status (Failure ("Failed to fetch Odoo data: " ++ message e)) 500.
Proof.
  intros env remote customerRef e Href H. unfold stats. rewrite Href.
  destruct H as [-> | (p & ps & -> & Hm)]; simpl; [reflexivity|].
  rewrite Hm. reflexivity.
Qed.

Lemma stats_rejection_is_500_with_message_witness :
  stats Sample.envWithoutUrl Sample.remote
  = json_status
      (Failure "Failed to fetch Odoo data: Missing Odoo environment variables")
      500.
Proof.
  apply (stats_rejection_is_500_with_message Sample.envWithoutUrl
           Sample.remote "ACME-01"
           (error "Missing Odoo environment variables") eq_refl
           (or_introl eq_refl)).
Defined.

End StatsOutcome.

(** X4: the handler answers 200 exactly with statistics or a list of
    items, and an error body always carries status 400, 404 or 500; it
    answers 400 exactly when the type parameter is neither "stats" nor
    "invoice", or is "invoice" without a non-empty id. *)
Theorem GET_status_codes :
  forall env remote searchParams,
    let response := GET env remote searchParams in
    match body response with
    | Stats _ | Items _ => status response = 200%Z
    | Failure _ =>
        status response = 400%Z \/ status response = 404%Z \/
        status response = 500%Z
    | Empty => False
    end /\
    (status response = 400%Z <->
     searchParams "type" <> Some "stats" /\
     (searchParams "type" <> Some "invoice" \/
      truthy (searchParams "id") = None)).
Proof.
  intros env remote searchParams. unfold GET.
  destruct (searchParams "type") as [type|].
  2:{ simpl. split; [auto|]. split; [intros _|reflexivity].
      split; [discriminate | left; discriminate]. }
  destruct (String.eqb type "stats") eqn:Es.
  - apply String.eqb_eq in Es. subst type. unfold stats.
    assert (Hno : ~ (Some "stats" <> Some "stats" /\
                     (Some "stats" <> Some "invoice" \/
                      truthy (searchParams "id") = None)))
      by (intros [H _]; now apply H).
    destruct (truthy (ODOO_CUSTOMER_REF env)) as [customerRef|]; simpl.
    2:{ split; [auto|]. split; [discriminate | intros H; now apply Hno in H]. }
    destruct (odooSearchRead env remote (PartnerByRef customerRef))
      as [[|p ps]|e]; simpl;
      try (split; [auto|];
           split; [discriminate | intros H; now apply Hno in H]).
    destruct (odooSearchRead env remote (PostedMoves (partner_id p)))
      as [invoices|e]; simpl;
      try (split; [auto|];
           split; [discriminate | intros H; now apply Hno in H]).
    destruct (process p invoices); simpl;
      (split; [auto|];
       split; [discriminate | intros H; now apply Hno in H]).
  - apply String.eqb_neq in Es.
    assert (Hs : Some type <> Some "stats") by congruence.
    destruct (String.eqb type "invoice") eqn:Ei.
    + apply String.eqb_eq in Ei. subst type.
      destruct (truthy (searchParams "id")) as [invoiceId|]; simpl.
      * unfold invoice. destruct (fetch_lines env remote invoiceId); simpl;
          (split; [reflexivity|]; split; [discriminate|];
           intros [_ [H|H]]; [now contradiction H | discriminate]).
      * split; [auto|]. split; [intros _|reflexivity]. auto.
    + apply String.eqb_neq in Ei. simpl. split; [auto|].
      split; [intros _|reflexivity]. split; [exact Hs|].
      left. congruence.
Qed.

(** X5: in a response that carries statistics, the orders of all
    buckets together are exactly the entries of the invoice list, each
    once, and an order is filed under the shipping address name of its
    invoice ("Unknown" without one). *)
Theorem stats_orders_are_the_invoices :
  forall env remote searchParams s,
    body (GET env remote searchParams) = Stats s ->
    Permutation
      (flat_map Bucket.orders (values (Route.salesByAddress s)))
      (map listedOrder (recentInvoices s)) /\
    (forall name b o,
       In (name, b) (Route.salesByAddress s) -> In o (Bucket.orders b) ->
       exists inv,
         In inv (recentInvoices s) /\ addressName inv = name /\
         o = listedOrder inv).
Proof.
  intros env remote searchParams s H.
  apply RouteFacts.GET_stats_inversion in H.
  destruct H as (mainPartner & invoices & H).
  apply RouteFacts.process_inversion in H. destruct H as (acc & Hacc & ->).
  apply RouteMore.forEach_accumulate_orders in Hacc.
  destruct Hacc as (Hperm & _ & Hown). simpl in *.
  split.
  - rewrite map_map. exact Hperm.
  - intros name b o Hb Ho.
    destruct (Hown name b o Hb Ho) as [(inv & Hin & Ha & ->)|(b0 & [] & _)].
    exists (with_amount_total inv (amountTotal inv)).
    split; [|split; [exact Ha | reflexivity]].
    apply in_map_iff. eauto.
Qed.

Lemma stats_orders_are_the_invoices_witness :
  exists s,
    body (GET Sample.env Sample.remote Sample.statsParams) = Stats s /\
    Permutation
      (flat_map Bucket.orders (values (Route.salesByAddress s)))
      (map listedOrder (recentInvoices s)).
Proof.
  eexists. split; [reflexivity|].
  apply (stats_orders_are_the_invoices Sample.env Sample.remote
           Sample.statsParams _ eq_refl).
Defined.

(** X6: in a response that carries statistics, no address name has two
    buckets, and the bucket names are exactly the names of the shipping
    addresses of the listed invoices, with the name "Unknown" for an
    invoice that has no shipping address. *)
Theorem stats_buckets_are_the_addresses :
  forall env remote searchParams s,
    body (GET env remote searchParams) = Stats s ->
    NoDup (keys (Route.salesByAddress s)) /\
    (forall name,
       In name (keys (Route.salesByAddress s)) <->
       exists inv,
         In inv (recentInvoices s) /\
         ((exists id, Inv.partner_shipping_id inv = Some (id, name)) \/
          (Inv.partner_shipping_id inv = None /\ name = "Unknown"))).
Proof.
  intros env remote searchParams s H.
  split; [exact (RouteFacts.stats_address_names_distinct _ _ _ _ H)|].
  apply RouteFacts.GET_stats_inversion in H.
  destruct H as (mainPartner & invoices & H).
  apply RouteFacts.process_inversion in H. destruct H as (acc & Hacc & ->).
  apply RouteMore.forEach_accumulate_orders in Hacc.
  destruct Hacc as (_ & Hkeys & _). simpl in *.
  intros name. rewrite Hkeys. split.
  - intros [[]|(inv & Hin & Ha)].
    exists (with_amount_total inv (amountTotal inv)).
    split; [apply in_map_iff; eauto|].
    apply RouteMore.addressName_cases in Ha. exact Ha.
  - intros (inv' & Hin & Ha). right.
    apply in_map_iff in Hin. destruct Hin as (inv & <- & Hin).
    exists inv. split; [exact Hin|].
    apply RouteMore.addressName_cases. exact Ha.
Qed.

(** The sample with a fourth document that has no shipping address: it
    is filed under "Unknown". *)
Lemma stats_buckets_are_the_addresses_witness :
  exists s,
    body (GET Sample.env Sample.remoteUnaddressed Sample.statsParams)
    = Stats s /\
    In "Unknown" (keys (Route.salesByAddress s)).
Proof.
  eexists. split; [reflexivity|].
  apply (proj2 (stats_buckets_are_the_addresses Sample.env
                  Sample.remoteUnaddressed Sample.statsParams _ eq_refl)
           "Unknown").
  eexists. split; [right; right; right; left; reflexivity|].
  right. split; reflexivity.
Defined.

(** X7: in a response that carries statistics, the KPI revenue is the
    sum of the amounts of the invoice list and the KPI invoice count is
    the length of that list. *)
Theorem stats_kpi_matches_invoice_list :
  forall env remote searchParams s,
    body (GET env remote searchParams) = Stats s ->
    (Kpi.revenue (kpi s)
     == sumQ (map (fun inv => or0 (Inv.amount_total inv))
                (recentInvoices s)))%Q /\
    Kpi.orders (kpi s) = List.length (recentInvoices s).
Proof.
  intros env remote searchParams s H.
  apply RouteFacts.GET_stats_inversion in H.
  destruct H as (mainPartner & invoices & H).
  apply RouteFacts.process_inversion in H. destruct H as (acc & Hacc & ->).
  apply RouteFacts.forEach_accumulate_effect in Hacc.
  destruct Hacc as (Hrev & _). simpl in *.
  rewrite map_map, length_map. simpl. split; [|reflexivity].
  rewrite Hrev.
  change (fun x : Inv.t => amountTotal x) with amountTotal. lra.
Qed.

Lemma stats_kpi_matches_invoice_list_witness :
  exists s,
    body (GET Sample.env Sample.remote Sample.statsParams) = Stats s /\
    Kpi.orders (kpi s) = List.length (recentInvoices s).
Proof.
  eexists. split; [reflexivity|].
  apply (stats_kpi_matches_invoice_list Sample.env Sample.remote
           Sample.statsParams _ eq_refl).
Defined.

(** X8: the amounts of the invoice list of a response are in normal
    form: applying the sign rule of the handler to a listed invoice
    again leaves its amount unchanged, the amount of a credit note is
    not positive and the amount of any other document is not negative. *)
Theorem stats_invoice_list_is_normalised :
  forall env remote searchParams s inv,
    body (GET env remote searchParams) = Stats s ->
    In inv (recentInvoices s) ->
    (amountTotal inv == or0 (Inv.amount_total inv))%Q /\
    (Inv.move_type inv = "out_refund" -> (or0 (Inv.amount_total inv) <= 0)%Q) /\
    (Inv.move_type inv <> "out_refund" ->
     (0 <= or0 (Inv.amount_total inv))%Q).
Proof.
  intros env remote searchParams s inv' H Hin.
  apply RouteFacts.GET_stats_inversion in H.
  destruct H as (mainPartner & invoices & H).
  apply RouteFacts.process_inversion in H. destruct H as (acc & _ & ->).
  simpl in Hin. apply in_map_iff in Hin. destruct Hin as (inv & <- & _).
  simpl. pose proof (Qabs_nonneg (or0 (Inv.amount_total inv))) as Hpos.
  unfold amountTotal at 1. simpl.
  pose proof (RouteMore.amountTotal_abs inv) as Habs.
  unfold amountTotal in *.
  destruct (String.eqb (Inv.move_type inv) "out_refund") eqn:E.
  - split; [rewrite Habs; reflexivity|]. split; [intros _; lra|].
    intros Hne. apply String.eqb_eq in E. contradiction.
  - split; [rewrite Habs; reflexivity|]. split; [|intros _; lra].
    intros He. rewrite He in E. discriminate.
Qed.

Lemma stats_invoice_list_is_normalised_witness :
  exists s inv,
    body (GET Sample.env Sample.remote Sample.statsParams) = Stats s /\
    In inv (recentInvoices s) /\
    Inv.move_type inv = "out_refund" /\
    (or0 (Inv.amount_total inv) <= 0)%Q.
Proof.
  eexists. exists (with_amount_total Sample.creditNote30 (-30)).
  split; [reflexivity|].
  assert (Hin : In (with_amount_total Sample.creditNote30 (-30))
                  (map (fun inv => with_amount_total inv (amountTotal inv))
                     [Sample.invoice100; Sample.invoice50;
                      Sample.creditNote30]))
    by (simpl; auto).
  split; [exact Hin|]. split; [reflexivity|].
  apply (stats_invoice_list_is_normalised Sample.env Sample.remote
           Sample.statsParams _ _ eq_refl Hin).
  reflexivity.
Defined.

(* ================================================================== *)
(** * Further properties of the invoice operation and of the client *)
(* ================================================================== *)

(** X9: every item of an invoice response stands for a line of the
    answer to one of the line queries, whose id it carries, and is
    named after it: by the name of the product of the line when the
    line has a product with a non-empty name, else by the description
    of the line when that is not empty, else "Item". *)
Theorem invoice_items_have_names :
  forall env remote searchParams items item,
    body (GET env remote searchParams) = Items items ->
    In item items ->
    exists invoiceId line,
      truthy (searchParams "id") = Some invoiceId /\
      fetchedLine env remote invoiceId line /\
      Item.id item = Line.id line /\
      displayName line (Item.name item).
Proof.
  intros env remote searchParams items item H Hin.
  apply RouteMore.GET_items_inversion in H.
  destruct H as (invoiceId & Hid & H).
  destruct (fetch_lines env remote invoiceId) as [lines|] eqn:F;
    subst items; [|contradiction].
  apply in_map_iff in Hin. destruct Hin as (line & <- & Hin).
  exists invoiceId, line. split; [exact Hid|]. split; [|split].
  - exact (RouteMore.fetch_lines_fetched _ _ _ _ _ F Hin).
  - reflexivity.
  - apply RouteMore.normalize_displayName.
Qed.

Lemma invoice_items_have_names_witness :
  exists item,
    body (GET Sample.env Sample.remote Sample.invoiceParams) = Items [item] /\
    Item.name item = "Widget" /\
    exists invoiceId line,
      truthy (Sample.invoiceParams "id") = Some invoiceId /\
      fetchedLine Sample.env Sample.remote invoiceId line /\
      Item.id item = Line.id line /\
      displayName line (Item.name item).
Proof.
  exists (normalize Sample.productLine).
  split; [reflexivity|]. split; [reflexivity|].
  apply (invoice_items_have_names Sample.env Sample.remote
           Sample.invoiceParams [normalize Sample.productLine]);
    [reflexivity | now left].
Defined.

(** X10: when the move lists no line ids and the filtered query is
    rejected, every item of the response stems from a line of the
    unfiltered read that has a product, whose display type is neither
    "line_section" nor "line_note", and that has a positive subtotal,
    which the item shows. *)
Theorem third_tier_keeps_positive_product_lines :
  forall env remote searchParams invoiceId moveRows e rawLines,
    searchParams "type" = Some "invoice" ->
    truthy (searchParams "id") = Some invoiceId ->
    odooSearchRead env remote (MoveById invoiceId) = Ok moveRows ->
    listedLineIds moveRows = None ->
    odooSearchRead env remote (LinesFiltered invoiceId) = Throw e ->
    odooSearchRead env remote (LinesRaw invoiceId) = Ok rawLines ->
    exists items,
      GET env remote searchParams = json (Items items) /\
      forall item, In item items ->
        exists line s,
          In line rawLines /\ item = normalize line /\
          Item.id item = Line.id line /\
          Line.product_id line <> None /\
          Line.display_type line <> Some "line_section" /\
          Line.display_type line <> Some "line_note" /\
          Line.price_subtotal line = Some s /\ (0 < s)%Q /\
          Item.raw_subtotal item = s.
Proof.
  intros env remote searchParams invoiceId moveRows e rawLines
    Htype Hid Hmove Hids Hsrv Hraw.
  exists (map normalize (filter keep_line rawLines)). split.
  - unfold GET. rewrite Htype. simpl. rewrite Hid.
    unfold invoice, fetch_lines. rewrite Hmove. simpl.
    destruct moveRows as [|[[[|i ids]|]] rows]; try discriminate Hids;
      rewrite Hsrv, Hraw; reflexivity.
  - intros item Hin. apply in_map_iff in Hin.
    destruct Hin as (line & <- & Hin). apply filter_In in Hin.
    destruct Hin as [Hin Hkeep]. unfold keep_line in Hkeep.
    destruct (Line.product_id line) as [product|] eqn:P; [|discriminate].
    destruct (section_or_note (Line.display_type line)) eqn:S;
      [discriminate|].
    apply RouteMore.section_or_note_false in S. destruct S as [S1 S2].
    apply PageFacts.gtb_lt in Hkeep.
    destruct (Line.price_subtotal line) as [s|] eqn:Sub; simpl in Hkeep.
    + exists line, s. repeat split; auto.
      * rewrite P. discriminate.
      * unfold normalize. simpl. rewrite Sub. reflexivity.
    + exfalso. revert Hkeep. apply Qlt_irrefl.
Qed.

(** Of the three lines of the unfiltered read of the sample, a product
    line, a section and a note, only the product line is returned. *)
Lemma third_tier_keeps_positive_product_lines_witness :
  exists items,
    GET Sample.env Sample.remoteWithNotes Sample.invoiceParams
    = json (Items items) /\
    items = [normalize Sample.productLine] /\
    forall item, In item items ->
      exists line s,
        In line [Sample.productLine; Sample.sectionLine; Sample.noteLine] /\
        item = normalize line /\
        Item.id item = Line.id line /\
        Line.product_id line <> None /\
        Line.display_type line <> Some "line_section" /\
        Line.display_type line <> Some "line_note" /\
        Line.price_subtotal line = Some s /\ (0 < s)%Q /\
        Item.raw_subtotal item = s.
Proof.
  destruct (third_tier_keeps_positive_product_lines Sample.env
              Sample.remoteWithNotes Sample.invoiceParams "1"
              [ {| invoice_line_ids := Some [] |} ]
              (error "Invalid field display_type")
              [Sample.productLine; Sample.sectionLine; Sample.noteLine]
              eq_refl eq_refl eq_refl eq_refl eq_refl eq_refl)
    as (items & Hget & Hall).
  exists items. split; [exact Hget|]. split; [|exact Hall].
  vm_compute in Hget. now injection Hget as <-.
Defined.

(** X11: a [search_read] succeeds exactly when the four connection
    settings are set and non-empty, the authentication returns a uid
    other than 0 and the remote call succeeds; its result is then the
    result of the remote call. *)
Theorem odooSearchRead_succeeds_iff :
  forall A env remote (q : Query A) r,
    odooSearchRead env remote q = Ok r <->
    exists cfg uid,
      ODOO_URL env = Some (url cfg) /\ url cfg <> "" /\
      ODOO_DB env = Some (db cfg) /\ db cfg <> "" /\
      ODOO_USERNAME env = Some (username cfg) /\ username cfg <> "" /\
      ODOO_PASSWORD env = Some (password cfg) /\ password cfg <> "" /\
      authenticate remote A cfg q = Ok (Some uid) /\ uid <> 0%Z /\
      execute_kw remote A cfg uid q = Ok r.
Proof.
  intros A env remote q r. unfold odooSearchRead, odooLogin, getOdooConfig.
  destruct env as [[[|c1 u]|] [[|c2 d]|] [[|c3 n]|] [[|c4 p]|] ref]; simpl;
    try (split; [discriminate|];
         intros (cfg & uid & H1 & N1 & H2 & N2 & H3 & N3 & H4 & N4 & _);
         congruence).
  set (cfg0 := {| url := String c1 u; db := String c2 d;
                 username := String c3 n; password := String c4 p |}).
  split.
  - destruct (authenticate remote A cfg0 q) as [[uid|]|] eqn:Au; simpl;
      try discriminate.
    destruct (uid =? 0)%Z eqn:U; simpl; [discriminate|].
    intros H. exists cfg0, uid. apply Z.eqb_neq in U.
    repeat split; auto; discriminate.
  - intros (cfg & uid & H1 & _ & H2 & _ & H3 & _ & H4 & _ & Au & U & Ex).
    assert (cfg = cfg0) as ->.
    { destruct cfg; simpl in *. unfold cfg0. congruence. }
    rewrite Au. simpl. apply Z.eqb_neq in U. rewrite U. simpl. exact Ex.
Qed.

Module PageMore.
Import Js Page Spec ObjFacts.

(** ** Sorting *)

Section SortFacts.
Context {A : Type} (compare : A -> A -> Q) (R : A -> A -> Prop).
Hypothesis after : forall a b, gtb (compare a b) 0 = true -> R b a.
Hypothesis before : forall a b, gtb (compare a b) 0 = false -> R a b.

Lemma Permutation_insertSorted a l :
  Permutation (insertSorted compare a l) (a :: l).
Proof.
  induction l as [|b l IH]; simpl; [reflexivity|].
  destruct (gtb (compare a b) 0); [|reflexivity].
  rewrite IH. apply perm_swap.
Qed.

Lemma Permutation_sort l : Permutation (sort compare l) l.
Proof.
  unfold sort. induction l as [|a l IH]; simpl; [reflexivity|].
  rewrite Permutation_insertSorted. now constructor.
Qed.

Lemma Sorted_insertSorted a l :
  Sorted R l -> Sorted R (insertSorted compare a l).
Proof.
  induction l as [|b l IH]; simpl; intros Hs.
  - repeat constructor.
  - destruct (gtb (compare a b) 0) eqn:E.
    + inversion Hs as [|? ? Hs' Hhd]; subst. constructor; [auto|].
      destruct l as [|c l]; simpl.
      * constructor. now apply after.
      * destruct (gtb (compare a c) 0); constructor.
        -- now inversion Hhd.
        -- now apply after.
    + constructor; [exact Hs|]. constructor. now apply before.
Qed.

Lemma Sorted_sort l : Sorted R (sort compare l).
Proof.
  unfold sort. induction l as [|a l IH]; simpl.
  - constructor.
  - now apply Sorted_insertSorted.
Qed.

End SortFacts.

(** ** Sets of years *)

Lemma In_setAdd y years x : In x (setAdd y years) <-> x = y \/ In x years.
Proof.
  unfold setAdd. destruct (existsb (Z.eqb y) years) eqn:E.
  - split; [auto|]. intros [->|H]; auto.
    apply existsb_exists in E. destruct E as (z & Hz & Hy).
    apply Z.eqb_eq in Hy. now subst.
  - rewrite in_app_iff. simpl. intuition.
Qed.

Lemma NoDup_setAdd y years : NoDup years -> NoDup (setAdd y years).
Proof.
  intros Hnd. unfold setAdd. destruct (existsb (Z.eqb y) years) eqn:E; auto.
  apply NoDup_rev in Hnd. rewrite <- (rev_involutive (years ++ [y])%list).
  apply NoDup_rev. rewrite rev_app_distr. simpl. constructor; auto.
  rewrite <- in_rev. intros Hin.
  assert (existsb (Z.eqb y) years = true); [|congruence].
  apply existsb_exists. exists y. split; [auto | apply Z.eqb_refl].
Qed.

Lemma fold_setAdd ys : forall years,
  NoDup years ->
  NoDup (fold_left (fun years y => setAdd y years) ys years) /\
  forall x, In x (fold_left (fun years y => setAdd y years) ys years)
            <-> In x years \/ In x ys.
Proof.
  induction ys as [|y ys IH]; intros years Hnd; simpl.
  - split; [auto | intuition].
  - destruct (IH (setAdd y years) (NoDup_setAdd y years Hnd)) as [H1 H2].
    split; [exact H1|]. intros x. rewrite H2, In_setAdd. intuition.
Qed.

Lemma orderYears_spec yearOf orders ys :
  orderYears yearOf orders = Some ys ->
  forall y, In y ys <->
            exists o d, In o orders /\ Order.date o = Some d /\ yearOf d = y.
Proof.
  revert ys. induction orders as [|o orders IH]; simpl; intros ys.
  - intros [= <-] y. split; [intros [] | intros (o & d & [] & _)].
  - destruct (Order.date o) as [d|] eqn:D; [|discriminate].
    destruct (orderYears yearOf orders) as [ys'|]; [|discriminate].
    intros [= <-] y. simpl. rewrite (IH ys' eq_refl). split.
    + intros [<-|(o' & d' & Hin & Hd & Hy)]; eauto 6.
    + intros (o' & d' & [<-|Hin] & Hd & Hy).
      * left. congruence.
      * right. eauto.
Qed.

Lemma Sorted_strict (l : list Z) :
  Sorted (fun a b => b <= a)%Z l -> NoDup l -> Sorted (fun a b => b < a)%Z l.
Proof.
  induction 1 as [|a l Hs IH Hhd]; intros Hnd; constructor.
  - apply IH. now inversion Hnd.
  - inversion Hnd; subst. destruct Hhd as [|b l Hba]; constructor.
    assert (a <> b) by (intros ->; apply H1; now left). lia.
Qed.

(** The years offered with the data loaded. *)
Lemma availableYearsBy_spec yearOf always data ys :
  availableYearsBy yearOf always (Some data) = Some ys ->
  Sorted (fun a b => b < a)%Z ys /\
  forall y, In y ys <->
            In y always \/
            exists o d, In o (allOrders data) /\ Order.date o = Some d /\
                        yearOf d = y.
Proof.
  unfold availableYearsBy.
  destruct (orderYears yearOf (allOrders data)) as [years|] eqn:E;
    [|discriminate].
  intros [= <-].
  destruct (fold_setAdd years [] (NoDup_nil Z)) as [Hnd1 Hin1].
  fold (newSet years) in Hnd1, Hin1.
  destruct (fold_setAdd always (newSet years) Hnd1) as [Hnd2 Hin2].
  set (all := fold_left (fun years y => setAdd y years) always
                (newSet years)) in *.
  pose proof (Permutation_sort (fun a b => inject_Z (b - a)) all) as Hperm.
  split.
  - apply Sorted_strict.
    + apply Sorted_sort.
      * intros a b H. apply PageFacts.gtb_lt in H.
        change 0%Q with (inject_Z 0) in H. rewrite <- Zlt_Qlt in H. lia.
      * intros a b H. unfold gtb in H. apply negb_false_iff in H.
        apply Qle_bool_iff in H.
        change 0%Q with (inject_Z 0) in H. rewrite <- Zle_Qle in H. lia.
    + apply (Permutation_NoDup (l := all)); [now symmetry | exact Hnd2].
  - intros y. rewrite (PageFacts.In_sort _ all y), Hin2, Hin1.
    rewrite (orderYears_spec _ _ _ E). simpl. tauto.
Qed.

End PageMore.

(** X12: with the data loaded and every order dated, the years offered
    by the calendar page are listed from the latest to the earliest
    without repetition, and they are 2026 and the calendar years of the
    orders; on the financial-year page they are 2025, 2026 and the
    financial years of the orders. *)
Theorem available_years_are_descending_and_complete :
  forall data,
    (forall ys,
       PageCalendar.availableYears (Some data) = Some ys ->
       Sorted (fun a b => b < a)%Z ys /\
       forall y, In y ys <->
         y = 2026%Z \/
         exists o d, In o (allOrders data) /\ Order.date o = Some d /\
                     getFullYear d = y) /\
    (forall ys,
       PageFinancial.availableYears (Some data) = Some ys ->
       Sorted (fun a b => b < a)%Z ys /\
       forall y, In y ys <->
         y = 2025%Z \/ y = 2026%Z \/
         exists o d, In o (allOrders data) /\ Order.date o = Some d /\
                     PageFinancial.financialYear d = y).
Proof.
  intros data. split; intros ys H;
    apply PageMore.availableYearsBy_spec in H; destruct H as [Hs Hin];
    (split; [exact Hs|]); intros y; rewrite Hin; simpl; intuition.
Qed.

Lemma available_years_are_descending_and_complete_witness :
  PageFinancial.availableYears (Some Sample.pageData)
  = Some [2026%Z; 2025%Z] /\
  Sorted (fun a b => b < a)%Z [2026%Z; 2025%Z].
Proof.
  split; [reflexivity|].
  apply (proj2 (available_years_are_descending_and_complete Sample.pageData)
           [2026%Z; 2025%Z] eq_refl).
Defined.


Module TotalsFacts.
Import Js Page Spec ObjFacts.

(** ** Splitting a period into parts *)

Section Split.
Context {I : Type} (parts : list I) (q : I -> Order.t -> bool)
        (p : Order.t -> bool).

Lemma count_if_add (cond : I -> bool) (g : I -> nat) :
  sumNat (map (fun i => if cond i then S (g i) else g i) parts)
  = (sumNat (map (fun i => if cond i then 1 else 0) parts)
     + sumNat (map g parts))%nat.
Proof.
  induction parts as [|i l IH]; simpl; [lia|].
  rewrite IH. destruct (cond i); lia.
Qed.

(** When every order of the period lies in exactly one part, and no
    other order lies in any, the orders of the period are as many as
    the orders of the parts together. *)
Lemma split_period orders :
  (forall o, In o orders ->
     sumNat (map (fun i => if q i o then 1 else 0) parts)
     = if p o then 1 else 0)%nat ->
  List.length (filter p orders)
  = sumNat (map (fun i => List.length (filter (q i) orders)) parts).
Proof.
  induction orders as [|o orders IH]; intros H.
  - simpl. clear. induction parts; simpl; lia.
  - pose proof (H o (or_introl eq_refl)) as Ho.
    transitivity
      (sumNat (map (fun i => if q i o
                             then S (List.length (filter (q i) orders))
                             else List.length (filter (q i) orders))
                 parts)).
    + rewrite count_if_add, Ho, <- IH by (intros o' Ho'; apply H; now right).
      simpl. destruct (p o); simpl; lia.
    + clear. induction parts as [|i ps IHp]; simpl; [lia|].
      rewrite IHp. destruct (q i o); simpl; lia.
Qed.

End Split.

End TotalsFacts.

Module LabelFacts.
Import Js Page Spec.

Lemma spaceFree_app s1 s2 :
  spaceFree s1 -> spaceFree s2 -> spaceFree (s1 ++ s2).
Proof. induction s1; simpl; intuition. Qed.

Lemma replaceSpaces_cons c s :
  replaceSpaces (String c s)
  = String (if Ascii.eqb c " " then "_"%char else c) (replaceSpaces s).
Proof.
  destruct c as [[] [] [] [] [] [] [] []]; reflexivity.
Qed.

Lemma spaceFree_replaceSpaces s : spaceFree (replaceSpaces s).
Proof.
  induction s as [|c s IH]; [exact I|].
  rewrite replaceSpaces_cons. simpl. split; [|exact IH].
  destruct (Ascii.eqb c " ") eqn:E; [discriminate|].
  now apply Ascii.eqb_neq in E.
Qed.

End LabelFacts.

Module SelectionFacts.
Import Spec.

Section Selection.
Context {A : Type} (P : A -> Prop) (keep : A -> bool).

Lemma selects_filter l :
  (forall a, In a l -> (keep a = true <-> P a)) ->
  selects P l (filter keep l).
Proof.
  induction l as [|a l IH]; intros H; simpl; [constructor|].
  assert (IH' : selects P l (filter keep l))
    by (apply IH; intros; apply H; now right).
  pose proof (H a (or_introl eq_refl)) as Ha.
  destruct (keep a).
  - constructor; [now apply Ha | exact IH'].
  - constructor; [|exact IH']. intros HP. apply Ha in HP. discriminate.
Qed.

Lemma selects_unique l s1 :
  selects P l s1 -> forall s2, selects P l s2 -> s1 = s2.
Proof.
  induction 1 as [|a l s1 Ha _ IH|a l s1 Ha _ IH]; intros s2 H2;
    inversion H2; subst; try contradiction; auto.
  f_equal. auto.
Qed.

End Selection.

End SelectionFacts.

Module PeriodFacts.
Import Js Page Spec.

Lemma month_cases m :
  (0 <= m <= 11)%Z ->
  (m = 0 \/ m = 1 \/ m = 2 \/ m = 3 \/ m = 4 \/ m = 5 \/ m = 6 \/ m = 7 \/
   m = 8 \/ m = 9 \/ m = 10 \/ m = 11)%Z.
Proof. lia. Qed.

(** The twelve month views of the calendar page split the year view. *)
Lemma calendar_months_split y o :
  (forall d, Order.date o = Some d -> (0 <= getMonth d <= 11)%Z) ->
  sumNat (map (fun i => if on_date (PageCalendar.inPeriod y (month i)) o
                        then 1 else 0)%nat monthIndices)
  = (if on_date (PageCalendar.inPeriod y year) o then 1 else 0)%nat.
Proof.
  intros Hv. unfold on_date. destruct (Order.date o) as [d|] eqn:D.
  - pose proof (Hv d eq_refl) as Hm. destruct d as [Y M D0].
    unfold PageCalendar.inPeriod. simpl in *.
    destruct (Y =? y)%Z; [|reflexivity]. simpl.
    destruct (month_cases M Hm) as
      [H|[H|[H|[H|[H|[H|[H|[H|[H|[H|[H|H]]]]]]]]]]]; subst M; reflexivity.
  - reflexivity.
Qed.

(** The twelve month views of the financial-year page split the year
    view. *)
Lemma financial_months_split y o :
  (forall d, Order.date o = Some d -> (0 <= getMonth d <= 11)%Z) ->
  sumNat (map (fun i => if on_date (PageFinancial.inPeriod y (month i)) o
                        then 1 else 0)%nat monthIndices)
  = (if on_date (PageFinancial.inPeriod y year) o then 1 else 0)%nat.
Proof.
  intros Hv. unfold on_date. destruct (Order.date o) as [d|] eqn:D.
  - pose proof (Hv d eq_refl) as Hm. destruct d as [Y M D0].
    unfold PageFinancial.inPeriod, PageFinancial.financialYear. simpl in *.
    destruct (month_cases M Hm) as
      [H|[H|[H|[H|[H|[H|[H|[H|[H|[H|[H|H]]]]]]]]]]]; subst M; simpl;
      match goal with
      | |- context [(?a =? y)%Z] => destruct (a =? y)%Z; reflexivity
      end.
  - reflexivity.
Qed.

(** In a month view of the financial-year page the filter of the KPIs
    selects the dates of the month the chart shows. *)
Lemma financial_month_filter y index d :
  (0 <= index <= 11)%Z -> (0 <= getMonth d <= 11)%Z ->
  PageFinancial.inPeriod y (month index) d
  = ((getFullYear d =? (if 9 <=? index then y + 1 else y))
     && (getMonth d =? Z.rem (index + 3) 12))%Z.
Proof.
  intros Hi Hm. destruct d as [Y M D0].
  unfold PageFinancial.inPeriod, PageFinancial.financialYear. simpl in *.
  destruct (month_cases M Hm) as
    [H|[H|[H|[H|[H|[H|[H|[H|[H|[H|[H|H]]]]]]]]]]]; subst M;
    destruct (month_cases index Hi) as
      [H|[H|[H|[H|[H|[H|[H|[H|[H|[H|[H|H]]]]]]]]]]]; subst index;
    simpl; rewrite ?andb_false_r, ?andb_true_r;
    try reflexivity;
    try (destruct (Z.eqb_spec (Y - 1) y); destruct (Z.eqb_spec Y (y + 1));
         try reflexivity; lia);
    try (destruct (Z.eqb_spec (Y - 1) y); reflexivity);
    try (destruct (Z.eqb_spec Y y); reflexivity).
Qed.

Lemma financial_year_filter y d :
  PageFinancial.inPeriod y year d = (PageFinancial.financialYear d =? y)%Z.
Proof.
  unfold PageFinancial.inPeriod.
  destruct (PageFinancial.financialYear d =? y)%Z; reflexivity.
Qed.

(** ** The filters select the dates of the period *)

Lemma calendar_period_date y v d :
  PageCalendar.inPeriod y v d = true <-> inCalendarPeriod y v d.
Proof.
  unfold PageCalendar.inPeriod, inCalendarPeriod, inCalendarYear.
  destruct (Z.eqb_spec (getFullYear d) y) as [E|E]; simpl.
  - destruct v; [tauto|]. rewrite Z.eqb_eq. tauto.
  - split; [discriminate|]. destruct v; tauto.
Qed.

Lemma financial_year_period y d :
  PageFinancial.inPeriod y year d = true <-> inFinancialYear y d.
Proof.
  unfold PageFinancial.inPeriod, PageFinancial.financialYear,
    inFinancialYear.
  destruct (Z.leb_spec 3 (getMonth d));
    match goal with
    | |- context [(?a =? y)%Z] => destruct (Z.eqb_spec a y)
    end; simpl; split; try discriminate; try reflexivity; intros; lia.
Qed.

Lemma financial_month_period y index d :
  (0 <= index <= 11)%Z -> (0 <= getMonth d <= 11)%Z ->
  PageFinancial.inPeriod y (month index) d = true
  <-> (getFullYear d, getMonth d) = financialMonth y index.
Proof.
  intros Hi Hm. rewrite financial_month_filter by assumption.
  rewrite andb_true_iff, !Z.eqb_eq, Z.rem_mod_nonneg by lia.
  unfold financialMonth.
  destruct (Z.ltb_spec index 9), (Z.leb_spec 9 index); try lia.
  - rewrite Z.mod_small by lia. split.
    + intros [-> ->]. reflexivity.
    + intros [= -> ->]. auto.
  - replace ((index + 3) mod 12)%Z with (index - 9)%Z.
    + split.
      * intros [-> ->]. reflexivity.
      * intros [= -> ->]. auto.
    + replace (index + 3)%Z with (index - 9 + 1 * 12)%Z by lia.
      rewrite Z_mod_plus_full. symmetry. apply Z.mod_small. lia.
Qed.

Lemma financial_period_date y v d :
  match v with
  | year => True
  | month index => (0 <= index <= 11)%Z
  end ->
  (0 <= getMonth d <= 11)%Z ->
  PageFinancial.inPeriod y v d = true <-> inFinancialPeriod y v d.
Proof.
  intros Hv Hm. destruct v as [|index]; simpl.
  - apply financial_year_period.
  - now apply financial_month_period.
Qed.

Lemma on_date_dated (p : JsDate -> bool) (period : JsDate -> Prop) o :
  (forall d, Order.date o = Some d -> (p d = true <-> period d)) ->
  on_date p o = true <-> dated Order.date period o.
Proof.
  intros H. unfold on_date, dated. destruct (Order.date o) as [d|].
  - rewrite (H d eq_refl). split.
    + eauto.
    + now intros (d' & [= <-] & Hd).
  - split; [discriminate | intros (d & D & _); discriminate].
Qed.

End PeriodFacts.

(** X14: the number of invoices of a view is the number of the orders
    of the data that are dated in its period, and the number of
    invoices of a year view is the sum of the numbers of invoices of
    its twelve month views, on both pages.  The period of the calendar
    page is the selected year, or the selected month of it; the period
    of the financial-year page is April of the selected year to March
    of the next, or the month of it with the selected index (0 to 11,
    counted from April).  The months of the order dates are taken to
    be months of the calendar. *)
Theorem year_view_counts_the_invoices_of_its_months :
  forall data selectedYear,
    (forall o d, orderIn data o -> Order.date o = Some d ->
                 (0 <= getMonth d <= 11)%Z) ->
    let orders := flat_map Group.orders (map snd (salesByAddress data)) in
    let calendar v :=
      Filtered.orders (PageCalendar.filteredStats (Some data) v selectedYear) in
    let financial v :=
      Filtered.orders
        (PageFinancial.filteredStats (Some data) v selectedYear) in
    (forall v selected,
       selects (dated Order.date (inCalendarPeriod selectedYear v)) orders
         selected ->
       calendar v = List.length selected) /\
    (forall v selected,
       match v with
       | year => True
       | month index => (0 <= index <= 11)%Z
       end ->
       selects (dated Order.date (inFinancialPeriod selectedYear v)) orders
         selected ->
       financial v = List.length selected) /\
    calendar year
    = sumNat (map (fun i => calendar (month i))
                [0; 1; 2; 3; 4; 5; 6; 7; 8; 9; 10; 11]%Z) /\
    financial year
    = sumNat (map (fun i => financial (month i))
                [0; 1; 2; 3; 4; 5; 6; 7; 8; 9; 10; 11]%Z).
Proof.
  intros data selectedYear Hvalid orders calendar financial.
  assert (Hmonths : forall o d, In o (allOrders data) ->
                      Order.date o = Some d -> (0 <= getMonth d <= 11)%Z).
  { intros o d Ho. apply Hvalid. now apply ChartFacts.allOrders_orderIn. }
  split; [|split; [|split]].
  - intros v selected Hsel. unfold calendar. simpl. f_equal.
    eapply SelectionFacts.selects_unique; [|exact Hsel].
    apply SelectionFacts.selects_filter. intros o _.
    apply PeriodFacts.on_date_dated. intros d _.
    apply PeriodFacts.calendar_period_date.
  - intros v selected Hv Hsel. unfold financial. simpl. f_equal.
    eapply SelectionFacts.selects_unique; [|exact Hsel].
    apply SelectionFacts.selects_filter. intros o Ho.
    apply PeriodFacts.on_date_dated. intros d D.
    apply PeriodFacts.financial_period_date; eauto.
  - apply (TotalsFacts.split_period monthIndices
             (fun i => on_date (PageCalendar.inPeriod selectedYear (month i)))
             (on_date (PageCalendar.inPeriod selectedYear year))
             (allOrders data)).
    intros o Ho. apply PeriodFacts.calendar_months_split. eauto.
  - apply (TotalsFacts.split_period monthIndices
             (fun i => on_date (PageFinancial.inPeriod selectedYear (month i)))
             (on_date (PageFinancial.inPeriod selectedYear year))
             (allOrders data)).
    intros o Ho. apply PeriodFacts.financial_months_split. eauto.
Qed.

(** The six documents of 2026 of the sample: one in April, four in May
    and one in June. *)
Lemma year_view_counts_the_invoices_of_its_months_witness :
  Filtered.orders (PageCalendar.filteredStats (Some Sample.pageData) year 2026)
  = sumNat [0; 0; 0; 1; 4; 1; 0; 0; 0; 0; 0; 0]%nat.
Proof.
  assert (Hvalid : forall o d, orderIn Sample.pageData o ->
                      Order.date o = Some d -> (0 <= getMonth d <= 11)%Z).
  { intros o d (name & group & Hin & Ho) D. simpl in Hin.
    repeat (destruct Hin as [[= <- <-]|Hin];
            [simpl in Ho;
             repeat (destruct Ho as [<-|Ho];
                     [injection D as <-; simpl; lia|]);
             contradiction|]).
    contradiction. }
  exact (proj1 (proj2 (proj2 (year_view_counts_the_invoices_of_its_months
                                Sample.pageData 2026 Hvalid)))).
Defined.

(** X17: in a month view of the financial-year page (month index 0 to
    11), the filter of the KPI tiles and of the location-spend view
    accepts a date exactly when it lies in the calendar month and year
    the chart shows for this index. *)
Theorem financial_month_filter_matches_chart :
  forall selectedYear index d,
    (0 <= index <= 11)%Z -> (0 <= getMonth d <= 11)%Z ->
    let actualMonth := Z.rem (index + 3) 12 in
    let actualYear :=
      (if 9 <=? index then selectedYear + 1 else selectedYear)%Z in
    PageFinancial.inPeriod selectedYear (month index) d = true <->
    getFullYear d = actualYear /\ getMonth d = actualMonth.
Proof.
  intros selectedYear index d Hi Hm actualMonth actualYear.
  rewrite PeriodFacts.financial_month_filter by assumption.
  rewrite andb_true_iff, !Z.eqb_eq. reflexivity.
Qed.

Lemma financial_month_filter_matches_chart_witness :
  PageFinancial.inPeriod 2026 (month 10)
    {| getFullYear := 2027; getMonth := 1; getDate := 14 |} = true <->
  2027%Z = 2027%Z /\ 1%Z = 1%Z.
Proof.
  apply (financial_month_filter_matches_chart 2026 10
           {| getFullYear := 2027; getMonth := 1; getDate := 14 |});
    simpl; lia.
Defined.

(** X18: on both pages the list "Invoices for Period" keeps an invoice
    by the same condition on its date as the KPI tiles and the
    location-spend view keep an order. *)
Theorem invoice_list_uses_the_period_filter :
  forall selectedYear viewBy d,
    PageCalendar.listed selectedYear viewBy d
    = PageCalendar.inPeriod selectedYear viewBy d /\
    PageFinancial.listed selectedYear viewBy d
    = PageFinancial.inPeriod selectedYear viewBy d.
Proof.
  intros selectedYear viewBy d. split.
  - unfold PageCalendar.listed, PageCalendar.inPeriod.
    destruct (getFullYear d =? selectedYear)%Z; simpl; [|reflexivity].
    destruct viewBy as [|index]; [reflexivity|].
    destruct (getMonth d =? index)%Z; reflexivity.
  - unfold PageFinancial.listed, PageFinancial.inPeriod,
      PageFinancial.financialYear.
    destruct ((if 3 <=? getMonth d then getFullYear d
               else getFullYear d - 1) =? selectedYear)%Z;
      simpl; [|reflexivity].
    destruct viewBy as [|index]; [reflexivity|].
    destruct (Z.rem (getMonth d + 9) 12 =? index)%Z; reflexivity.
Qed.

(** X19: the financial-year page opens on the financial year that
    contains today, and the period text of a month view (month index 0
    to 11) is the English name of the calendar month the chart shows
    for this index, followed by the year the chart shows. *)
Theorem financial_page_labels_match_periods :
  (forall today,
     PageFinancial.inPeriod (PageFinancial.initialYear today) year today
     = true) /\
  (forall selectedYear index,
     (0 <= index <= 11)%Z ->
     let actualMonth := Z.rem (index + 3) 12 in
     let actualYear :=
       (if 9 <=? index then selectedYear + 1 else selectedYear)%Z in
     PageFinancial.periodText (month index) selectedYear
     = nth (Z.to_nat actualMonth) PageCalendar.MONTHS "" ++ " "
       ++ toString actualYear).
Proof.
  split.
  - intros today. rewrite PeriodFacts.financial_year_filter.
    unfold PageFinancial.initialYear, PageFinancial.financialYear.
    apply Z.eqb_eq.
    destruct (Z.leb_spec 3 (getMonth today)), (Z.ltb_spec (getMonth today) 3);
      try reflexivity; lia.
  - intros selectedYear index Hi actualMonth actualYear.
    unfold PageFinancial.periodText, actualMonth, actualYear.
    destruct (PeriodFacts.month_cases index Hi) as
      [H|[H|[H|[H|[H|[H|[H|[H|[H|[H|[H|H]]]]]]]]]]]; subst index;
      reflexivity.
Qed.

Lemma financial_page_labels_match_periods_witness :
  PageFinancial.periodText (month 10) 2026 = "February 2027".
Proof.
  rewrite (proj2 financial_page_labels_match_periods 2026%Z 10%Z
             ltac:(lia)).
  reflexivity.
Defined.

(** X20: the file names of the reports never contain a space, whatever
    the period and the label of the branch. *)
Theorem report_file_names_have_no_space :
  forall name viewBy selectedYear,
    spaceFree (PageFinancial.spendReportFileName viewBy selectedYear) /\
    spaceFree (PageFinancial.branchReportFileName name viewBy selectedYear).
Proof.
  intros name viewBy selectedYear.
  unfold PageFinancial.spendReportFileName,
    PageFinancial.branchReportFileName.
  split; repeat apply LabelFacts.spaceFree_app;
    try apply LabelFacts.spaceFree_replaceSpaces;
    simpl; repeat split; discriminate.
Qed.

(* ================================================================== *)
(** * The stats operation over doubles *)
(* ================================================================== *)

Module RouteDoubleFacts.
Import Js Odoo RouteDouble Spec ObjFacts.
Import PrimFloat.

Lemma addedUp_snoc l a : addedUp (l ++ [a])%list = (addedUp l + a)%float.
Proof. unfold addedUp. now rewrite fold_left_app. Qed.

(** What one round does to the running total and to the buckets. *)
Lemma accumulate_adds acc inv acc' :
  accumulate acc inv = Ok acc' ->
  totalRevenue acc' = (totalRevenue acc + amountTotal inv)%float /\
  sumNat (map Bucket.count (values (byAddress acc')))
  = S (sumNat (map Bucket.count (values (byAddress acc)))) /\
  ((forall e, In e (byAddress acc) -> bucketAddsUp (snd e)) ->
   forall e, In e (byAddress acc') -> bucketAddsUp (snd e)).
Proof.
  unfold accumulate.
  destruct (is_inherited (addressName inv)); [discriminate|].
  intros [= <-]. simpl.
  set (k := addressName inv). set (a := amountTotal inv).
  split; [reflexivity|]. split.
  - match goal with
    | |- context [set _ _ ?nb] =>
        pose proof (sumNat_set Bucket.count (byAddress acc) k nb) as Hs
    end.
    destruct (get (byAddress acc) k); cbn [Bucket.count] in *; lia.
  - intros Hall e He. apply In_set in He. destruct He as [-> | He]; auto.
    simpl. assert (Hb : bucketAddsUp
                    match get (byAddress acc) k with
                    | Some b => b
                    | None => Bucket.mk 0 0%float []
                    end).
    { destruct (get (byAddress acc) k) eqn:G.
      - apply get_In in G. apply (Hall _ G).
      - split; reflexivity. }
    destruct Hb as [Hc Ht]. split; simpl.
    + rewrite length_app. simpl. lia.
    + rewrite map_app. cbn [map Order.amount]. rewrite addedUp_snoc, Ht.
      reflexivity.
Qed.

(** The loop invariant, from any starting point. *)
Lemma forEach_accumulate_adds invoices : forall acc acc',
  forEach accumulate invoices acc = Ok acc' ->
  totalRevenue acc'
  = fold_left add (map amountTotal invoices) (totalRevenue acc) /\
  sumNat (map Bucket.count (values (byAddress acc')))
  = (sumNat (map Bucket.count (values (byAddress acc)))
     + List.length invoices)%nat /\
  ((forall e, In e (byAddress acc) -> bucketAddsUp (snd e)) ->
   forall e, In e (byAddress acc') -> bucketAddsUp (snd e)).
Proof.
  induction invoices as [|inv invoices IH]; intros acc acc'; simpl.
  - intros [= <-]. split; [reflexivity|]. split; [lia|auto].
  - destruct (accumulate acc inv) as [acc1|] eqn:E; simpl; [|discriminate].
    intros H. apply IH in H. apply accumulate_adds in E.
    destruct H as (H1 & H2 & H3), E as (E1 & E2 & E3).
    split; [|split].
    + rewrite H1, E1. reflexivity.
    + lia.
    + auto.
Qed.

(** A response that carries statistics was built by [process]. *)
Lemma stats_inversion env remote s :
  body (stats env remote) = Stats s ->
  exists mainPartner invoices, process mainPartner invoices = Ok s.
Proof.
  unfold stats.
  destruct (truthy (ODOO_CUSTOMER_REF env)) as [ref|]; [|discriminate].
  destruct (odooSearchRead env remote (PartnerByRef ref)) as [[|p ps]|];
    simpl; try discriminate.
  destruct (odooSearchRead env remote (PostedMoves (partner_id p)))
    as [invoices|]; simpl; try discriminate.
  destruct (process p invoices) as [s1|] eqn:E; simpl; try discriminate.
  intros [= <-]. eauto.
Qed.

Lemma process_inversion_double mainPartner invoices s :
  process mainPartner invoices = Ok s ->
  exists acc,
    forEach accumulate invoices
      {| totalRevenue := 0%float; byAddress := [] |} = Ok acc /\
    s = {| customer := partner_name mainPartner;
           kpi := Kpi.mk (totalRevenue acc) (List.length invoices) 0%float
                    (avgOrderValue (totalRevenue acc) (List.length invoices));
           salesByAddress := byAddress acc;
           recentInvoices :=
             map (fun inv => with_amount_total inv (amountTotal inv))
               invoices |}.
Proof.
  unfold process.
  destruct (forEach accumulate invoices _) as [acc|]; simpl; [|discriminate].
  intros [= <-]. eauto.
Qed.

End RouteDoubleFacts.

Import PrimFloat.

(** C9, at three invoices of 0.30, 0.20 and 0.10 of which the first and
    the last go to one address: the KPI revenue is (0.3 + 0.2) + 0.1,
    the bucket totals are 0.3 + 0.1 and 0.2, and the sum of the bucket
    totals is not the KPI revenue (it is the next double above it),
    in whichever order the two totals are added. *)
Lemma stats_revenue_is_not_the_sum_of_bucket_totals :
  exists s,
    RouteDouble.body (RouteDouble.stats Sample.env Sample.remoteDouble)
    = RouteDouble.Stats s /\
    RouteDouble.Kpi.revenue (RouteDouble.kpi s)
    = 0x1.3333333333333p-1%float /\
    map RouteDouble.Bucket.total (values (RouteDouble.salesByAddress s))
    = [0x1.999999999999ap-2; 0x1.999999999999ap-3]%float /\
    (0x1.999999999999ap-2 + 0x1.999999999999ap-3
     = 0x1.3333333333334p-1)%float /\
    (0x1.999999999999ap-3 + 0x1.999999999999ap-2
     = 0x1.3333333333334p-1)%float /\
    RouteDouble.Kpi.revenue (RouteDouble.kpi s)
    <> addedUp
         (map RouteDouble.Bucket.total
            (values (RouteDouble.salesByAddress s))).
Proof.
  eexists. split; [reflexivity|].
  split; [reflexivity|]. split; [reflexivity|].
  split; [reflexivity|]. split; [reflexivity|].
  intros H. vm_compute in H. discriminate H.
Qed.

(** C9: in every response that carries statistics, each bucket counts
    the orders it lists and its total is the sum of their amounts,
    added in the order listed; the KPI invoice count is the sum of the
    bucket counts and the length of the invoice list; and the KPI
    revenue is the sum of the amounts of the invoice list, added in the
    order listed. *)
Theorem stats_buckets_are_consistent :
  forall env remote s,
    RouteDouble.body (RouteDouble.stats env remote) = RouteDouble.Stats s ->
    (forall name b,
       In (name, b) (RouteDouble.salesByAddress s) ->
       RouteDouble.Bucket.count b
       = List.length (RouteDouble.Bucket.orders b) /\
       RouteDouble.Bucket.total b
       = addedUp (map RouteDouble.Order.amount
                    (RouteDouble.Bucket.orders b))) /\
    RouteDouble.Kpi.orders (RouteDouble.kpi s)
    = sumNat (map RouteDouble.Bucket.count
                (values (RouteDouble.salesByAddress s))) /\
    RouteDouble.Kpi.orders (RouteDouble.kpi s)
    = List.length (RouteDouble.recentInvoices s) /\
    RouteDouble.Kpi.revenue (RouteDouble.kpi s)
    = addedUp (map listedAmount (RouteDouble.recentInvoices s)).
Proof.
  intros env remote s H.
  apply RouteDoubleFacts.stats_inversion in H.
  destruct H as (mainPartner & invoices & H).
  apply RouteDoubleFacts.process_inversion_double in H.
  destruct H as (acc & Hacc & ->).
  apply RouteDoubleFacts.forEach_accumulate_adds in Hacc.
  destruct Hacc as (Hrev & Hcount & Hall). simpl in *.
  split; [|split; [|split]].
  - intros name b Hin. apply (Hall ltac:(intros e []) (name, b) Hin).
  - rewrite Hcount. reflexivity.
  - now rewrite length_map.
  - rewrite Hrev, map_map. reflexivity.
Qed.

Lemma stats_buckets_are_consistent_witness :
  exists s,
    RouteDouble.body (RouteDouble.stats Sample.env Sample.remoteDouble)
    = RouteDouble.Stats s /\
    RouteDouble.Kpi.orders (RouteDouble.kpi s) = 3%nat /\
    RouteDouble.Kpi.revenue (RouteDouble.kpi s)
    = addedUp (map listedAmount (RouteDouble.recentInvoices s)).
Proof.
  eexists. split; [reflexivity|]. split; [reflexivity|].
  apply (stats_buckets_are_consistent Sample.env Sample.remoteDouble _
           eq_refl).
Defined.

(* ================================================================== *)
(** * The location-spend view over doubles and code units *)
(* ================================================================== *)

Module PageDoubleFacts.
Import Js Page PageDouble Spec.
Import PrimFloat.
Local Open Scope list_scope.

(** ** Names as keys *)

Lemma textEqb_eq a b : textEqb a b = true <-> a = b.
Proof.
  revert b. induction a as [|u a IH]; intros [|v b]; simpl;
    try (split; [discriminate | intros [=]]); [tauto|].
  rewrite andb_true_iff, N.eqb_eq, IH. split.
  - intros [-> ->]. reflexivity.
  - intros [= -> ->]. auto.
Qed.

Section Assign.
Context {V : Type}.
Implicit Types (o : list (text * V)) (k : text) (v : V).

Lemma In_assign o k v e : In e (assign o k v) -> e = (k, v) \/ In e o.
Proof.
  induction o as [|[k' v'] o IH]; simpl.
  - intros [<-|[]]. now left.
  - destruct (textEqb k k') eqn:E; simpl.
    + apply textEqb_eq in E. subst k'. intros [<-|H]; auto.
    + intros [<-|H]; auto. apply IH in H. tauto.
Qed.

Lemma In_assign_same o k v : In (k, v) (assign o k v).
Proof.
  induction o as [|[k' v'] o IH]; simpl; [now left|].
  destruct (textEqb k k') eqn:E; simpl; auto.
  apply textEqb_eq in E. subst k'. now left.
Qed.

Lemma In_assign_other o k v k' v' :
  k' <> k -> In (k', v') o -> In (k', v') (assign o k v).
Proof.
  intros Hne. induction o as [|[k0 v0] o IH]; simpl; [tauto|].
  destruct (textEqb k k0) eqn:E; simpl.
  - apply textEqb_eq in E. subst k0.
    intros [[= <- <-]|H]; [contradiction Hne; reflexivity | auto].
  - intros [H|H]; auto.
Qed.

Lemma names_assign o k v :
  In k (map fst o) -> map fst (assign o k v) = map fst o.
Proof.
  induction o as [|[k' v'] o IH]; simpl; [tauto|].
  destruct (textEqb k k') eqn:E; simpl; [reflexivity|].
  intros [H|H]; [|now rewrite IH].
  subst k'. assert (E' : textEqb k k = true) by now apply textEqb_eq.
  congruence.
Qed.

Lemma names_assign_new o k v :
  ~ In k (map fst o) -> map fst (assign o k v) = (map fst o ++ [k])%list.
Proof.
  induction o as [|[k' v'] o IH]; simpl; [reflexivity|].
  intros Hnot. destruct (textEqb k k') eqn:E; simpl.
  - apply textEqb_eq in E. subst k'. tauto.
  - now rewrite IH by tauto.
Qed.

Lemma NoDup_assign o k v :
  NoDup (map fst o) -> NoDup (map fst (assign o k v)).
Proof.
  intros Hnd. destruct (in_dec (list_eq_dec N.eq_dec) k (map fst o)) as [H|H].
  - now rewrite names_assign.
  - rewrite names_assign_new by exact H.
    apply NoDup_app; auto.
    + repeat constructor. simpl. tauto.
    + intros x Hx [<-|[]]. contradiction.
Qed.

Lemma In_unique o k v v' :
  NoDup (map fst o) -> In (k, v) o -> In (k, v') o -> v = v'.
Proof.
  induction o as [|[k0 v0] o IH]; simpl; [tauto|].
  intros Hnd. inversion Hnd as [|? ? Hnot Hnd']; subst.
  intros [[= -> ->]|H1] [[= <-]|H2]; auto.
  - exfalso. apply Hnot. now apply (in_map fst) in H2.
  - exfalso. subst. apply Hnot. now apply (in_map fst) in H1.
Qed.

End Assign.

(** ** Sorting keeps the elements *)

Section Sorting.
Context {A : Type} (compare : A -> A -> float).

Lemma In_insertSorted_double a l x :
  In x (insertSorted compare a l) <-> x = a \/ In x l.
Proof.
  induction l as [|b l IH]; simpl.
  - intuition.
  - destruct (Double.gt0 (compare a b)); simpl; rewrite ?IH; intuition.
Qed.

Lemma In_sort_double l x : In x (sort compare l) <-> In x l.
Proof.
  unfold sort. induction l as [|a l IH]; simpl; [tauto|].
  rewrite In_insertSorted_double, IH. intuition.
Qed.

End Sorting.

(** ** Totals *)

Lemma or0_amountOf o : Double.or0 (Order.amount o) = amountOf o.
Proof.
  unfold Double.or0, amountOf, is_nan, is_zero.
  destruct (Order.amount o) as [a|]; [|reflexivity].
  destruct (a =? a)%float; simpl; [|reflexivity].
  change zero with 0%float. now destruct (a =? 0)%float.
Qed.

Lemma sumAmounts_addedUp orders :
  sumAmounts orders = addedUp (map amountOf orders).
Proof.
  unfold sumAmounts, addedUp. generalize 0%float.
  induction orders as [|o orders IH]; intros a; simpl; [reflexivity|].
  now rewrite IH, or0_amountOf.
Qed.

(** ** Periods *)

Lemma on_date_dated_double (p : JsDate -> bool) (period : JsDate -> Prop) o :
  (forall d, Order.date o = Some d -> (p d = true <-> period d)) ->
  on_date p o = true <-> dated Order.date period o.
Proof.
  intros H. unfold on_date, dated. destruct (Order.date o) as [d|].
  - rewrite (H d eq_refl). split.
    + eauto.
    + now intros (d' & [= <-] & Hd).
  - split; [discriminate | intros (d & D & _); discriminate].
Qed.

(** ** The per-address aggregation *)

Section Aggregation.
Variable keep : Order.t -> bool.

Lemma fold_step_entries sales : forall acc e,
  In e (fold_left (aggregateEntry keep) sales acc) ->
  In e acc \/
  exists stats,
    In (fst e, stats) sales /\
    snd e = (sumAmounts (filter keep (Group.orders stats)),
             filter keep (Group.orders stats)) /\
    Double.gt0 (sumAmounts (filter keep (Group.orders stats))) = true.
Proof.
  induction sales as [|[name stats] sales IH]; intros acc e; simpl.
  - auto.
  - intros H. apply IH in H. destruct H as [H|H].
    + unfold aggregateEntry in H. simpl in H.
      destruct (Double.gt0 (sumAmounts (filter keep (Group.orders stats))))
        eqn:G; auto.
      destruct (isProto name); auto.
      apply In_assign in H. destruct H as [-> | H]; auto.
      right. exists stats. simpl. auto.
    + right. destruct H as (stats' & Hin & Hrest).
      exists stats'. split; [now right | exact Hrest].
Qed.

Lemma fold_step_keeps sales : forall acc name x,
  ~ In name (map fst sales) ->
  In (name, x) acc ->
  In (name, x) (fold_left (aggregateEntry keep) sales acc).
Proof.
  induction sales as [|[name' stats] sales IH]; intros acc name x Hnot Hin;
    simpl in *; auto.
  apply IH; [tauto|]. unfold aggregateEntry. simpl.
  destruct (Double.gt0 _); auto. destruct (isProto name'); auto.
  apply In_assign_other; auto.
Qed.

(** With distinct address names, an address with a positive total of
    the period is aggregated with this total, unless it is named
    ["__proto__"]. *)
Lemma fold_step_entry sales : forall acc name stats,
  NoDup (map fst sales) ->
  In (name, stats) sales ->
  Double.gt0 (sumAmounts (filter keep (Group.orders stats))) = true ->
  isProto name = false ->
  In (name, (sumAmounts (filter keep (Group.orders stats)),
             filter keep (Group.orders stats)))
    (fold_left (aggregateEntry keep) sales acc).
Proof.
  induction sales as [|[name' stats'] sales IH];
    intros acc name stats Hnd Hin Hpos Hproto; simpl in *.
  - contradiction.
  - inversion Hnd as [|? ? Hnot Hnd']; subst. destruct Hin as [Heq|Hin].
    + injection Heq as -> ->.
      apply fold_step_keeps; [exact Hnot|].
      unfold aggregateEntry. simpl.
      rewrite Hpos, Hproto. apply In_assign_same.
    + now apply IH.
Qed.

End Aggregation.

(** ** The bars *)

Lemma In_deliveryBarDataBy withOrders keep data bar :
  In bar (deliveryBarDataBy withOrders keep (Some data)) <->
  exists entry,
    In entry (aggregate keep (salesByAddress data)) /\
    bar = barOf withOrders (customerNameOf data) entry.
Proof.
  unfold deliveryBarDataBy. rewrite In_sort_double, in_map_iff.
  split; intros (entry & H1 & H2); exists entry; split; auto.
Qed.

Lemma isProto_false name :
  name <> [95; 95; 112; 114; 111; 116; 111; 95; 95]%N -> isProto name = false.
Proof.
  intros H. unfold isProto. destruct (textEqb _ _) eqn:E; [|reflexivity].
  apply textEqb_eq in E. contradiction.
Qed.

(** The bars of a filter that selects the orders of a period. *)
Lemma bars_show_period_totals withOrders keep period data :
  (forall name stats o,
     In (name, stats) (salesByAddress data) ->
     In o (Group.orders stats) ->
     (keep o = true <-> dated Order.date period o)) ->
  showsPeriodTotals period data
    (deliveryBarDataBy withOrders keep (Some data)).
Proof.
  intros Hkeep.
  assert (Hsel : forall name stats,
            In (name, stats) (salesByAddress data) ->
            selects (dated Order.date period) (Group.orders stats)
              (filter keep (Group.orders stats))).
  { intros name stats Hin. apply SelectionFacts.selects_filter.
    intros o Ho. now apply (Hkeep name stats). }
  split.
  - intros bar Hbar. apply In_deliveryBarDataBy in Hbar.
    destruct Hbar as (entry & Hentry & ->).
    apply fold_step_entries in Hentry.
    destruct Hentry as [[]|(stats & Hin & Hsnd & Hpos)].
    exists stats, (filter keep (Group.orders stats)). simpl.
    rewrite Hsnd. simpl. split; [exact Hin|].
    split; [exact (Hsel _ _ Hin)|].
    split; [apply sumAmounts_addedUp | exact Hpos].
  - intros Hnd name stats selected Hin Hselected.
    assert (selected = filter keep (Group.orders stats)) as ->
      by (eapply SelectionFacts.selects_unique; eauto).
    rewrite <- sumAmounts_addedUp. split.
    + intros Hle bar Hbar Hname.
      apply In_deliveryBarDataBy in Hbar.
      destruct Hbar as (entry & Hentry & ->). simpl in Hname.
      apply fold_step_entries in Hentry.
      destruct Hentry as [[]|(stats' & Hin' & Hsnd & Hpos)].
      rewrite Hname in Hin'.
      assert (stats' = stats) by (eapply In_unique; eauto).
      subst stats'. unfold Double.gt0 in Hpos. congruence.
    + intros Hpos Hname.
      eexists. split.
      * apply In_deliveryBarDataBy. eexists. split; [|reflexivity].
        apply (fold_step_entry keep (salesByAddress data) [] name stats);
          auto using isProto_false.
      * split; reflexivity.
Qed.

(** ** Labels *)

















Lemma beforeComma_eq s :
  beforeComma s
  = match s with
    | u :: s' => if (u =? 44)%N then [] else u :: beforeComma s'
    | [] => []
    end.
Proof.
  destruct s as [|u s]; [reflexivity|]. destruct u as [|p]; [reflexivity|].
  do 6 (try (destruct p as [p|p|]; try reflexivity)).
Qed.

Lemma beforeComma_cons u s :
  u <> 44%N -> beforeComma (u :: s) = u :: beforeComma s.
Proof.
  intros Hu. rewrite beforeComma_eq.
  destruct (N.eqb_spec u 44); [contradiction | reflexivity].
Qed.

(** [beforeComma] computes what [firstPart] describes. *)
Lemma beforeComma_firstPart addr : firstPart addr (beforeComma addr).
Proof.
  unfold firstPart. induction addr as [|u addr [IH1 IH2]].
  - simpl. split; [tauto | now left].
  - destruct (N.eq_dec u 44) as [->|Hu].
    + simpl. split; [tauto|]. right. exists addr. reflexivity.
    + rewrite beforeComma_cons by exact Hu. split.
      * simpl. intros [H|H]; [congruence | contradiction].
      * destruct IH2 as [IH2|(rest & IH2)].
        -- left. now rewrite <- IH2.
        -- right. exists rest. simpl. now rewrite <- IH2.
Qed.

Lemma firstPart_unique addr f1 f2 :
  firstPart addr f1 -> firstPart addr f2 -> f1 = f2.
Proof.
  revert f1 f2. induction addr as [|u addr IH]; intros f1 f2 [N1 H1] [N2 H2].
  - destruct H1 as [<-|(r1 & H1)]; [|now destruct f1].
    destruct H2 as [<-|(r2 & H2)]; [reflexivity | now destruct f2].
  - assert (Hhead : forall f, ~ In 44%N f ->
              (u :: addr = f \/ exists rest, u :: addr = (f ++ 44%N :: rest)%list) ->
              (f = [] /\ u = 44%N) \/
              (exists f', f = u :: f' /\ u <> 44%N /\ firstPart addr f')).
    { intros f Nf [<-|(rest & E)].
      - right. exists addr. split; [reflexivity|]. split.
        + intros ->. apply Nf. now left.
        + split; [|now left]. intros H. apply Nf. now right.
      - destruct f as [|v f']; simpl in E.
        + left. injection E as -> _. auto.
        + right. injection E as <- E. exists f'. split; [reflexivity|].
          split.
          * intros ->. apply Nf. now left.
          * split; [|right; eauto]. intros H. apply Nf. now right. }
    destruct (Hhead f1 N1 H1) as [[-> E1]|(f1' & -> & U1 & F1)],
             (Hhead f2 N2 H2) as [[-> E2]|(f2' & -> & U2 & F2)];
      try reflexivity; try contradiction.
    f_equal. now apply IH.
Qed.

(** [transformAddressName] computes what [labelled] describes. *)
Lemma transformAddressName_labelled addr :
  labelled addr (transformAddressName addr).
Proof.
  intros first H.
  rewrite (firstPart_unique _ _ _ H (beforeComma_firstPart addr)).
  unfold transformAddressName. split; intros Hlen.
  - destruct (Nat.ltb_spec 35 (List.length (beforeComma addr)));
      [lia | reflexivity].
  - destruct (Nat.ltb_spec 35 (List.length (beforeComma addr)));
      [reflexivity | lia].
Qed.


End PageDoubleFacts.

Import PageDouble.
#[local] Set Warnings "-inexact-float".




(** C10, at the sample: the orders of "ACME, Returns" in 2026 are two
    invoices of 3.42 and 2.81 and two credit notes of 2.89 and 3.34;
    the numbers these four doubles stand for sum to zero, and yet the
    address is shown, with the total 2^-51 that the four additions
    leave. *)
Lemma zero_sum_address_is_shown :
  exists bar stats,
    In bar (Calendar.deliveryBarData (Some Sample.pageDataD) year 2026) /\
    Bar.fullName bar = lit "ACME, Returns" /\
    In (Bar.fullName bar, stats) (salesByAddress Sample.pageDataD) /\
    selects (dated Order.date (inCalendarPeriod 2026 year))
      (Group.orders stats)
      (Group.orders stats) /\
    map amountOf (Group.orders stats) = [3.42; 2.81; -2.89; -3.34]%float /\
    (exists q,
       exactSum (map amountOf (Group.orders stats)) = Some q /\
       (q == 0)%Q) /\
    Bar.value bar = 0x1p-51%float /\
    (0 <? Bar.value bar)%float = true.
Proof.
  exists (Bar.mk (lit "Returns") (lit "ACME, Returns") 0x1p-51 None),
    (Group.mk 4 0 Sample.returns).
  split; [vm_compute; tauto|]. split; [reflexivity|].
  split; [vm_compute; tauto|].
  split.
  { simpl. repeat (constructor; [eexists; split; reflexivity|]).
    constructor. }
  split; [reflexivity|].
  split; [|split; reflexivity].
  eexists. split; vm_compute; reflexivity.
Qed.

(** C10: in the location-spend view of both pages, an address is shown
    only when the amounts of its orders of the selected period, added
    one after the other in double arithmetic, leave a strictly positive
    total, and the bar shows this total; an address whose total is not
    positive is left out, and one whose total is positive is shown
    (address names being distinct, as the keys of an object are,
    and the name "__proto__" apart).  The period of the calendar page
    is the selected year, or the selected month of it; the period of
    the financial-year page is April of the selected year to March of
    the next, or the month of it with the selected index (0 to 11,
    counted from April), the months of the order dates being months of
    the calendar. *)
Theorem address_shown_only_with_positive_total :
  forall data viewBy selectedYear,
    showsPeriodTotals (inCalendarPeriod selectedYear viewBy) data
      (Calendar.deliveryBarData (Some data) viewBy selectedYear) /\
    (match viewBy with
     | year => True
     | month index => (0 <= index <= 11)%Z
     end ->
     monthsAreValid data ->
     showsPeriodTotals (inFinancialPeriod selectedYear viewBy) data
       (Financial.deliveryBarData (Some data) viewBy selectedYear)).
Proof.
  intros data viewBy selectedYear. split.
  - apply PageDoubleFacts.bars_show_period_totals.
    intros name stats o _ _. apply PageDoubleFacts.on_date_dated_double.
    intros d _. apply PeriodFacts.calendar_period_date.
  - intros Hview Hmonths.
    apply PageDoubleFacts.bars_show_period_totals.
    intros name stats o Hin Ho. apply PageDoubleFacts.on_date_dated_double.
    intros d D. apply PeriodFacts.financial_period_date; [exact Hview|].
    exact (Hmonths name stats o d Hin Ho D).
Qed.

(** In May 2026 (index 1 of the financial year 2026) "ACME, Closed" has
    an invoice of 40 and a credit note of 40: it is left out. *)
Lemma address_shown_only_with_positive_total_witness :
  NoDup (map fst (salesByAddress Sample.pageDataD)) /\
  ~ (exists bar,
       In bar (Financial.deliveryBarData (Some Sample.pageDataD) (month 1)
                 2026) /\
       Bar.fullName bar = lit "ACME, Closed").
Proof.
  assert (Hnd : NoDup (map fst (salesByAddress Sample.pageDataD))).
  { vm_compute. repeat (constructor; [simpl; intuition discriminate|]).
    constructor. }
  assert (Hmonths : monthsAreValid Sample.pageDataD).
  { intros name stats o d Hin Ho D. simpl in Hin.
    repeat (destruct Hin as [[= <- <-]|Hin];
            [simpl in Ho;
             repeat (destruct Ho as [<-|Ho];
                     [injection D as <-; simpl; lia|]);
             contradiction|]).
    contradiction. }
  split; [exact Hnd|]. intros (bar & Hbar & Hname).
  refine (proj1 (proj2 (proj2 (address_shown_only_with_positive_total
                                 Sample.pageDataD (month 1) 2026)
                          ltac:(simpl; lia) Hmonths)
                   Hnd (lit "ACME, Closed")
                   (Group.mk 2 0
                      [Sample.pageOrderD 2026 4 3 40;
                       Sample.pageOrderD 2026 4 9 (-40)])
                   [Sample.pageOrderD 2026 4 3 40;
                    Sample.pageOrderD 2026 4 9 (-40)] _ _)
            _ bar Hbar Hname).
  - simpl. right. right. left. reflexivity.
  - repeat (constructor; [eexists; split; reflexivity|]). constructor.
  - reflexivity.
Defined.

(** X21: the label of a bar is the address cut before its first comma,
    or the whole address when it has no comma, if that has at most 35
    code units, and else the first 33 code units of it followed by
    "..."; it has at most 36 code units.  The name it is computed from,
    cleaned of the customer name, has at least 2 code units. *)
Theorem address_label_is_bounded :
  forall addr customerName,
    (exists first, firstPart addr first) /\
    (forall first,
       firstPart addr first ->
       ((List.length first <= 35)%nat -> transformAddressName addr = first) /\
       ((35 < List.length first)%nat ->
        transformAddressName addr = (firstn 33 first ++ ellipsis)%list)) /\
    (List.length (transformAddressName addr) <= 36)%nat /\
    (2 <= List.length (cleanName customerName addr))%nat.
Proof.
  intros addr customerName.
  split; [exists (beforeComma addr);
          apply PageDoubleFacts.beforeComma_firstPart|].
  split; [apply PageDoubleFacts.transformAddressName_labelled|]. split.
  - unfold transformAddressName.
    destruct (Nat.ltb_spec 35 (List.length (beforeComma addr))) as [H|H].
    + change (substring 0 33 (beforeComma addr))
        with (firstn 33 (beforeComma addr)).
      rewrite length_app, length_firstn.
      change (List.length (lit "...")) with 3%nat. lia.
    + lia.
  - unfold cleanName.
    destruct (Nat.ltb_spec
                (List.length (stripCustomer customerName addr)) 2) as [H|H].
    + simpl. lia.
    + exact H.
Qed.

(** "Leith Walk, Edinburgh" is labelled "Leith Walk". *)
Lemma address_label_is_bounded_witness :
  transformAddressName (lit "Leith Walk, Edinburgh") = lit "Leith Walk".
Proof.
  apply (proj1 (proj2 (address_label_is_bounded
                         (lit "Leith Walk, Edinburgh") []))
           (lit "Leith Walk")).
  - split.
    + vm_compute. intuition discriminate.
    + right. exists (lit " Edinburgh"). reflexivity.
  - simpl. lia.
Defined.
